(** * neartha-mlist: the hash scraper's normalise / merge / aggregate pipeline

    A shallow embedding of [.github/workflows/scripts/hash_scraper.py].

    - Python [str] values are sequences of code points ([pystr]).
    - Values that travel through [json.load] / [json.dump] are [json] trees;
      a Python [dict] is an insertion-ordered association list ([odict]),
      because [json.dump] writes the members in insertion order.
    - A statement that may raise is a computation in the [exc] monad and
      [try ... except Exception] is [try_except].
    - The clock ([datetime.now()]), the files under [hashes/] and the
      payloads delivered by the network are explicit arguments. *)

From Stdlib Require Import ZArith NArith List Ascii String Lia Bool.
From stdpp Require Import base decidable option list gmap.
Import ListNotations.

Set Warnings "-register-all,-clear-no-such-hyp".

Local Open Scope N_scope.

(* ===================================================================== *)
(** ** Python strings                                                     *)
(* ===================================================================== *)

(** A [str] is a sequence of Unicode code points. *)
Definition pystr := list N.

Fixpoint py (s : string) : pystr :=
  match s with
  | EmptyString => []
  | String a r => N_of_ascii a :: py r
  end.

Definition str_eqb (a b : pystr) : bool := bool_decide (a = b).

(** [s.startswith(p)] *)
Fixpoint startswith (s p : pystr) : bool :=
  match p, s with
  | [], _ => true
  | _ :: _, [] => false
  | c :: p', d :: s' => (c =? d) && startswith s' p'
  end.

(** [p in s] for two strings: [p] occurs as a contiguous slice of [s]. *)
Fixpoint str_contains (s p : pystr) : bool :=
  startswith s p ||
  match s with
  | [] => false
  | _ :: s' => str_contains s' p
  end.

(** [sep.join(parts)] *)
Fixpoint str_join (sep : pystr) (parts : list pystr) : pystr :=
  match parts with
  | [] => []
  | [p] => p
  | p :: rest => p ++ sep ++ str_join sep rest
  end.

(** [s.split(d)] for a one-character delimiter [d]: always at least one
    field, empty fields are kept. *)
Fixpoint split_on (d : N) (s : pystr) : list pystr :=
  match s with
  | [] => [[]]
  | c :: s' =>
      if c =? d then [] :: split_on d s'
      else match split_on d s' with
           | [] => [[c]]
           | f :: fs => (c :: f) :: fs
           end
  end.

(** [s.replace(a, b)] for one-character [a] and [b]. *)
Definition replace_char (a b : N) (s : pystr) : pystr :=
  map (fun c => if c =? a then b else c) s.

(* ===================================================================== *)
(** ** Exceptions                                                         *)
(* ===================================================================== *)

Inductive exn : Type :=
  | AttributeError
  | TypeError
  | IndexError
  | ValueError
  | OSError.

Inductive exc (A : Type) : Type :=
  | Ret (a : A)
  | Raise (e : exn).
Arguments Ret {A} a.
Arguments Raise {A} e.

Definition exc_bind {A B} (m : exc A) (k : A -> exc B) : exc B :=
  match m with
  | Ret a => k a
  | Raise e => Raise e
  end.

Notation "'let!' x ':=' m 'in' k" := (exc_bind m (fun x => k))
  (at level 10, x name, m at level 100, k at level 200).

(** [try: body   except Exception as e: handler e] *)
Definition try_except {A} (body : exc A) (handler : exn -> exc A) : exc A :=
  match body with
  | Ret a => Ret a
  | Raise e => handler e
  end.

Definition raises {A} (m : exc A) : Prop := exists e, m = Raise e.

(* ===================================================================== *)
(** ** Insertion-ordered dictionaries                                     *)
(* ===================================================================== *)

Definition odict (V : Type) := list (pystr * V).

Section ODict.
Context {V : Type}.

(** [d.get(k)] *)
Fixpoint od_get (d : odict V) (k : pystr) : option V :=
  match d with
  | [] => None
  | (k', v) :: d' => if str_eqb k' k then Some v else od_get d' k
  end.

(** [k in d] *)
Definition od_mem (d : odict V) (k : pystr) : bool :=
  match od_get d k with Some _ => true | None => false end.

(** [d[k] = v]: an existing key keeps its position, a new key goes last. *)
Fixpoint od_set (d : odict V) (k : pystr) (v : V) : odict V :=
  match d with
  | [] => [(k, v)]
  | (k', v') :: d' =>
      if str_eqb k' k then (k', v) :: d' else (k', v') :: od_set d' k v
  end.

(** [del d[k]] *)
Fixpoint od_remove (d : odict V) (k : pystr) : odict V :=
  match d with
  | [] => []
  | (k', v') :: d' =>
      if str_eqb k' k then d' else (k', v') :: od_remove d' k
  end.

Definition od_keys (d : odict V) : list pystr := map fst d.
End ODict.

(* ===================================================================== *)
(** ** JSON values and the Python operations the script applies to them   *)
(* ===================================================================== *)

(** What [json.load] returns. Numbers are integers; fractional numbers
    are outside the embedding. *)
Inductive json : Type :=
  | JNull
  | JBool (b : bool)
  | JNum (n : Z)
  | JStr (s : pystr)
  | JArr (l : list json)
  | JObj (o : list (pystr * json)).

(** Truth value of a JSON value, as [if x], [not x], [x or y] see it. *)
Definition truthy (v : json) : bool :=
  match v with
  | JNull => false
  | JBool b => b
  | JNum n => negb (Z.eqb n 0)
  | JStr s => match s with [] => false | _ => true end
  | JArr l => match l with [] => false | _ => true end
  | JObj o => match o with [] => false | _ => true end
  end.

(** [x or y] *)
Definition py_or (x y : json) : json := if truthy x then x else y.

(** [x.get(k, default)]: only a dict has [get]. *)
Definition py_get (x : json) (k : pystr) (default : json) : exc json :=
  match x with
  | JObj o => Ret (match od_get o k with Some v => v | None => default end)
  | _ => Raise AttributeError
  end.

(** [x[k] = v] with a string [k]: only a dict accepts it. *)
Definition py_setitem (x : json) (k : pystr) (v : json) : exc json :=
  match x with
  | JObj o => Ret (JObj (od_set o k v))
  | _ => Raise TypeError
  end.

(** [k in x] with a string [k]: key test on a dict, element test on a
    list, substring test on a string; other values are not containers. *)
Definition py_contains (x : json) (k : pystr) : exc bool :=
  match x with
  | JObj o => Ret (od_mem o k)
  | JArr l =>
      Ret (existsb (fun v => match v with JStr s => str_eqb s k | _ => false end) l)
  | JStr s => Ret (str_contains s k)
  | _ => Raise TypeError
  end.

(** [x.items()] *)
Definition py_items (x : json) : exc (list (pystr * json)) :=
  match x with
  | JObj o => Ret o
  | _ => Raise AttributeError
  end.

(** [x.keys()] *)
Definition py_keys (x : json) : exc (list pystr) :=
  match x with
  | JObj o => Ret (od_keys o)
  | _ => Raise AttributeError
  end.

(** [len(x)] *)
Definition py_len (x : json) : exc nat :=
  match x with
  | JObj o => Ret (length o)
  | JArr l => Ret (length l)
  | JStr s => Ret (length s)
  | _ => Raise TypeError
  end.

(** [for e in x]: the sequence of values the loop variable takes. *)
Definition py_iter (x : json) : exc (list json) :=
  match x with
  | JArr l => Ret l
  | JObj o => Ret (map (fun kv => JStr (fst kv)) o)
  | JStr s => Ret (map (fun c => JStr [c]) s)
  | _ => Raise TypeError
  end.

(* Member names and literals of the script. *)
Definition k_version : pystr := py "version".
Definition k_last_updated : pystr := py "last_updated".
Definition k_description : pystr := py "description".
Definition k_source : pystr := py "source".
Definition k_sha256_signatures : pystr := py "sha256_signatures".
Definition default_version : json := JStr (py "1.0.0").

(* ===================================================================== *)
(** ** The tree under [hashes/]                                           *)
(* ===================================================================== *)

(** A file is seen through [json.load]: it yields a document, or opening
    or decoding it raises. *)
Inductive file : Type :=
  | Corrupt
  | Doc (j : json).

(** [hashes/<directory>/<file name>] *)
Definition filesystem := odict (odict file).

Definition read_file (fs : filesystem) (dir name : pystr) : option file :=
  match od_get fs dir with
  | Some d => od_get d name
  | None => None
  end.

(** [os.path.exists(filepath)] *)
Definition path_exists (fs : filesystem) (dir name : pystr) : bool :=
  match read_file fs dir name with Some _ => true | None => false end.

(** [os.makedirs(directory, exist_ok=True)] *)
Definition makedirs (fs : filesystem) (dir : pystr) : filesystem :=
  match od_get fs dir with
  | Some _ => fs
  | None => od_set fs dir []
  end.

(** [with open(filepath, 'w') as f: json.dump(data, f)] *)
Definition write_file (fs : filesystem) (dir name : pystr) (data : json) : filesystem :=
  match od_get fs dir with
  | Some d => od_set fs dir (od_set d name (Doc data))
  | None => od_set fs dir [(name, Doc data)]
  end.

(** [with open(filepath, 'r') as f: json.load(f)] *)
Definition json_load (fs : filesystem) (dir name : pystr) : exc json :=
  match read_file fs dir name with
  | Some (Doc j) => Ret j
  | Some Corrupt => Raise ValueError
  | None => Raise OSError
  end.

(* ===================================================================== *)
(** ** [save_hash_data]                                                   *)
(* ===================================================================== *)

(** Lines 59-61: the loop over [data.get('sha256_signatures', {}).items()]. *)
Fixpoint merge_signatures (items : list (pystr * json)) (existing_signatures : json)
  : exc json :=
  match items with
  | [] => Ret existing_signatures
  | (hash_key, hash_data) :: rest =>
      let! present := py_contains existing_signatures hash_key in
      if present then merge_signatures rest existing_signatures
      else
        let! updated := py_setitem existing_signatures hash_key hash_data in
        merge_signatures rest updated
  end.

(** Lines 53-63: the body of the [try] once [existing_data] is loaded;
    the value returned is what [data] is rebound to on line 64. *)
Definition merge_existing (now : pystr) (existing_data data : json) : exc json :=
  let! version := py_get data k_version default_version in
  let! e1 := py_setitem existing_data k_version version in
  let! e2 := py_setitem e1 k_last_updated (JStr now) in
  let! existing_signatures := py_get e2 k_sha256_signatures (JObj []) in
  let! new_signatures := py_get data k_sha256_signatures (JObj []) in
  let! items := py_items new_signatures in
  let! merged := merge_signatures items existing_signatures in
  py_setitem e2 k_sha256_signatures merged.

(** [save_hash_data(source_name, filename, data)] at clock reading [now]. *)
Definition save_hash_data (now : pystr) (source_name filename : pystr) (data : json)
    (fs : filesystem) : exc filesystem :=
  let fs := makedirs fs source_name in
  let! data :=
    (if path_exists fs source_name filename then
       try_except
         (let! existing_data := json_load fs source_name filename in
          merge_existing now existing_data data)
         (fun _ => Ret data)
     else Ret data) in
  try_except (Ret (write_file fs source_name filename data)) (fun _ => Ret fs).

(* ===================================================================== *)
(** ** [generate_hash_structure]                                          *)
(* ===================================================================== *)

Definition k_classification : pystr := py "classification".
Definition k_detection_rate : pystr := py "detection_rate".
Definition k_first_seen : pystr := py "first_seen".
Definition k_neartha_name : pystr := py "neartha_name".
Definition k_additional_info : pystr := py "additional_info".
Definition k_file_type : pystr := py "file_type".
Definition s_Unknown : pystr := py "Unknown".

(** [x.replace(' ', '.')]: a method of [str] only. *)
Definition py_replace_space (x : json) : exc pystr :=
  match x with
  | JStr s => Ret (replace_char 32 46 s)
  | _ => Raise AttributeError
  end.

(** [generate_hash_structure(hash_value, classification, detection_rate,
    additional_info, file_type)]; [today] is
    [datetime.now().strftime('%Y-%m-%d')], an omitted optional argument is
    [JNull]. *)
Definition generate_hash_structure (today : pystr)
    (hash_value classification detection_rate additional_info file_type : json)
  : exc json :=
  let! neartha_name := py_replace_space classification in
  Ret (JObj [ (k_classification, classification);
              (k_detection_rate, detection_rate);
              (k_first_seen, JStr today);
              (k_neartha_name, JStr neartha_name);
              (k_additional_info, py_or additional_info (JStr []));
              (k_file_type, py_or file_type (JStr s_Unknown)) ]).

(* ===================================================================== *)
(** ** [generate_stats]                                                   *)
(* ===================================================================== *)

Record source_stats : Type := { files : nat; hashes : nat }.

Record stats : Type := {
  last_update : pystr;
  sources : odict source_stats;
  total_unique_hashes : nat
}.

(** [s.endswith(p)] *)
Definition endswith (s p : pystr) : bool := startswith (rev s) (rev p).

Definition ext_json : pystr := py ".json".

Definition hash_dirs : list pystr :=
  [py "virustotal"; py "malwarebazaar"; py "urlhaus"; py "daily"].

(** Lines 461-473, the [try] around one file. The counter update on line
    466 happens before [signatures.keys()] is evaluated, so what the body
    did before an exception stays done. *)
Definition count_file (f : file) (st : source_stats * gset pystr)
  : source_stats * gset pystr :=
  let '(dir_stats, total_hashes) := st in
  match f with
  | Corrupt => st
  | Doc data =>
      match py_get data k_sha256_signatures (JObj []) with
      | Raise _ => st
      | Ret signatures =>
          match py_len signatures with
          | Raise _ => st
          | Ret n =>
              let dir_stats :=
                {| files := files dir_stats; hashes := hashes dir_stats + n |} in
              match py_keys signatures with
              | Raise _ => (dir_stats, total_hashes)
              | Ret ks =>
                  (dir_stats,
                   fold_left (fun acc hash_key => {[hash_key]} ∪ acc) ks total_hashes)
              end
          end
      end
  end.

(** Lines 457-473: the loop over [os.listdir(dir_path)]. *)
Fixpoint count_dir (listing : odict file) (st : source_stats * gset pystr)
  : source_stats * gset pystr :=
  match listing with
  | [] => st
  | (name, f) :: rest =>
      if endswith name ext_json then
        let '(dir_stats, total_hashes) := st in
        let dir_stats :=
          {| files := files dir_stats + 1; hashes := hashes dir_stats |} in
        count_dir rest (count_file f (dir_stats, total_hashes))
      else count_dir rest st
  end.

(** Lines 447-473: the loop over [hash_dirs]. *)
Fixpoint count_dirs (fs : filesystem) (dirs : list pystr)
    (st : odict source_stats * gset pystr) : odict source_stats * gset pystr :=
  match dirs with
  | [] => st
  | dir_name :: rest =>
      match od_get fs dir_name with
      | None => count_dirs fs rest st
      | Some listing =>
          let '(srcs, total_hashes) := st in
          let '(dir_stats, total_hashes) :=
            count_dir listing ({| files := 0; hashes := 0 |}, total_hashes) in
          count_dirs fs rest (od_set srcs dir_name dir_stats, total_hashes)
      end
  end.

(** Lines 436-475 of [generate_stats()]: the snapshot that is then written
    to [stats.json] and rendered into [SUMMARY.md]. *)
Definition generate_stats (now : pystr) (fs : filesystem) : stats :=
  let '(srcs, total_hashes) := count_dirs fs hash_dirs ([], ∅) in
  {| last_update := now;
     sources := srcs;
     total_unique_hashes := size total_hashes |}.

(* ===================================================================== *)
(** ** What the interpreter and the libraries supply                      *)
(* ===================================================================== *)

(** Character tables beyond ASCII, [str()] of a non-string value and the
    HTML parser are not code of this repository: the embedding takes them
    as an interface and every result holds for each implementation. *)
Class Runtime : Type := {
  (** [c.isalnum()] for a code point above 127 (the [\w] class of [re]) *)
  unicode_alnum : N -> bool;
  (** [c.isspace()] for a code point above 127 *)
  unicode_space : N -> bool;
  (** [s.lower()] for a string with a code point above 127 *)
  unicode_lower : pystr -> pystr;
  (** [str(v)] for a value that is not a string *)
  str_of_value : json -> pystr;
  (** [BeautifulSoup(markup, 'html.parser').get_text()] *)
  get_text : pystr -> pystr
}.

(** A runtime for plain ASCII text, used to run the definitions on
    concrete inputs. *)
Definition ascii_runtime : Runtime := {|
  unicode_alnum := fun _ => false;
  unicode_space := fun _ => false;
  unicode_lower := fun s => s;
  str_of_value := fun _ => py "?";
  get_text := fun s => s
|}.

Definition in_range (lo hi c : N) : bool := (lo <=? c) && (c <=? hi).

Section Text.
Context {rt : Runtime}.

(** [\w] *)
Definition is_word (c : N) : bool :=
  if c <? 128 then
    in_range 97 122 c || in_range 65 90 c || in_range 48 57 c || (c =? 95)
  else unicode_alnum c.

(** [c.isspace()] *)
Definition is_space (c : N) : bool :=
  if c <? 128 then in_range 9 13 c || in_range 28 32 c
  else unicode_space c.

(** [s.lstrip()], [s.strip()] *)
Fixpoint lstrip (s : pystr) : pystr :=
  match s with
  | [] => []
  | c :: s' => if is_space c then lstrip s' else s
  end.

Definition strip (s : pystr) : pystr := rev (lstrip (rev (lstrip s))).

(** [s.lower()] *)
Definition lower (s : pystr) : pystr :=
  if forallb (fun c => c <? 128) s then
    map (fun c => if in_range 65 90 c then c + 32 else c) s
  else unicode_lower s.

(** The formatting of a replacement field of an f-string. *)
Definition format_value (v : json) : pystr :=
  match v with
  | JStr s => s
  | _ => str_of_value v
  end.

(* ------------------------------------------------------------------- *)
(** *** The regular expression [SHA256_PATTERN]                         *)
(* ------------------------------------------------------------------- *)

(** The constructs the pattern is made of: [\b], and a character set
    repeated a fixed number of times. *)
Inductive atom : Type :=
  | WordBoundary
  | Repeat (count : nat) (ranges : list (N * N)).

(** [re.compile(r'\b[A-Fa-f0-9]{64}\b')] *)
Definition SHA256_PATTERN : list atom :=
  [WordBoundary; Repeat 64 [(65, 70); (97, 102); (48, 57)]; WordBoundary].

Definition in_set (ranges : list (N * N)) (c : N) : bool :=
  existsb (fun r => in_range (fst r) (snd r) c) ranges.

Definition word_opt (c : option N) : bool :=
  match c with Some c => is_word c | None => false end.

(** [\b] holds between [prev] and [next] when exactly one side is a
    word character; the ends of the text count as non-word. *)
Definition at_boundary (prev next : option N) : bool :=
  xorb (word_opt prev) (word_opt next).

(** [count] characters of the set at the head of [text]: the characters
    consumed and what follows. *)
Fixpoint take_set (count : nat) (ranges : list (N * N)) (text : pystr)
  : option (pystr * pystr) :=
  match count with
  | O => Some ([], text)
  | S n =>
      match text with
      | [] => None
      | c :: text' =>
          if in_set ranges c then
            match take_set n ranges text' with
            | Some (m, rest) => Some (c :: m, rest)
            | None => None
            end
          else None
      end
  end.

(** Matching the atoms at one position: [prev] is the character before
    the position, the result is the text consumed. *)
Fixpoint match_here (atoms : list atom) (prev : option N) (text : pystr)
  : option pystr :=
  match atoms with
  | [] => Some []
  | WordBoundary :: atoms' =>
      if at_boundary prev (head text) then match_here atoms' prev text
      else None
  | Repeat count ranges :: atoms' =>
      match take_set count ranges text with
      | None => None
      | Some (m, rest) =>
          match match_here atoms' (match last m with Some c => Some c | None => prev end) rest with
          | Some m' => Some (m ++ m')
          | None => None
          end
      end
  end.

(** The left-to-right scan of [pattern.findall(text)]: [skip] counts the
    characters of the last match that are still to be stepped over. A
    match is tried at every position, the end of the text included; the
    scan resumes where a match ended. *)
Fixpoint findall_from (atoms : list atom) (prev : option N) (skip : nat)
    (text : pystr) : list pystr :=
  match text with
  | [] =>
      match skip with
      | O => match match_here atoms prev [] with
             | Some m => [m]
             | None => []
             end
      | S _ => []
      end
  | c :: text' =>
      match skip with
      | S k => findall_from atoms (Some c) k text'
      | O =>
          match match_here atoms prev text with
          | Some m => m :: findall_from atoms (Some c) (length m - 1) text'
          | None => findall_from atoms (Some c) 0 text'
          end
      end
  end.

(** [pattern.findall(text)] *)
Definition findall (atoms : list atom) (text : pystr) : list pystr :=
  findall_from atoms None 0 text.
End Text.

(* ===================================================================== *)
(** ** The source adapters                                                *)
(* ===================================================================== *)

(** The clock readings of one adapter run: [datetime.now()] when the
    dataset is created, the date stamped on its records, and the readings
    inside the two calls of [save_hash_data]. *)
Record clock : Type := {
  now_iso : pystr;
  now_date : pystr;
  save1_iso : pystr;
  save2_iso : pystr
}.

(** What [requests.get] / [requests.post] returned; [body] is the result
    of [response.json()]. *)
Record response (J : Type) : Type := {
  status_code : Z;
  text : pystr;
  body : exc J
}.
Arguments status_code {J} r.
Arguments text {J} r.
Arguments body {J} r.

(** The dataset every adapter starts from. *)
Definition new_dataset (clk : clock) (description source : pystr)
    (signatures : odict json) : json :=
  JObj [ (k_version, JStr (py "1.0.0"));
         (k_last_updated, JStr (now_iso clk));
         (k_description, JStr (description ++ now_date clk));
         (k_source, JStr source);
         (k_sha256_signatures, JObj signatures) ].

(** [f"{TODAY}.json"] and its prefixed variants *)
Definition dated_file (prefix TODAY : pystr) : pystr := prefix ++ TODAY ++ ext_json.

(** Both writes that end an adapter run. *)
Definition save_both (clk : clock) (dir name TODAY : pystr) (data : json)
    (fs : filesystem) : exc filesystem :=
  let! fs1 := save_hash_data (save1_iso clk) dir name data fs in
  save_hash_data (save2_iso clk) (py "daily") (dated_file [] TODAY) data fs1.

Section Adapters.
Context {rt : Runtime}.

(* ------------------------------------------------------------------- *)
(** *** [fetch_urlhaus_samples]                                         *)
(* ------------------------------------------------------------------- *)

(** Lines 167-187: one line of the feed. *)
Definition urlhaus_line (today : pystr) (signatures : odict json) (line : pystr)
  : odict json :=
  if startswith line (py "#") || negb (truthy (JStr (strip line))) then signatures
  else
    let parts := split_on 44 line in
    if (8 <=? length parts)%nat then
      let sha256 := lower (strip (nth 4 parts [])) in
      if negb (truthy (JStr sha256)) || negb (length sha256 =? 64)%nat then signatures
      else
        let file_type := strip (nth 5 parts []) in
        let signature :=
          if (6 <? length parts)%nat then strip (nth 6 parts [])
          else py "Malware.URLhaus" in
        let first_seen :=
          if (0 <? length parts)%nat then strip (nth 0 parts []) else today in
        od_set signatures sha256
          (JObj [ (k_classification,
                   JStr (if truthy (JStr signature) then signature
                         else py "Malware.URLhaus"));
                  (k_detection_rate, JStr s_Unknown);
                  (k_first_seen, JStr first_seen);
                  (k_neartha_name,
                   JStr (if truthy (JStr signature) then py "Malware." ++ signature
                         else py "Malware.URLhaus.Generic"));
                  (k_additional_info,
                   JStr (py "Downloaded from malicious URL. File type: " ++ file_type));
                  (k_file_type, JStr file_type) ])
    else signatures.

(** Lines 165-187: the record mapping extracted from the feed text. *)
Definition urlhaus_extract (today : pystr) (feed : pystr) : odict json :=
  fold_left (urlhaus_line today) (split_on 10 feed) [].

Definition fetch_urlhaus_samples (clk : clock) (TODAY : pystr)
    (get : exc (response unit)) (fs : filesystem) : exc filesystem :=
  try_except
    (let! response := get in
     if Z.eqb (status_code response) 200 then
       let data :=
         new_dataset clk (py "URLhaus malware hashes collected on ") (py "URLhaus")
           (urlhaus_extract (now_date clk) (text response)) in
       save_both clk (py "urlhaus") (dated_file [] TODAY) TODAY data fs
     else Ret fs)
    (fun _ => Ret fs).

(* ------------------------------------------------------------------- *)
(** *** [fetch_malwarebazaar_samples]                                   *)
(* ------------------------------------------------------------------- *)

(** The decoded answer of the API as the script walks it. The member
    used as dictionary key, [sha256_hash], is a string, or [None] when
    it is absent or null; the other members are plain JSON. *)
Inductive mb_element : Type :=
  | ElemObject (sha256_hash : option pystr) (members : odict json)
  | ElemOther.

Inductive mb_data : Type :=
  | DataList (items : list mb_element)
  | DataNotIterable.

Inductive mb_document : Type :=
  | DocObject (query_status : option json) (data : option mb_data)
  | DocOther.

(** [", ".join(tags)] *)
Fixpoint all_strings (l : list json) : exc (list pystr) :=
  match l with
  | [] => Ret []
  | JStr s :: l' => let! r := all_strings l' in Ret (s :: r)
  | _ :: _ => Raise TypeError
  end.

Definition py_join (sep : pystr) (v : json) : exc pystr :=
  let! elems := py_iter v in
  let! parts := all_strings elems in
  Ret (str_join sep parts).

(** Lines 118-131: one element of [json_data.get("data", [])]. *)
Definition mb_sample (today : pystr) (signatures : odict json) (sample : mb_element)
  : exc (odict json) :=
  match sample with
  | ElemOther => Raise AttributeError
  | ElemObject sha256_hash members =>
      match sha256_hash with
      | None | Some [] => Ret signatures
      | Some sha256 =>
          let! tags := py_get (JObj members) (py "tags") (JArr []) in
          let! tag_str :=
            (if truthy tags then py_join (py ", ") tags
             else Ret (py "Unclassified")) in
          let! signature :=
            py_get (JObj members) (py "signature") (JStr (py "Malware.Generic")) in
          let! intelligence := py_get (JObj members) (py "intelligence") (JObj []) in
          let! avdetection := py_get intelligence (py "avdetection") (JStr (py "?")) in
          let! file_type := py_get (JObj members) k_file_type JNull in
          let! record :=
            generate_hash_structure today (JStr sha256) signature
              (JStr (format_value avdetection ++ py "/100"))
              (JStr (py "Tags: " ++ tag_str))
              file_type in
          Ret (od_set signatures sha256 record)
      end
  end.

(** Lines 117-131: the loop; an exception leaves it. *)
Fixpoint mb_samples (today : pystr) (signatures : odict json)
    (items : list mb_element) : exc (odict json) :=
  match items with
  | [] => Ret signatures
  | sample :: rest =>
      let! signatures := mb_sample today signatures sample in
      mb_samples today signatures rest
  end.

(** Lines 114-131: from the decoded answer to the record mapping. *)
Definition mb_extract (today : pystr) (json_data : mb_document)
  : exc (odict json) :=
  match json_data with
  | DocOther => Raise AttributeError
  | DocObject query_status data =>
      match query_status with
      | Some (JStr s) =>
          if str_eqb s (py "ok") then
            match data with
            | None => Ret []
            | Some DataNotIterable => Raise TypeError
            | Some (DataList items) => mb_samples today [] items
            end
          else Ret []
      | _ => Ret []
      end
  end.

Definition fetch_malwarebazaar_samples (clk : clock) (TODAY : pystr)
    (post : exc (response mb_document)) (fs : filesystem) : exc filesystem :=
  try_except
    (let! response := post in
     if Z.eqb (status_code response) 200 then
       let! json_data := body response in
       let! signatures := mb_extract (now_date clk) json_data in
       let data :=
         new_dataset clk (py "MalwareBazaar malware hashes collected on ")
           (py "MalwareBazaar") signatures in
       save_both clk (py "malwarebazaar") (dated_file [] TODAY) TODAY data fs
     else Ret fs)
    (fun _ => Ret fs).

(* ------------------------------------------------------------------- *)
(** *** [fetch_popular_malware_blogs]                                   *)
(* ------------------------------------------------------------------- *)

(** An entry of a parsed feed: [entry.title], the [value]s of
    [entry.content], [entry.summary]; [None] when the entry lacks it. *)
Record entry : Type := {
  title : option pystr;
  content : option (list pystr);
  summary : option pystr
}.

Record blog : Type := { name : pystr; feed : pystr }.

Definition blogs : list blog :=
  [ {| name := py "Malware Traffic Analysis";
       feed := py "https://www.malware-traffic-analysis.net/blog-entries.rss" |};
    {| name := py "BleepingComputer";
       feed := py "https://www.bleepingcomputer.com/feed/" |};
    {| name := py "Krebs on Security";
       feed := py "https://krebsonsecurity.com/feed/" |} ].

(** Lines 415-422: the loop over the hashes found in one entry. The
    mapping is updated in place, so it is returned together with the
    exception that ended the loop, if any. *)
Fixpoint blog_hashes (today : pystr) (b : blog) (e : entry)
    (signatures : odict json) (found : list pystr) : odict json * option exn :=
  match found with
  | [] => (signatures, None)
  | sha256 :: rest =>
      match title e with
      | None => (signatures, Some AttributeError)
      | Some entry_title =>
          match generate_hash_structure today (JStr sha256)
                  (JStr (py "Malware.SecurityBlog")) (JStr s_Unknown)
                  (JStr (py "Source: " ++ name b ++ py " - " ++ entry_title))
                  (JStr s_Unknown) with
          | Raise x => (signatures, Some x)
          | Ret record => blog_hashes today b e (od_set signatures sha256 record) rest
          end
      end
  end.

(** Lines 402-422: one entry. *)
Definition blog_entry (today : pystr) (b : blog) (signatures : odict json) (e : entry)
  : odict json * option exn :=
  let scan body :=
    blog_hashes today b e signatures (findall SHA256_PATTERN (get_text body)) in
  match content e with
  | Some [] => (signatures, Some IndexError)
  | Some (value :: _) => scan value
  | None =>
      match summary e with
      | Some s => scan s
      | None => (signatures, None)
      end
  end.

(** Lines 401-422: the loop over the entries; an exception leaves it. *)
Fixpoint blog_entries (today : pystr) (b : blog) (signatures : odict json)
    (entries : list entry) : odict json * option exn :=
  match entries with
  | [] => (signatures, None)
  | e :: rest =>
      match blog_entry today b signatures e with
      | (signatures', None) => blog_entries today b signatures' rest
      | failed => failed
      end
  end.

(** Lines 395-425: the loop over the blogs, each inside its own [try];
    [parse] is [feedparser.parse]. *)
Definition blog_feeds (today : pystr) (parse : pystr -> exc (list entry))
    (bs : list blog) : odict json :=
  fold_left
    (fun signatures b =>
       match parse (feed b) with
       | Raise _ => signatures
       | Ret entries => fst (blog_entries today b signatures (firstn 10 entries))
       end)
    bs [].

Definition fetch_popular_malware_blogs (clk : clock) (TODAY : pystr)
    (parse : pystr -> exc (list entry)) (fs : filesystem) : exc filesystem :=
  let signatures := blog_feeds (now_date clk) parse blogs in
  let data :=
    new_dataset clk (py "Security blog malware hashes collected on ")
      (py "Security Blogs") signatures in
  if truthy (JObj signatures) then
    save_both clk (py "virustotal") (dated_file (py "blogs_") TODAY) TODAY data fs
  else Ret fs.
End Adapters.

(* ===================================================================== *)
(** ** The scraping adapters and the entry point                          *)
(* ===================================================================== *)

Section Scrapers.
Context {rt : Runtime}.

(* --------------------------------------------------------------------- *)
(** *** [scrape_vx_underground]                                           *)
(* --------------------------------------------------------------------- *)

(** Lines 230-237: the hashes found in one tweet. *)
Fixpoint vx_hashes (today : pystr) (signatures : odict json) (found : list pystr)
  : exc (odict json) :=
  match found with
  | [] => Ret signatures
  | sha256 :: rest =>
      let! record :=
        generate_hash_structure today (JStr sha256)
          (JStr (py "Malware.VXUnderground")) (JStr s_Unknown)
          (JStr (py "Found in VX-Underground Twitter feed")) (JStr s_Unknown) in
      vx_hashes today (od_set signatures sha256 record) rest
  end.

(** Lines 224-237: the loop over the tweets, each given by its
    [get_text()]. *)
Fixpoint vx_tweets (today : pystr) (signatures : odict json) (tweets : list pystr)
  : exc (odict json) :=
  match tweets with
  | [] => Ret signatures
  | tweet_text :: rest =>
      let! signatures :=
        vx_hashes today signatures (findall SHA256_PATTERN tweet_text) in
      vx_tweets today signatures rest
  end.

(** [find_tweets] is the HTML parser at work: the texts of the elements
    [soup.find_all('div', {'class': 'tweet'})] of a page. *)
Definition scrape_vx_underground (clk : clock) (TODAY : pystr)
    (find_tweets : pystr -> list pystr) (get : exc (response unit))
    (fs : filesystem) : exc filesystem :=
  try_except
    (let! response := get in
     if Z.eqb (status_code response) 200 then
       let! signatures := vx_tweets (now_date clk) [] (find_tweets (text response)) in
       let data :=
         new_dataset clk (py "VX-Underground malware hashes collected on ")
           (py "VX-Underground") signatures in
       save_both clk (py "virustotal") (dated_file (py "vxunderground_") TODAY)
         TODAY data fs
     else Ret fs)
    (fun _ => Ret fs).

(* --------------------------------------------------------------------- *)
(** *** [scrape_malpedia]                                                 *)
(* --------------------------------------------------------------------- *)

(** The decoded answer as the loop reads it. An element is an object,
    with its [sha256] member when it has one and its other members, or it
    is no object. Line 280 uses the [sha256] member as a dictionary key: a
    string is a key of the record mapping; an array or an object is decoded
    to a list or a dict, which cannot be hashed. A member that is null, a
    boolean or a number would be a key that is no string: dictionaries are
    keyed by strings throughout this development ([odict]), so an answer
    with such a member is not described. *)
Inductive mp_hash : Type :=
  | HashString (s : pystr)
  | HashArray (elements : list json)
  | HashObject (members : odict json).

Definition mp_hash_value (sha256 : mp_hash) : json :=
  match sha256 with
  | HashString s => JStr s
  | HashArray elements => JArr elements
  | HashObject members => JObj members
  end.

Inductive mp_element : Type :=
  | MpObject (sha256 : option mp_hash) (members : odict json)
  | MpOther.

Inductive mp_document : Type :=
  | MpList (items : list mp_element)
  | MpNotIterable.

(** [signatures[sha256] = record] on line 280: the key is hashed, which
    raises [TypeError] for a list or a dict. *)
Definition malpedia_assign (signatures : odict json) (sha256 : mp_hash) (record : json)
  : exc (odict json) :=
  match sha256 with
  | HashString s => Ret (od_set signatures s record)
  | HashArray _ | HashObject _ => Raise TypeError
  end.

(** Lines 274-286: one element. The [timestamp] member is read on line
    278 and not used afterwards; the record is built before the key is
    hashed. *)
Definition malpedia_item (today : pystr) (signatures : odict json) (item : mp_element)
  : exc (odict json) :=
  match item with
  | MpObject (Some sha256) members =>
      let! family := py_get (JObj members) (py "family") (JStr s_Unknown) in
      let! first_seen := py_get (JObj members) (py "timestamp") (JStr today) in
      let! file_type := py_get (JObj members) (py "fileType") (JStr s_Unknown) in
      let! record :=
        generate_hash_structure today (mp_hash_value sha256)
          (JStr (py "Malware." ++ format_value family)) (JStr s_Unknown)
          (JStr (py "Malpedia family: " ++ format_value family)) file_type in
      malpedia_assign signatures sha256 record
  | _ => Ret signatures
  end.

Fixpoint malpedia_items (today : pystr) (signatures : odict json)
    (items : list mp_element) : exc (odict json) :=
  match items with
  | [] => Ret signatures
  | item :: rest =>
      let! signatures := malpedia_item today signatures item in
      malpedia_items today signatures rest
  end.

(** Lines 271-286: from the decoded answer to the record mapping. *)
Definition malpedia_extract (today : pystr) (json_data : mp_document)
  : exc (odict json) :=
  match json_data with
  | MpNotIterable => Raise TypeError
  | MpList items => malpedia_items today [] items
  end.

Definition scrape_malpedia (clk : clock) (TODAY : pystr)
    (get : exc (response mp_document)) (fs : filesystem) : exc filesystem :=
  try_except
    (let! response := get in
     if Z.eqb (status_code response) 200 then
       let! json_data := body response in
       let! signatures := malpedia_extract (now_date clk) json_data in
       let data :=
         new_dataset clk (py "Malpedia malware hashes collected on ")
           (py "Malpedia") signatures in
       save_both clk (py "virustotal") (dated_file (py "malpedia_") TODAY) TODAY data fs
     else Ret fs)
    (fun _ => Ret fs).

(* --------------------------------------------------------------------- *)
(** *** [scrape_any_run]                                                  *)
(* --------------------------------------------------------------------- *)

(** A [div.task-card] element as the loop reads it: the text of its
    [div] with [data-hash-type="sha256"], its own text, the text of its
    [div.verdict] and of its [div.name]; [None] where [find] finds no
    such element. *)
Record submission : Type := {
  sha256_elem : option pystr;
  submission_text : pystr;
  verdict_elem : option pystr;
  name_elem : option pystr
}.

(** Lines 327-337: the hash of a submission, if it has one. *)
Definition anyrun_hash (s : submission) : option pystr :=
  match sha256_elem s with
  | Some elem_text => Some (strip elem_text)
  | None =>
      match findall SHA256_PATTERN (submission_text s) with
      | first :: _ => Some first
      | [] => None
      end
  end.

(** Lines 325-352: one submission. *)
Definition anyrun_submission (today : pystr) (signatures : odict json) (s : submission)
  : exc (odict json) :=
  match anyrun_hash s with
  | None => Ret signatures
  | Some sha256 =>
      let verdict :=
        if match verdict_elem s with
           | Some elem_text => str_contains (lower elem_text) (py "malicious")
           | None => false
           end
        then py "Malicious" else s_Unknown in
      let name :=
        match name_elem s with
        | Some elem_text => strip elem_text
        | None => s_Unknown
        end in
      let! record :=
        generate_hash_structure today (JStr sha256)
          (JStr (py "Malware." ++ name)) (JStr s_Unknown)
          (JStr (py "ANY.RUN verdict: " ++ verdict)) (JStr s_Unknown) in
      Ret (od_set signatures sha256 record)
  end.

Fixpoint anyrun_submissions (today : pystr) (signatures : odict json)
    (submissions : list submission) : exc (odict json) :=
  match submissions with
  | [] => Ret signatures
  | s :: rest =>
      let! signatures := anyrun_submission today signatures s in
      anyrun_submissions today signatures rest
  end.

(** [find_submissions] is the HTML parser at work: the elements
    [soup.find_all('div', {'class': 'task-card'})] of a page. *)
Definition scrape_any_run (clk : clock) (TODAY : pystr)
    (find_submissions : pystr -> list submission) (get : exc (response unit))
    (fs : filesystem) : exc filesystem :=
  try_except
    (let! response := get in
     if Z.eqb (status_code response) 200 then
       let! signatures :=
         anyrun_submissions (now_date clk) [] (find_submissions (text response)) in
       let data :=
         new_dataset clk (py "ANY.RUN malware hashes collected on ")
           (py "ANY.RUN") signatures in
       save_both clk (py "virustotal") (dated_file (py "anyrun_") TODAY) TODAY data fs
     else Ret fs)
    (fun _ => Ret fs).

(* --------------------------------------------------------------------- *)
(** *** The entry point                                                   *)
(* --------------------------------------------------------------------- *)

(** What the network and the parsers deliver during one run. *)
Record network : Type := {
  net_malwarebazaar : exc (response mb_document);
  net_urlhaus : exc (response unit);
  net_feeds : pystr -> exc (list entry);
  net_vx : exc (response unit);
  net_vx_tweets : pystr -> list pystr;
  net_malpedia : exc (response mp_document);
  net_anyrun : exc (response unit);
  net_anyrun_submissions : pystr -> list submission
}.

(** The clock readings of the six adapters and of [generate_stats]. *)
Record clocks : Type := {
  clk_malwarebazaar : clock;
  clk_urlhaus : clock;
  clk_blogs : clock;
  clk_vx : clock;
  clk_malpedia : clock;
  clk_anyrun : clock;
  clk_stats : pystr
}.

(** Lines 514-528: every scraper in turn, then the statistics. *)
Definition main (TODAY : pystr) (clks : clocks) (net : network) (fs : filesystem)
  : exc (filesystem * stats) :=
  let! fs := fetch_malwarebazaar_samples (clk_malwarebazaar clks) TODAY
               (net_malwarebazaar net) fs in
  let! fs := fetch_urlhaus_samples (clk_urlhaus clks) TODAY (net_urlhaus net) fs in
  let! fs := fetch_popular_malware_blogs (clk_blogs clks) TODAY (net_feeds net) fs in
  let! fs := scrape_vx_underground (clk_vx clks) TODAY (net_vx_tweets net)
               (net_vx net) fs in
  let! fs := scrape_malpedia (clk_malpedia clks) TODAY (net_malpedia net) fs in
  let! fs := scrape_any_run (clk_anyrun clks) TODAY (net_anyrun_submissions net)
               (net_anyrun net) fs in
  Ret (fs, generate_stats (clk_stats clks) fs).
End Scrapers.

(* ===================================================================== *)
(** ** Vocabulary of the statements                                       *)
(* ===================================================================== *)

(** The record mapping of a dataset: the [sha256_signatures] member of an
    object, empty when the member is missing. [None] for a document that
    is not a dataset. *)
Definition signatures_of (dataset : json) : option (odict json) :=
  match dataset with
  | JObj o =>
      match od_get o k_sha256_signatures with
      | None => Some []
      | Some (JObj m) => Some m
      | Some _ => None
      end
  | _ => None
  end.

(** The members of a dataset. *)
Definition members_of (dataset : json) : odict json :=
  match dataset with
  | JObj o => o
  | _ => []
  end.

(** The files of a directory listing that [generate_stats] looks at. *)
Definition json_files (listing : list (pystr * file)) : list (pystr * file) :=
  filter (fun nf => endswith (fst nf) ext_json = true) listing.

(** The hash keys of a file: the keys of its record mapping, none when the
    file does not load or holds no record mapping. *)
Definition file_keys (f : file) : list pystr :=
  match f with
  | Doc data =>
      match signatures_of data with
      | Some m => od_keys m
      | None => []
      end
  | Corrupt => []
  end.

(** The size of the [sha256_signatures] member of a file, 0 when the file
    does not load or has no such member with a size. *)
Definition file_count (f : file) : nat :=
  match f with
  | Doc (JObj o) =>
      match od_get o k_sha256_signatures with
      | Some (JObj m) => length m
      | Some (JArr l) => length l
      | Some (JStr s) => length s
      | _ => 0
      end
  | _ => 0
  end.

(** Per partition: the number of files and the sum of the sizes of their
    record mappings. *)
Definition dir_summary (listing : odict file) : source_stats :=
  {| files := length (json_files listing);
     hashes := sum_list (map (fun nf => file_count (snd nf)) (json_files listing)) |}.

Definition dir_keys (listing : odict file) : list pystr :=
  concat (map (fun nf => file_keys (snd nf)) (json_files listing)).

(** The global set: every hash key of every file of every partition. *)
Definition hash_universe (fs : filesystem) : gset pystr :=
  list_to_set
    (concat (map (fun dir => match od_get fs dir with
                             | Some listing => dir_keys listing
                             | None => []
                             end) hash_dirs)).

(** [del] of one file of a partition. *)
Definition remove_file (fs : filesystem) (dir name : pystr) : filesystem :=
  match od_get fs dir with
  | Some listing => od_set fs dir (od_remove listing name)
  | None => fs
  end.

(** The character set of [SHA256_PATTERN]: [A-Fa-f0-9]. *)
Definition hex_ranges : list (N * N) := [(65, 70); (97, 102); (48, 57)].

(** A hexadecimal digit, in either case. *)
Definition hex_digit (c : N) : Prop :=
  (48 <= c <= 57) \/ (97 <= c <= 102) \/ (65 <= c <= 70).

(** The version a dataset carries, ["1.0.0"] when it has none. *)
Definition version_of (dataset : json) : json :=
  match od_get (members_of dataset) k_version with
  | Some v => v
  | None => default_version
  end.

(** The union keyed by hash in which the left operand wins. *)
Definition od_union (m : odict json) (items : list (pystr * json)) : odict json :=
  fold_left (fun acc kv => if od_mem acc (fst kv) then acc else od_set acc (fst kv) (snd kv))
    items m.

(** The hash keys held by the file at [(dir, name)], none when there is
    no such file. *)
Definition keys_at (fs : filesystem) (dir name : pystr) : list pystr :=
  match read_file fs dir name with
  | Some f => file_keys f
  | None => []
  end.

(** The file at [(dir, name)] is missing, does not load, or holds a
    dataset. *)
Definition mergeable (fs : filesystem) (dir name : pystr) : Prop :=
  match read_file fs dir name with
  | Some (Doc D) => signatures_of D <> None
  | _ => True
  end.

Section FeedVocabulary.
Context {rt : Runtime}.

(** The i-th comma-separated field of a row, stripped. *)
Definition urlhaus_field (row : pystr) (i : nat) : pystr :=
  strip (nth i (split_on 44 row) []).

(** A row that [fetch_urlhaus_samples] turns into a record: not a comment,
    not blank, at least eight fields, a fifth field of 64 characters. *)
Definition urlhaus_row_ok (row : pystr) : Prop :=
  startswith row (py "#") = false /\ strip row <> [] /\
  (8 <= length (split_on 44 row))%nat /\
  length (lower (urlhaus_field row 4)) = 64%nat.

(** The key and the record of such a row. *)
Definition urlhaus_row_key (row : pystr) : pystr := lower (urlhaus_field row 4).

Definition urlhaus_row_record (row : pystr) : json :=
  JObj [ (k_classification,
          JStr (match urlhaus_field row 6 with
                | [] => py "Malware.URLhaus"
                | _ => urlhaus_field row 6
                end));
         (k_detection_rate, JStr (py "Unknown"));
         (k_first_seen, JStr (urlhaus_field row 0));
         (k_neartha_name,
          JStr (match urlhaus_field row 6 with
                | [] => py "Malware.URLhaus.Generic"
                | _ => py "Malware." ++ urlhaus_field row 6
                end));
         (k_additional_info,
          JStr (py "Downloaded from malicious URL. File type: " ++ urlhaus_field row 5));
         (k_file_type, JStr (urlhaus_field row 5)) ].

(** A line the feed adapter passes over: a comment or a blank line. *)
Definition urlhaus_skipped (line : pystr) : Prop :=
  startswith line (py "#") = true \/ strip line = [].
End FeedVocabulary.

(** A request that brought no usable answer: it raised, or the status is
    not 200. *)
Definition no_answer {J} (get : exc (response J)) : Prop :=
  match get with
  | Ret r => status_code r <> 200%Z
  | Raise _ => True
  end.

Section Collected.
Context {rt : Runtime}.

(** What an adapter hands to [save_hash_data]: the record mapping it
    collected, or [None] when the run ends before the two saves. *)
Definition answered {J A} (get : exc (response J)) (extract : response J -> exc A)
  : option A :=
  match get with
  | Ret r =>
      if Z.eqb (status_code r) 200 then
        match extract r with
        | Ret a => Some a
        | Raise _ => None
        end
      else None
  | Raise _ => None
  end.

Definition urlhaus_collected (clk : clock) (get : exc (response unit))
  : option (odict json) :=
  answered get (fun r => Ret (urlhaus_extract (now_date clk) (text r))).

Definition malwarebazaar_collected (clk : clock) (post : exc (response mb_document))
  : option (odict json) :=
  answered post (fun r => let! json_data := body r in
                          mb_extract (now_date clk) json_data).

Definition blogs_collected (clk : clock) (parse : pystr -> exc (list entry))
  : option (odict json) :=
  match blog_feeds (now_date clk) parse blogs with
  | [] => None
  | signatures => Some signatures
  end.

Definition vx_collected (clk : clock) (find_tweets : pystr -> list pystr)
    (get : exc (response unit)) : option (odict json) :=
  answered get (fun r => vx_tweets (now_date clk) [] (find_tweets (text r))).

Definition malpedia_collected (clk : clock) (get : exc (response mp_document))
  : option (odict json) :=
  answered get (fun r => let! json_data := body r in
                         malpedia_extract (now_date clk) json_data).


Definition anyrun_collected (clk : clock)
    (find_submissions : pystr -> list submission) (get : exc (response unit))
  : option (odict json) :=
  answered get (fun r => anyrun_submissions (now_date clk) []
                           (find_submissions (text r))).

(** The two saves that end a run, for a collected mapping. *)
Definition adapter_save (clk : clock) (TODAY dir prefix description source : pystr)
    (collected : option (odict json)) (fs : filesystem) : exc filesystem :=
  match collected with
  | Some signatures =>
      save_both clk dir (dated_file prefix TODAY) TODAY
        (new_dataset clk description source signatures) fs
  | None => Ret fs
  end.
End Collected.

(** An element of the bulk answer without a usable hash: no [sha256_hash]
    member, a null one or an empty one. *)
Definition lacks_hash (e : mb_element) : bool :=
  match e with
  | ElemObject None _ => true
  | ElemObject (Some []) _ => true
  | _ => false
  end.

(** Two results of [feedparser.parse] that agree on what the blog adapter
    reads: both fail, or both succeed with the same first ten entries. *)
Definition same_first_ten (a b : exc (list entry)) : Prop :=
  match a, b with
  | Ret ea, Ret eb => firstn 10 ea = firstn 10 eb
  | Raise _, Raise _ => True
  | _, _ => False
  end.

Section RunVocabulary.
Context {rt : Runtime}.

(** What the six adapters of one run hand to [save_hash_data], in the
    order of the entry point. *)
Definition run_collected (clks : clocks) (net : network)
  : list (option (odict json)) :=
  [ malwarebazaar_collected (clk_malwarebazaar clks) (net_malwarebazaar net);
    urlhaus_collected (clk_urlhaus clks) (net_urlhaus net);
    blogs_collected (clk_blogs clks) (net_feeds net);
    vx_collected (clk_vx clks) (net_vx_tweets net) (net_vx net);
    malpedia_collected (clk_malpedia clks) (net_malpedia net);
    anyrun_collected (clk_anyrun clks) (net_anyrun_submissions net) (net_anyrun net) ].
End RunVocabulary.

(** The hash counter of a partition in a snapshot, 0 when the partition
    is not listed. *)
Definition hashes_of (st : stats) (dir : pystr) : nat :=
  match od_get (sources st) dir with
  | Some s => hashes s
  | None => 0%nat
  end.

(* ===================================================================== *)
(** ** Sample data                                                        *)
(* ===================================================================== *)

Module Sample.
Definition hash_a : pystr := repeat 97 64.
Definition hash_b : pystr := repeat 98 64.
Definition t0 : pystr := py "2024-01-01T06:00:00".
Definition t1 : pystr := py "2024-01-01T12:00:00".
Definition t2 : pystr := py "2024-01-01T18:00:00".
Definition TODAY : pystr := py "2024_01_01".
Definition daily : pystr := py "daily".
Definition today_json : pystr := dated_file [] TODAY.

Definition record (classification : string) : json :=
  JObj [ (k_classification, JStr (py classification));
         (k_detection_rate, JStr s_Unknown) ].

(** The dataset already on disk: one hash. *)
Definition prior : json :=
  JObj [ (k_version, JStr (py "0.9.0"));
         (k_last_updated, JStr t0);
         (k_description, JStr (py "first run"));
         (k_source, JStr (py "URLhaus"));
         (k_sha256_signatures, JObj [ (hash_a, record "Trojan.Old") ]) ].

(** A later extraction: the same hash with other metadata, and a new one. *)
Definition extraction : json :=
  JObj [ (k_version, JStr (py "1.0.0"));
         (k_last_updated, JStr t1);
         (k_description, JStr (py "second run"));
         (k_source, JStr (py "MalwareBazaar"));
         (k_sha256_signatures,
          JObj [ (hash_a, record "Trojan.New"); (hash_b, record "Worm.New") ]) ].

Definition tree : filesystem := [ (daily, [ (today_json, Doc prior) ]) ].
Definition tree_corrupt : filesystem := [ (daily, [ (today_json, Corrupt) ]) ].
Definition tree_empty : filesystem := [ (daily, []) ].

(** A feed: a comment line, a blank line, a row of eight fields. *)
Definition csv_comment : pystr := py "# header".
Definition csv_row : pystr :=
  py "2024-01-01 10:00:00,http://evil.example/a.exe,online,malware_download,"
  ++ repeat 65 64 ++ py ",exe,Trojan.Test,0".
Definition csv_feed : pystr := csv_comment ++ 10 :: [] ++ 10 :: csv_row.

(** A run of 64 hexadecimal digits in both cases, inside a sentence. *)
Definition mixed_hash : pystr :=
  py "0123456789abcdefABCDEF0123456789abcdefABCDEF0123456789abcdefABCD".
Definition before_hash : pystr := py "IOC sha256: ".
Definition after_hash : pystr := py " (dropper).".

(** Two partitions that hold the same hash. *)
Definition shared_tree : filesystem :=
  [ (py "urlhaus",
     [ (today_json,
        Doc (JObj [ (k_sha256_signatures, JObj [ (hash_a, record "Trojan.A") ]) ])) ]);
    (daily,
     [ (today_json,
        Doc (JObj [ (k_sha256_signatures,
                     JObj [ (hash_a, record "Trojan.A");
                            (hash_b, record "Worm.B") ]) ])) ]) ].

(** An answer of the bulk API: a sample that parses, then one whose
    [signature] is null. *)
Definition clk : clock :=
  {| now_iso := t1; now_date := py "2024-01-01"; save1_iso := t1; save2_iso := t2 |}.
Definition good_sample : mb_element :=
  ElemObject (Some hash_a)
    [ (py "signature", JStr (py "Trojan.Test"));
      (py "tags", JArr [JStr (py "t1"); JStr (py "t2")]) ].
Definition null_signature_sample : mb_element :=
  ElemObject (Some hash_b) [ (py "signature", JNull) ].
Definition api_answer : response mb_document :=
  {| status_code := 200;
     text := [];
     body := Ret (DocObject (Some (JStr (py "ok")))
                    (Some (DataList [good_sample; null_signature_sample]))) |}.

(** A feed whose first entry holds a hash and whose second entry holds a
    hash but has no title; the other feeds cannot be fetched. *)
Definition titled_entry : entry :=
  {| title := Some (py "Campaign report");
     content := None;
     summary := Some (before_hash ++ mixed_hash ++ after_hash) |}.
Definition untitled_entry : entry :=
  {| title := None; content := None; summary := Some hash_b |}.
Definition first_blog : blog :=
  {| name := py "Malware Traffic Analysis";
     feed := py "https://www.malware-traffic-analysis.net/blog-entries.rss" |}.
Definition parse_feed (url : pystr) : exc (list entry) :=
  if str_eqb url (feed first_blog) then Ret [titled_entry; untitled_entry]
  else Raise OSError.

(** The same feed, the row cut after its signature: seven fields. *)
Definition csv_short_row : pystr :=
  py "2024-01-01 10:00:00,http://evil.example/a.exe,online,malware_download,"
  ++ repeat 65 64 ++ py ",exe,Trojan.Test".
Definition csv_short_feed : pystr := csv_comment ++ 10 :: [] ++ 10 :: csv_short_row.
End Sample.

(* ===================================================================== *)
(** ** More sample data                                                   *)
(* ===================================================================== *)

Module Cases.
(** An earlier row of a feed with the hash of [Sample.csv_row] and another
    signature. *)
Definition csv_row_old : pystr :=
  py "2023-12-31 09:00:00,http://evil.example/b.exe,offline,malware_download,"
  ++ repeat 97 64 ++ py ",dll,Old.Name,0".

(** Answers of the network: a page that is not there, a feed of one
    comment line. *)
Definition not_found : response unit :=
  {| status_code := 404; text := py "Not Found"; body := Ret tt |}.
Definition not_found_json : response mp_document :=
  {| status_code := 503; text := []; body := Raise ValueError |}.
Definition comment_only : response unit :=
  {| status_code := 200; text := py "# no payloads today"; body := Ret tt |}.

(** Feeds that cannot be fetched; a feed of eleven entries and the same
    feed cut after the tenth. *)
Definition feeds_down (url : pystr) : exc (list entry) := Raise OSError.
Definition long_feed (url : pystr) : exc (list entry) :=
  if str_eqb url (feed Sample.first_blog)
  then Ret (repeat Sample.titled_entry 10 ++ [Sample.untitled_entry])
  else Raise OSError.
Definition cut_feed (url : pystr) : exc (list entry) :=
  if str_eqb url (feed Sample.first_blog)
  then Ret (repeat Sample.titled_entry 10)
  else Raise OSError.

(** [Sample.shared_tree] with a file that is no [.json] file in a
    partition, and a directory that is no partition. *)
Definition cluttered_tree : filesystem :=
  [ (py "urlhaus",
     [ (Sample.today_json,
        Doc (JObj [ (k_sha256_signatures,
                     JObj [ (Sample.hash_a, Sample.record "Trojan.A") ]) ])) ]);
    (Sample.daily,
     [ (py "README.md", Corrupt);
       (Sample.today_json,
        Doc (JObj [ (k_sha256_signatures,
                     JObj [ (Sample.hash_a, Sample.record "Trojan.A");
                            (Sample.hash_b, Sample.record "Worm.B") ]) ])) ]);
    (py "archive", [ (Sample.today_json, Doc Sample.prior) ]) ].

(** A run in which only the URLhaus request and one blog feed answer. *)
Definition csv_answer : response unit :=
  {| status_code := 200; text := Sample.csv_feed; body := Ret tt |}.
Definition quiet_network : network :=
  {| net_malwarebazaar := Raise OSError;
     net_urlhaus := Ret csv_answer;
     net_feeds := Sample.parse_feed;
     net_vx := Ret not_found;
     net_vx_tweets := fun _ => [];
     net_malpedia := Ret not_found_json;
     net_anyrun := Raise OSError;
     net_anyrun_submissions := fun _ => [] |}.
Definition run_clocks : clocks :=
  {| clk_malwarebazaar := Sample.clk;
     clk_urlhaus := Sample.clk;
     clk_blogs := Sample.clk;
     clk_vx := Sample.clk;
     clk_malpedia := Sample.clk;
     clk_anyrun := Sample.clk;
     clk_stats := Sample.t2 |}.

End Cases.

(* ===================================================================== *)
(** ** Dictionaries: lemmas                                               *)
(* ===================================================================== *)

Section ODictFacts.
Context {V : Type}.
Implicit Types (d : odict V) (k : pystr) (v : V).

Lemma str_eqb_refl k : str_eqb k k = true.
Proof. unfold str_eqb. by rewrite bool_decide_eq_true. Qed.

Lemma str_eqb_ne k k' : k ≠ k' -> str_eqb k k' = false.
Proof. intros. unfold str_eqb. by rewrite bool_decide_eq_false. Qed.

Lemma od_get_set_eq d k v : od_get (od_set d k v) k = Some v.
Proof.
  induction d as [|[k0 v0] d IH]; simpl.
  - by rewrite str_eqb_refl.
  - destruct (str_eqb k0 k) eqn:E; simpl; rewrite E; auto.
Qed.

Lemma od_get_set_ne d k k' v : k ≠ k' -> od_get (od_set d k v) k' = od_get d k'.
Proof.
  intros Hne. induction d as [|[k0 v0] d IH]; simpl.
  - by rewrite str_eqb_ne.
  - destruct (str_eqb k0 k) eqn:E; simpl.
    + apply bool_decide_eq_true in E. subst k0. by rewrite str_eqb_ne.
    + destruct (str_eqb k0 k'); auto.
Qed.

Lemma od_set_set_eq d k v v' : od_set (od_set d k v) k v' = od_set d k v'.
Proof.
  induction d as [|[k0 v0] d IH]; simpl.
  - by rewrite str_eqb_refl.
  - destruct (str_eqb k0 k) eqn:E; simpl; rewrite E; congruence.
Qed.

Lemma od_mem_set d k v : od_mem (od_set d k v) k = true.
Proof. unfold od_mem. by rewrite od_get_set_eq. Qed.

Lemma od_mem_set_ne d k k' v : k ≠ k' -> od_mem (od_set d k v) k' = od_mem d k'.
Proof. intros. unfold od_mem. by rewrite od_get_set_ne. Qed.

(** Assigning to a key that is present does not move any key, so it
    commutes with an assignment to another key. *)
Lemma od_set_comm d k k' v v' :
  k ≠ k' -> od_mem d k = true ->
  od_set (od_set d k' v') k v = od_set (od_set d k v) k' v'.
Proof.
  intros Hne. unfold od_mem.
  induction d as [|[k0 v0] d IH]; simpl; [discriminate|].
  destruct (str_eqb k0 k) eqn:E; destruct (str_eqb k0 k') eqn:E'; simpl;
    rewrite ?E, ?E'; intros Hmem; try reflexivity.
  - apply bool_decide_eq_true in E, E'. congruence.
  - f_equal. by apply IH.
Qed.

Lemma od_get_mem d k : od_mem d k = true <-> od_get d k ≠ None.
Proof. unfold od_mem. destruct (od_get d k); split; congruence. Qed.

Lemma od_get_in_keys d k : k ∈ od_keys d -> od_get d k ≠ None.
Proof.
  induction d as [|[k0 v0] d IH]; simpl.
  - by intros ?%elem_of_nil.
  - intros [->|Hin]%elem_of_cons.
    + by rewrite str_eqb_refl.
    + destruct (str_eqb k0 k); [done | by apply IH].
Qed.

End ODictFacts.

(** The left-biased union, read key by key. *)
Lemma od_get_union items : forall m h,
  od_get (od_union m items) h =
  match od_get m h with
  | Some r => Some r
  | None => od_get items h
  end.
Proof.
  induction items as [|[k v] items IH]; intros m h; simpl.
  - by destruct (od_get m h).
  - unfold od_union in *. simpl. rewrite IH. clear IH.
    destruct (od_mem m k) eqn:Hm.
    + destruct (od_get m h) eqn:Hh; [done|].
      destruct (str_eqb k h) eqn:E; [|done].
      apply bool_decide_eq_true in E. subst.
      apply od_get_mem in Hm. congruence.
    + destruct (str_eqb k h) eqn:E.
      * apply bool_decide_eq_true in E. subst. rewrite od_get_set_eq.
        unfold od_mem in Hm. by destruct (od_get m h).
      * apply bool_decide_eq_false in E. by rewrite od_get_set_ne.
  Qed.

(** Items whose keys are all present leave the mapping as it is. *)
Lemma od_union_absorb items : forall m,
  (forall k, k ∈ od_keys items -> od_mem m k = true) ->
  od_union m items = m.
Proof.
  induction items as [|[k v] items IH]; intros m Hall; [done|].
  unfold od_union in *. simpl.
  rewrite (Hall k) by (simpl; apply elem_of_cons; auto).
  apply IH. intros k' Hk'. apply Hall. simpl. apply elem_of_cons; auto.
Qed.

Lemma od_union_idem m items : od_union (od_union m items) items = od_union m items.
Proof.
  apply od_union_absorb. intros k Hk. apply od_get_mem.
  rewrite od_get_union. destruct (od_get m k); [done|]. by apply od_get_in_keys.
Qed.

(* ===================================================================== *)
(** ** The tree of files: lemmas                                          *)
(* ===================================================================== *)

Ltac key_ne := let H := fresh in intros H; vm_compute in H; discriminate H.

Lemma read_write_eq fs dir name data :
  read_file (write_file fs dir name data) dir name = Some (Doc data).
Proof.
  unfold read_file, write_file.
  destruct (od_get fs dir) as [d|] eqn:E; rewrite od_get_set_eq.
  - apply od_get_set_eq.
  - simpl. by rewrite str_eqb_refl.
Qed.

Lemma read_write_other_dir fs dir dir' name name' data :
  dir ≠ dir' ->
  read_file (write_file fs dir name data) dir' name' = read_file fs dir' name'.
Proof.
  intros Hne. unfold read_file, write_file.
  destruct (od_get fs dir); by rewrite od_get_set_ne.
Qed.

Lemma read_makedirs fs dir dir' name :
  read_file (makedirs fs dir) dir' name = read_file fs dir' name.
Proof.
  unfold makedirs. destruct (od_get fs dir) eqn:E; [done|].
  unfold read_file. destruct (decide (dir = dir')) as [<-|Hne].
  - by rewrite od_get_set_eq, E.
  - by rewrite od_get_set_ne.
Qed.

Lemma makedirs_present fs dir name f :
  read_file fs dir name = Some f -> makedirs fs dir = fs.
Proof.
  unfold read_file, makedirs. by destruct (od_get fs dir).
Qed.

Lemma write_write fs dir name data data' :
  write_file (write_file fs dir name data) dir name data' = write_file fs dir name data'.
Proof.
  unfold write_file. destruct (od_get fs dir) as [d|] eqn:E;
    rewrite od_get_set_eq, od_set_set_eq.
  - by rewrite od_set_set_eq.
  - simpl. by rewrite str_eqb_refl.
Qed.

(* ===================================================================== *)
(** ** [save_hash_data]: lemmas                                           *)
(* ===================================================================== *)

Lemma merge_signatures_obj items : forall m,
  merge_signatures items (JObj m) = Ret (JObj (od_union m items)).
Proof.
  induction items as [|[k v] items IH]; intros m; [done|].
  simpl. unfold od_union. simpl. destruct (od_mem m k); apply IH.
Qed.

(** On two datasets the merge raises nothing; its result in closed form. *)
Lemma merge_existing_datasets now d N dm nm :
  signatures_of (JObj d) = Some dm ->
  signatures_of N = Some nm ->
  merge_existing now (JObj d) N =
  Ret (JObj (od_set (od_set (od_set d k_version (version_of N))
                       k_last_updated (JStr now))
               k_sha256_signatures (JObj (od_union dm nm)))).
Proof.
  intros HD HN. destruct N as [| | | | |n]; try discriminate.
  unfold merge_existing, version_of; simpl.
  rewrite !od_get_set_ne by key_ne.
  simpl in HD, HN.
  assert (Hd : match od_get d k_sha256_signatures with
               | Some v => v | None => JObj [] end = JObj dm).
  { destruct (od_get d k_sha256_signatures) as [[]|]; congruence. }
  assert (Hn : match od_get n k_sha256_signatures with
               | Some v => v | None => JObj [] end = JObj nm).
  { destruct (od_get n k_sha256_signatures) as [[]|]; congruence. }
  rewrite Hd, Hn. simpl. by rewrite merge_signatures_obj.
Qed.

(** [save_hash_data] when the file is there and both sides are datasets. *)
Lemma save_merges now dir name d N dm nm fs :
  read_file fs dir name = Some (Doc (JObj d)) ->
  signatures_of (JObj d) = Some dm ->
  signatures_of N = Some nm ->
  save_hash_data now dir name N fs =
  Ret (write_file fs dir name
         (JObj (od_set (od_set (od_set d k_version (version_of N))
                          k_last_updated (JStr now))
                  k_sha256_signatures (JObj (od_union dm nm))))).
Proof.
  intros Hf HD HN. unfold save_hash_data.
  rewrite (makedirs_present _ _ _ _ Hf).
  unfold path_exists, json_load. rewrite Hf. simpl.
  by rewrite (merge_existing_datasets now d N dm nm HD HN).
Qed.

(** [save_hash_data] always returns: the exceptions of the merge are
    caught, the file written is the merged dataset or [data] itself. *)
Lemma save_returns now dir name data fs :
  exists written,
    save_hash_data now dir name data fs =
      Ret (write_file (makedirs fs dir) dir name written).
Proof.
  unfold save_hash_data.
  destruct (path_exists (makedirs fs dir) dir name); simpl; [|eauto].
  destruct (exc_bind (json_load _ _ _) _); simpl; eauto.
Qed.

(** When the file is missing or does not load, [data] is written as is. *)
Lemma save_fresh now dir name data fs :
  raises (json_load fs dir name) ->
  save_hash_data now dir name data fs =
  Ret (write_file (makedirs fs dir) dir name data).
Proof.
  intros [e He]. unfold save_hash_data, path_exists, json_load in *.
  rewrite read_makedirs.
  destruct (read_file fs dir name) as [[|j]|]; try discriminate; reflexivity.
Qed.

(* ===================================================================== *)
(** ** The merge store                                                    *)
(* ===================================================================== *)

(** C1. Merge non-destructiveness (first-write-wins): when a dataset [D]
    is stored at [(dir, name)] and [save_hash_data] merges a dataset [N]
    into it, the call returns, the file holds a dataset, every hash of
    [D]'s record mapping has in the stored mapping exactly the record it
    had in [D] whatever [N] carries for it, and a hash absent from [D] has
    the record [N] gives it (none if [N] has none). *)
Theorem merge_first_write_wins now dir name fs D N dm nm :
  read_file fs dir name = Some (Doc D) ->
  signatures_of D = Some dm ->
  signatures_of N = Some nm ->
  exists fs' M mm,
    save_hash_data now dir name N fs = Ret fs' /\
    read_file fs' dir name = Some (Doc M) /\
    signatures_of M = Some mm /\
    (forall h r, od_get dm h = Some r -> od_get mm h = Some r) /\
    (forall h, od_get dm h = None -> od_get mm h = od_get nm h).
Proof.
  intros Hf HD HN. destruct D as [| | | | |d]; try discriminate.
  eexists _, _, (od_union dm nm). split; [|split; [|split; [|split]]].
  - by apply (save_merges now dir name d N dm nm).
  - apply read_write_eq.
  - simpl. by rewrite od_get_set_eq.
  - intros h r Hh. by rewrite od_get_union, Hh.
  - intros h Hh. by rewrite od_get_union, Hh.
Qed.

Lemma merge_first_write_wins_witness :
  exists fs' M mm,
    save_hash_data Sample.t2 Sample.daily Sample.today_json Sample.extraction Sample.tree
      = Ret fs' /\
    read_file fs' Sample.daily Sample.today_json = Some (Doc M) /\
    signatures_of M = Some mm /\
    (forall h r, od_get [ (Sample.hash_a, Sample.record "Trojan.Old") ] h = Some r ->
                 od_get mm h = Some r) /\
    (forall h, od_get [ (Sample.hash_a, Sample.record "Trojan.Old") ] h = None ->
               od_get mm h =
               od_get [ (Sample.hash_a, Sample.record "Trojan.New");
                        (Sample.hash_b, Sample.record "Worm.New") ] h).
Proof.
  apply (merge_first_write_wins Sample.t2 Sample.daily Sample.today_json
           Sample.tree Sample.prior Sample.extraction); reflexivity.
Defined.

Lemma od_set_same {V} (d : odict V) k v : od_get d k = Some v -> od_set d k v = d.
Proof.
  induction d as [|[k0 v0] d IH]; simpl; [discriminate|].
  destruct (str_eqb k0 k) eqn:E.
  - by intros [= ->].
  - intros H. by rewrite IH.
Qed.

(** A second merge of the same extraction only moves [last_updated]. *)
Lemma remerge_members now1 now2 d v U m1 :
  m1 = od_set (od_set (od_set d k_version v) k_last_updated (JStr now1))
         k_sha256_signatures (JObj U) ->
  od_set (od_set (od_set m1 k_version v) k_last_updated (JStr now2))
    k_sha256_signatures (JObj U)
  = od_set m1 k_last_updated (JStr now2).
Proof.
  intros Hm1.
  assert (Hv : od_set m1 k_version v = m1).
  { apply od_set_same. rewrite Hm1.
    rewrite !od_get_set_ne by key_ne. apply od_get_set_eq. }
  rewrite Hv. apply od_set_same.
  rewrite od_get_set_ne by key_ne. rewrite Hm1. apply od_get_set_eq.
Qed.

Lemma remerge_once now1 now2 d v U :
  od_set (od_set (od_set (od_set d k_version v) k_last_updated (JStr now1))
            k_sha256_signatures (JObj U)) k_last_updated (JStr now2)
  = od_set (od_set (od_set d k_version v) k_last_updated (JStr now2))
      k_sha256_signatures (JObj U).
Proof.
  rewrite od_set_comm; [| key_ne | apply od_mem_set].
  by rewrite od_set_set_eq.
Qed.

(** C2, as the code has it. Merge idempotence up to the timestamp: when a
    dataset [D] is stored and the dataset [N] is merged at clock reading
    [now1] and again at [now2], both calls return; the second call changes
    nothing in the stored dataset but [last_updated], which becomes
    [now2]; the state reached is the one a single merge at [now2] gives;
    and it is the state after the first merge when both readings agree. *)
Theorem merge_idempotent_up_to_timestamp now1 now2 dir name fs D N dm nm :
  read_file fs dir name = Some (Doc D) ->
  signatures_of D = Some dm ->
  signatures_of N = Some nm ->
  exists fs1 fs2 M1,
    save_hash_data now1 dir name N fs = Ret fs1 /\
    read_file fs1 dir name = Some (Doc M1) /\
    save_hash_data now2 dir name N fs1 = Ret fs2 /\
    fs2 = write_file fs1 dir name
            (JObj (od_set (members_of M1) k_last_updated (JStr now2))) /\
    save_hash_data now2 dir name N fs = Ret fs2 /\
    (now1 = now2 -> fs2 = fs1).
Proof.
  intros Hf HD HN. destruct D as [| | | | |d]; try discriminate.
  pose proof (save_merges now1 dir name d N dm nm fs Hf HD HN) as H1.
  pose proof (save_merges now2 dir name d N dm nm fs Hf HD HN) as H2.
  set (m1 := od_set (od_set (od_set d k_version (version_of N))
                       k_last_updated (JStr now1))
               k_sha256_signatures (JObj (od_union dm nm))) in *.
  set (fs1 := write_file fs dir name (JObj m1)) in *.
  assert (Hs1 : signatures_of (JObj m1) = Some (od_union dm nm)).
  { simpl. unfold m1. by rewrite od_get_set_eq. }
  pose proof (save_merges now2 dir name m1 N (od_union dm nm) nm fs1
                (read_write_eq _ _ _ _) Hs1 HN) as H12.
  rewrite od_union_idem in H12.
  rewrite (remerge_members now1 now2 d (version_of N) (od_union dm nm) m1 eq_refl)
    in H12.
  assert (Heq : write_file fs1 dir name (JObj (od_set m1 k_last_updated (JStr now2)))
                = write_file fs dir name
                    (JObj (od_set (od_set (od_set d k_version (version_of N))
                                     k_last_updated (JStr now2))
                             k_sha256_signatures (JObj (od_union dm nm))))).
  { unfold fs1. rewrite write_write. unfold m1. by rewrite remerge_once. }
  exists fs1, (write_file fs1 dir name (JObj (od_set m1 k_last_updated (JStr now2)))),
    (JObj m1).
  split; [exact H1|]. split; [apply read_write_eq|]. split; [exact H12|].
  split; [reflexivity|]. split; [by rewrite Heq|].
  intros <-. rewrite Heq. reflexivity.
Qed.

Lemma merge_idempotent_up_to_timestamp_witness :
  exists fs1 fs2 M1,
    save_hash_data Sample.t1 Sample.daily Sample.today_json Sample.extraction Sample.tree
      = Ret fs1 /\
    read_file fs1 Sample.daily Sample.today_json = Some (Doc M1) /\
    save_hash_data Sample.t2 Sample.daily Sample.today_json Sample.extraction fs1
      = Ret fs2 /\
    fs2 = write_file fs1 Sample.daily Sample.today_json
            (JObj (od_set (members_of M1) k_last_updated (JStr Sample.t2))) /\
    save_hash_data Sample.t2 Sample.daily Sample.today_json Sample.extraction Sample.tree
      = Ret fs2 /\
    (Sample.t1 = Sample.t2 -> fs2 = fs1).
Proof.
  apply (merge_idempotent_up_to_timestamp Sample.t1 Sample.t2 Sample.daily
           Sample.today_json Sample.tree Sample.prior Sample.extraction
           [ (Sample.hash_a, Sample.record "Trojan.Old") ]
           [ (Sample.hash_a, Sample.record "Trojan.New");
             (Sample.hash_b, Sample.record "Worm.New") ]); reflexivity.
Defined.

(** C2, as stated, fails: a second merge of the same extraction at a later
    clock reading leaves a state that differs from the state after the
    first merge (in [last_updated]). *)
Lemma merge_twice_differs :
  exists fs1 fs2,
    save_hash_data Sample.t1 Sample.daily Sample.today_json Sample.extraction Sample.tree
      = Ret fs1 /\
    save_hash_data Sample.t2 Sample.daily Sample.today_json Sample.extraction fs1
      = Ret fs2 /\
    fs2 <> fs1.
Proof.
  eexists _, _. split; [reflexivity|]. split; [reflexivity|].
  intros H. vm_compute in H. discriminate H.
Qed.

(** C4, as the code has it. Missing or corrupt prior file: when the file
    at [(dir, name)] is absent, or is there and opening or decoding it
    raises, [save_hash_data] raises nothing and the file it leaves holds
    exactly the dataset [N] it was given. [N] is not stamped: its
    [last_updated] member is persisted as [N] carries it, and the clock
    reading [now] of the save has no part in the result. *)
Theorem missing_or_corrupt_prior now dir name N fs :
  raises (json_load fs dir name) ->
  ~ raises (save_hash_data now dir name N fs) /\
  (exists fs',
     save_hash_data now dir name N fs = Ret fs' /\
     read_file fs' dir name = Some (Doc N)) /\
  (forall now', save_hash_data now' dir name N fs = save_hash_data now dir name N fs).
Proof.
  intros Hload. rewrite (save_fresh now dir name N fs Hload). split; [|split].
  - intros [e He]. discriminate He.
  - eexists. split; [reflexivity|]. apply read_write_eq.
  - intros now'. apply save_fresh, Hload.
Qed.

Lemma missing_or_corrupt_prior_witness :
  (raises (json_load Sample.tree_corrupt Sample.daily Sample.today_json) /\
   raises (json_load Sample.tree_empty Sample.daily Sample.today_json)) /\
  (exists fs',
     save_hash_data Sample.t1 Sample.daily Sample.today_json Sample.extraction
       Sample.tree_corrupt = Ret fs' /\
     read_file fs' Sample.daily Sample.today_json = Some (Doc Sample.extraction)) /\
  (exists fs',
     save_hash_data Sample.t1 Sample.daily Sample.today_json Sample.extraction
       Sample.tree_empty = Ret fs' /\
     read_file fs' Sample.daily Sample.today_json = Some (Doc Sample.extraction)) /\
  save_hash_data Sample.t2 Sample.daily Sample.today_json Sample.extraction
    Sample.tree_corrupt
  = save_hash_data Sample.t1 Sample.daily Sample.today_json Sample.extraction
      Sample.tree_corrupt.
Proof.
  assert (Hc : raises (json_load Sample.tree_corrupt Sample.daily Sample.today_json))
    by (exists ValueError; reflexivity).
  assert (He : raises (json_load Sample.tree_empty Sample.daily Sample.today_json))
    by (exists OSError; reflexivity).
  split; [split; assumption|]. split; [|split].
  - exact (proj1 (proj2 (missing_or_corrupt_prior Sample.t1 Sample.daily
                           Sample.today_json Sample.extraction Sample.tree_corrupt Hc))).
  - exact (proj1 (proj2 (missing_or_corrupt_prior Sample.t1 Sample.daily
                           Sample.today_json Sample.extraction Sample.tree_empty He))).
  - exact (proj2 (proj2 (missing_or_corrupt_prior Sample.t1 Sample.daily
                           Sample.today_json Sample.extraction Sample.tree_corrupt Hc))
             Sample.t2).
Defined.

(** C4, as stated, fails: a dataset stamped at [Sample.t1] and saved at the
    later clock reading [Sample.t2] over a corrupt file, or where no file
    is, is persisted with the stamp it came with, not with the time of the
    save. *)
Lemma stale_stamp_persisted :
  Sample.t1 <> Sample.t2 /\
  od_get (members_of Sample.extraction) k_last_updated = Some (JStr Sample.t1) /\
  forall fs, fs = Sample.tree_corrupt \/ fs = Sample.tree_empty ->
    raises (json_load fs Sample.daily Sample.today_json) /\
    exists fs' N',
      save_hash_data Sample.t2 Sample.daily Sample.today_json Sample.extraction fs
        = Ret fs' /\
      read_file fs' Sample.daily Sample.today_json = Some (Doc N') /\
      od_get (members_of N') k_last_updated = Some (JStr Sample.t1) /\
      od_get (members_of N') k_last_updated <> Some (JStr Sample.t2).
Proof.
  split; [intros H; vm_compute in H; discriminate H|]. split; [reflexivity|].
  intros fs [->| ->].
  - split; [exists ValueError; reflexivity|].
    eexists _, _. split; [reflexivity|]. split; [reflexivity|]. split; [reflexivity|].
    intros H. vm_compute in H. discriminate H.
  - split; [exists OSError; reflexivity|].
    eexists _, _. split; [reflexivity|]. split; [reflexivity|]. split; [reflexivity|].
    intros H. vm_compute in H. discriminate H.
Qed.

(** C9. Merge frame: when a dataset [D] is stored and a dataset [N] is
    merged into it, the dataset written keeps [D]'s [description] and
    [source], carries [N]'s [version] (["1.0.0"] when [N] has none) and the
    current time as [last_updated], and every member other than [version],
    [last_updated] and [sha256_signatures] is as in [D]. *)
Theorem merge_frame now dir name fs D N dm nm :
  read_file fs dir name = Some (Doc D) ->
  signatures_of D = Some dm ->
  signatures_of N = Some nm ->
  exists fs' M,
    save_hash_data now dir name N fs = Ret fs' /\
    read_file fs' dir name = Some (Doc (JObj M)) /\
    od_get M k_description = od_get (members_of D) k_description /\
    od_get M k_source = od_get (members_of D) k_source /\
    od_get M k_version =
      Some (match od_get (members_of N) k_version with
            | Some v => v
            | None => JStr (py "1.0.0")
            end) /\
    od_get M k_last_updated = Some (JStr now) /\
    (forall k, k <> k_version -> k <> k_last_updated -> k <> k_sha256_signatures ->
               od_get M k = od_get (members_of D) k).
Proof.
  intros Hf HD HN. destruct D as [| | | | |d]; try discriminate.
  eexists _, _. split; [by apply (save_merges now dir name d N dm nm)|].
  split; [apply read_write_eq|]. simpl.
  repeat split.
  - by rewrite !od_get_set_ne by key_ne.
  - by rewrite !od_get_set_ne by key_ne.
  - rewrite !od_get_set_ne by key_ne. by rewrite od_get_set_eq.
  - rewrite od_get_set_ne by key_ne. by rewrite od_get_set_eq.
  - intros k H1 H2 H3. by rewrite !od_get_set_ne by congruence.
Qed.

Lemma merge_frame_witness :
  exists fs' M,
    save_hash_data Sample.t2 Sample.daily Sample.today_json Sample.extraction Sample.tree
      = Ret fs' /\
    read_file fs' Sample.daily Sample.today_json = Some (Doc (JObj M)) /\
    od_get M k_description = Some (JStr (py "first run")) /\
    od_get M k_source = Some (JStr (py "URLhaus")) /\
    od_get M k_version = Some (JStr (py "1.0.0")) /\
    od_get M k_last_updated = Some (JStr Sample.t2) /\
    (forall k, k <> k_version -> k <> k_last_updated -> k <> k_sha256_signatures ->
               od_get M k = od_get (members_of Sample.prior) k).
Proof.
  apply (merge_frame Sample.t2 Sample.daily Sample.today_json Sample.tree
           Sample.prior Sample.extraction
           [ (Sample.hash_a, Sample.record "Trojan.Old") ]
           [ (Sample.hash_a, Sample.record "Trojan.New");
             (Sample.hash_b, Sample.record "Worm.New") ]); reflexivity.
Defined.

(* ===================================================================== *)
(** ** The record normalizer                                              *)
(* ===================================================================== *)

(** C10, as the code has it. The normalizer ignores the hash argument: at
    a given date, the result of [generate_hash_structure] is the same for
    every [hash_value]; a record is returned exactly when [classification]
    is a string, and it is made of [classification], [detection_rate],
    the current date as [first_seen], the name derived from
    [classification], [additional_info] (or [""]) and [file_type] (or
    ["Unknown"]): the hash is no part of it. *)
Theorem normalizer_ignores_hash today hash_value hash_value'
    classification detection_rate additional_info file_type :
  generate_hash_structure today hash_value classification detection_rate
    additional_info file_type
  = generate_hash_structure today hash_value' classification detection_rate
      additional_info file_type
  /\
  forall record,
    generate_hash_structure today hash_value classification detection_rate
      additional_info file_type = Ret record <->
    exists s, classification = JStr s /\
      record = JObj [ (k_classification, JStr s);
                      (k_detection_rate, detection_rate);
                      (k_first_seen, JStr today);
                      (k_neartha_name, JStr (replace_char 32 46 s));
                      (k_additional_info,
                       if truthy additional_info then additional_info else JStr []);
                      (k_file_type,
                       if truthy file_type then file_type else JStr (py "Unknown")) ].
Proof.
  split; [reflexivity|]. intros record. unfold generate_hash_structure, py_or.
  destruct classification; simpl; split;
    try (intros H; discriminate H);
    try (intros (s' & Hs & _); discriminate Hs).
  - intros [= <-]. eauto.
  - intros (s' & [= <-] & ->). reflexivity.
Qed.

(** C10, as stated, fails: with the same classification, detection rate,
    annotation and file type, calls made on two different days return
    different records ([first_seen] is read from the clock). *)
Lemma normalizer_depends_on_date :
  generate_hash_structure (py "2024-01-01") (JStr Sample.hash_a)
    (JStr (py "Trojan.Test")) (JStr (py "Unknown")) JNull JNull
  <> generate_hash_structure (py "2024-01-02") (JStr Sample.hash_a)
       (JStr (py "Trojan.Test")) (JStr (py "Unknown")) JNull JNull.
Proof. intros H. vm_compute in H. discriminate H. Qed.

(* ===================================================================== *)
(** ** The feed adapter                                                   *)
(* ===================================================================== *)

Lemma split_on_single d (a : pystr) : d ∉ a -> split_on d a = [a].
Proof.
  induction a as [|c a IH]; [done|]. intros Hd.
  apply not_elem_of_cons in Hd as [Hc Ha]. simpl.
  destruct (N.eqb_spec c d); [congruence|]. by rewrite IH.
Qed.

Lemma split_on_app d (a b : pystr) :
  d ∉ a -> split_on d (a ++ d :: b) = a :: split_on d b.
Proof.
  induction a as [|c a IH]; intros Hd; simpl.
  - by rewrite N.eqb_refl.
  - apply not_elem_of_cons in Hd as [Hc Ha].
    destruct (N.eqb_spec c d); [congruence|]. by rewrite IH.
Qed.

Section Feed.
Context {rt : Runtime}.

Lemma urlhaus_line_skip today signatures line :
  startswith line (py "#") = true \/ strip line = [] ->
  urlhaus_line today signatures line = signatures.
Proof.
  unfold urlhaus_line. intros [-> | ->]; [done|].
  cbn [truthy negb]. by rewrite orb_true_r.
Qed.

(** C7, as the code has it. For a feed made of a comment line starting
    with [#], a blank line and one data row that has at least eight
    comma-separated fields, the fifth of which is 64 characters long once
    stripped and lower-cased, [fetch_urlhaus_samples] extracts exactly one
    record, keyed by that hash; the file type is the sixth field, the
    signature the seventh and the first-seen date the first. *)
Theorem csv_scenario today (comment blank row : pystr) :
  startswith comment (py "#") = true -> 10 ∉ comment ->
  strip blank = [] -> 10 ∉ blank ->
  startswith row (py "#") = false -> strip row <> [] -> 10 ∉ row ->
  (8 <= length (split_on 44 row))%nat ->
  length (lower (strip (nth 4 (split_on 44 row) []))) = 64%nat ->
  let field i := strip (nth i (split_on 44 row) []) in
  urlhaus_extract today (comment ++ 10 :: blank ++ 10 :: row) =
  [ (lower (field 4%nat),
     JObj [ (k_classification,
             JStr (match field 6%nat with
                   | [] => py "Malware.URLhaus"
                   | _ => field 6%nat
                   end));
            (k_detection_rate, JStr (py "Unknown"));
            (k_first_seen, JStr (field 0%nat));
            (k_neartha_name,
             JStr (match field 6%nat with
                   | [] => py "Malware.URLhaus.Generic"
                   | _ => py "Malware." ++ field 6%nat
                   end));
            (k_additional_info,
             JStr (py "Downloaded from malicious URL. File type: " ++ field 5%nat));
            (k_file_type, JStr (field 5%nat)) ]) ].
Proof.
  intros Hc Hcn Hb Hbn Hr Hrs Hrn H8 H64 field.
  unfold urlhaus_extract.
  rewrite (split_on_app 10 comment) by done.
  rewrite (split_on_app 10 blank) by done.
  rewrite (split_on_single 10 row) by done.
  cbn [fold_left].
  rewrite (urlhaus_line_skip today [] comment) by auto.
  rewrite (urlhaus_line_skip today [] blank) by auto.
  unfold urlhaus_line. rewrite Hr.
  fold (field 4%nat) in H64 |- *. fold (field 5%nat). fold (field 6%nat).
  fold (field 0%nat).
  destruct (strip row) eqn:Es; [done|].
  destruct (Nat.leb_spec 8 (length (split_on 44 row))); [|lia].
  destruct (Nat.ltb_spec 6 (length (split_on 44 row))); [|lia].
  destruct (Nat.ltb_spec 0 (length (split_on 44 row))); [|lia].
  rewrite H64.
  destruct (lower (field 4%nat)) eqn:El; [discriminate H64|].
  cbn [truthy negb orb Nat.eqb od_set].
  by destruct (field 6%nat).
Qed.
End Feed.

Ltac not_in_list := apply (bool_decide_unpack _); vm_compute; exact I.

Lemma csv_scenario_witness :
  urlhaus_extract (rt := ascii_runtime) (py "2024-01-01") Sample.csv_feed =
  [ (Sample.hash_a,
     JObj [ (k_classification, JStr (py "Trojan.Test"));
            (k_detection_rate, JStr (py "Unknown"));
            (k_first_seen, JStr (py "2024-01-01 10:00:00"));
            (k_neartha_name, JStr (py "Malware.Trojan.Test"));
            (k_additional_info,
             JStr (py "Downloaded from malicious URL. File type: exe"));
            (k_file_type, JStr (py "exe")) ]) ].
Proof.
  refine (csv_scenario (rt := ascii_runtime) (py "2024-01-01")
            Sample.csv_comment [] Sample.csv_row _ _ _ _ _ _ _ _ _).
  - reflexivity.
  - not_in_list.
  - reflexivity.
  - not_in_list.
  - reflexivity.
  - intros H. vm_compute in H. discriminate H.
  - not_in_list.
  - vm_compute. lia.
  - reflexivity.
Defined.

(** C7, as stated, fails: a row whose fifth field is a 64-character hash,
    followed by a file type and a signature, yields no record when it has
    fewer than eight fields. *)
Lemma csv_short_row_dropped :
  nth 4 (split_on 44 Sample.csv_short_row) [] = repeat 65 64 /\
  length (split_on 44 Sample.csv_short_row) = 7%nat /\
  urlhaus_extract (rt := ascii_runtime) (py "2024-01-01") Sample.csv_short_feed = [].
Proof. repeat split; vm_compute; reflexivity. Qed.

(* ===================================================================== *)
(** ** The hash-shape scan                                                *)
(* ===================================================================== *)

Section Scan.
Context {rt : Runtime}.

Lemma in_set_hex c : in_set hex_ranges c = true <-> hex_digit c.
Proof.
  unfold in_set, hex_ranges, in_range, hex_digit. simpl.
  rewrite !orb_true_iff, !andb_true_iff, !N.leb_le. intuition lia.
Qed.

Lemma hex_is_word c : hex_digit c -> is_word c = true.
Proof.
  unfold hex_digit, is_word, in_range. intros H.
  destruct (N.ltb_spec c 128); [|lia].
  rewrite !orb_true_iff, !andb_true_iff, !N.leb_le. lia.
Qed.

Lemma nonword_not_hex c : is_word c = false -> in_set hex_ranges c = false.
Proof.
  intros Hw. destruct (in_set hex_ranges c) eqn:E; [|done].
  apply in_set_hex, hex_is_word in E. congruence.
Qed.

(** What [take_set] returns. *)
Lemma take_set_Some n r : forall text m rest,
  take_set n r text = Some (m, rest) ->
  text = m ++ rest /\ length m = n /\ Forall (fun c => in_set r c = true) m.
Proof.
  induction n as [|n IH]; intros text m rest; simpl.
  - intros [= <- <-]. auto.
  - destruct text as [|c text]; [discriminate|].
    destruct (in_set r c) eqn:Ec; [|discriminate].
    destruct (take_set n r text) as [[m' rest']|] eqn:Et; [|discriminate].
    intros [= <- <-]. destruct (IH _ _ _ Et) as (-> & <- & Hall).
    repeat split; auto.
Qed.

Lemma take_set_all r m rest :
  Forall (fun c => in_set r c = true) m ->
  take_set (length m) r (m ++ rest) = Some (m, rest).
Proof.
  induction 1 as [|c m Hc Hm IH]; simpl; [done|]. by rewrite Hc, IH.
Qed.

(** Text that ends in a character outside the set: what follows it has no
    influence on [take_set], which stops before that character. *)
Lemma take_set_app n r z rest : forall u,
  last u = Some z -> in_set r z = false ->
  match take_set n r u with
  | Some (m, u') =>
      take_set n r (u ++ rest) = Some (m, u' ++ rest) /\ last u' = Some z
  | None => take_set n r (u ++ rest) = None
  end.
Proof.
  induction n as [|n IH]; intros u Hl Hz; simpl; [done|].
  destruct u as [|c u]; [discriminate|]. simpl.
  destruct (in_set r c) eqn:Ec; [|done].
  destruct u as [|c' u].
  - simpl in Hl. congruence.
  - assert (Hl' : last (c' :: u) = Some z) by (by rewrite last_cons_cons in Hl).
    specialize (IH (c' :: u) Hl' Hz).
    destruct (take_set n r (c' :: u)) as [[m u']|].
    + destruct IH as [-> ?]. done.
    + by rewrite IH.
Qed.

(** The pattern at one position, spelled out. *)
Lemma match_sha prev text :
  match_here SHA256_PATTERN prev text =
  if at_boundary prev (head text) then
    match take_set 64 hex_ranges text with
    | Some (m, rest) =>
        if at_boundary (match last m with Some c => Some c | None => prev end)
             (head rest)
        then Some m else None
    | None => None
    end
  else None.
Proof.
  unfold SHA256_PATTERN, hex_ranges. cbn [match_here].
  destruct (at_boundary prev (head text)); [|done].
  destruct (take_set 64 _ text) as [[m rest]|]; [|done].
  destruct (at_boundary _ (head rest)); [|done].
  by rewrite app_nil_r.
Qed.

Lemma match_sha_Some prev text m :
  match_here SHA256_PATTERN prev text = Some m ->
  exists rest, text = m ++ rest /\ length m = 64%nat /\ Forall hex_digit m.
Proof.
  rewrite match_sha.
  destruct (at_boundary prev (head text)); [|discriminate].
  destruct (take_set 64 hex_ranges text) as [[m' rest]|] eqn:Et; [|discriminate].
  destruct (at_boundary _ (head rest)); [|discriminate].
  intros [= <-]. apply take_set_Some in Et as (-> & Hlen & Hall).
  exists rest. repeat split; auto.
  eapply Forall_impl; [exact Hall|]. intros c. apply in_set_hex.
Qed.

Lemma match_sha_nil prev : match_here SHA256_PATTERN prev [] = None.
Proof. rewrite match_sha. by destruct (at_boundary prev (head [])). Qed.

Lemma match_sha_nonhex prev c text :
  in_set hex_ranges c = false -> match_here SHA256_PATTERN prev (c :: text) = None.
Proof.
  intros Hc. rewrite match_sha. cbn [take_set]. rewrite Hc.
  by destruct (at_boundary prev (head (c :: text))).
Qed.

(** A 64-digit run between non-word neighbours is matched whole. *)
Lemma match_sha_hit prev s post :
  word_opt prev = false -> length s = 64%nat -> Forall hex_digit s ->
  word_opt (head post) = false ->
  match_here SHA256_PATTERN prev (s ++ post) = Some s.
Proof.
  intros Hprev Hlen Hhex Hpost. rewrite match_sha.
  assert (Hset : Forall (fun c => in_set hex_ranges c = true) s).
  { eapply Forall_impl; [exact Hhex|]. intros c. apply in_set_hex. }
  rewrite <- Hlen, (take_set_all hex_ranges s post Hset).
  destruct s as [|c s]; [discriminate|].
  assert (Hc : is_word c = true) by (apply hex_is_word; by inversion Hhex).
  unfold at_boundary. rewrite Hprev, Hpost. cbn [app head word_opt]. rewrite Hc.
  destruct (last (c :: s)) as [z|] eqn:El.
  - assert (Hz : hex_digit z).
    { rewrite Forall_forall in Hhex. apply Hhex. by apply last_Some_elem_of. }
    cbn [word_opt]. by rewrite (hex_is_word z Hz).
  - by apply last_None in El.
Qed.

(** Text that ends in a non-word character: what follows it has no
    influence on a match attempted inside it, and a match leaves at least
    that character over. *)
Lemma match_sha_app prev u z rest :
  last u = Some z -> is_word z = false ->
  match_here SHA256_PATTERN prev (u ++ rest) = match_here SHA256_PATTERN prev u /\
  forall m, match_here SHA256_PATTERN prev u = Some m -> (length m < length u)%nat.
Proof.
  intros Hl Hz. rewrite !match_sha.
  assert (Hhead : head (u ++ rest) = head u) by (destruct u; [discriminate|done]).
  rewrite Hhead.
  pose proof (take_set_app 64 hex_ranges z rest u Hl (nonword_not_hex z Hz)) as Ht.
  destruct (at_boundary prev (head u)); [|split; [done|discriminate]].
  destruct (take_set 64 hex_ranges u) as [[m u']|] eqn:Eu.
  - destruct Ht as [-> Hl'].
    assert (Hhead' : head (u' ++ rest) = head u') by (destruct u'; [discriminate|done]).
    rewrite Hhead'. split; [done|].
    destruct (at_boundary _ (head u')); [|discriminate].
    intros m' [= <-]. apply take_set_Some in Eu as (-> & _ & _).
    rewrite length_app. destruct u'; [discriminate|]. simpl. lia.
  - rewrite Ht. split; [done|discriminate].
Qed.

Lemma scan_nil prev skip : findall_from SHA256_PATTERN prev skip [] = [].
Proof. destruct skip; [|done]. cbn [findall_from]. by rewrite match_sha_nil. Qed.

Lemma findall_from_cons atoms prev skip c text :
  findall_from atoms prev skip (c :: text) =
  match skip with
  | S k => findall_from atoms (Some c) k text
  | O =>
      match match_here atoms prev (c :: text) with
      | Some m => m :: findall_from atoms (Some c) (length m - 1) text
      | None => findall_from atoms (Some c) 0 text
      end
  end.
Proof. reflexivity. Qed.

(** The scan of a text that ends in a non-word character does not look
    past that character, and no match reaches it. *)
Lemma scan_prefix z rest : forall u prev skip,
  last u = Some z -> is_word z = false -> (skip < length u)%nat ->
  findall_from SHA256_PATTERN prev skip (u ++ rest) =
  findall_from SHA256_PATTERN prev skip u ++
  findall_from SHA256_PATTERN (Some z) 0 rest.
Proof.
  induction u as [|c u IH]; intros prev skip Hl Hz Hskip; [discriminate|].
  destruct (match_sha_app prev (c :: u) z rest Hl Hz) as [Happ Hlen].
  rewrite <- app_comm_cons in Happ |- *.
  rewrite (findall_from_cons _ prev skip c (u ++ rest)).
  rewrite (findall_from_cons _ prev skip c u).
  destruct u as [|c' u].
  - injection Hl as ->. simpl in Hskip.
    assert (skip = 0%nat) as -> by lia.
    rewrite Happ, (match_sha_nonhex _ z) by (by apply nonword_not_hex).
    by rewrite scan_nil.
  - assert (Hl' : last (c' :: u) = Some z) by (by rewrite last_cons_cons in Hl).
    destruct skip as [|k].
    + rewrite Happ.
      destruct (match_here SHA256_PATTERN prev (c :: c' :: u)) as [m|] eqn:Em.
      * specialize (Hlen m eq_refl).
        apply match_sha_Some in Em as (? & _ & Hm & _).
        cbn [app]. f_equal. apply (IH (Some c) (length m - 1)%nat); auto.
        simpl in Hlen |- *. lia.
      * apply IH; auto. simpl. lia.
    + apply IH; auto. simpl in Hskip |- *. lia.
Qed.

(** Stepping over the rest of a match. *)
Lemma scan_skip atoms v : forall u prev,
  findall_from atoms prev (length u) (u ++ v) =
  findall_from atoms (match last u with Some c => Some c | None => prev end) 0 v.
Proof.
  induction u as [|c u IH]; intros prev; [done|].
  cbn [length]. rewrite <- app_comm_cons, findall_from_cons, IH.
  destruct u as [|c' u]; [done|]. rewrite last_cons_cons.
  destruct (last (c' :: u)) eqn:E; [done|]. by apply last_None in E.
Qed.

(** No match starts at a non-word character, whatever precedes it. *)
Lemma scan_restart prev post :
  word_opt (head post) = false ->
  findall_from SHA256_PATTERN prev 0 post = findall SHA256_PATTERN post.
Proof.
  unfold findall. destruct post as [|c post]; intros Hc.
  - by rewrite !scan_nil.
  - rewrite !findall_from_cons.
    by rewrite !(match_sha_nonhex _ c) by (by apply nonword_not_hex).
Qed.

(** Every element of the scan's result is a run of 64 hexadecimal digits. *)
Lemma scan_shape : forall txt prev skip,
  Forall (fun m => length m = 64%nat /\ Forall hex_digit m)
    (findall_from SHA256_PATTERN prev skip txt).
Proof.
  induction txt as [|c text IH]; intros prev skip.
  - by rewrite scan_nil.
  - rewrite findall_from_cons. destruct skip; [|apply IH].
    destruct (match_here SHA256_PATTERN prev (c :: text)) as [m|] eqn:Em; [|apply IH].
    apply match_sha_Some in Em as (? & _ & ? & ?). constructor; [done|apply IH].
Qed.

(** C3. Hash-shape scan: for a run [s] of 64 hexadecimal digits (upper or
    lower case) placed in a text [pre ++ s ++ post] so that the character
    before it and the character after it, when there are any, are not word
    characters, [SHA256_PATTERN.findall] returns the matches found in
    [pre], then [s] itself, whole, then the matches found in [post]: no
    match takes a part of [s] or overlaps it, and every match is a run of
    64 hexadecimal digits. *)
Theorem hash_shape_scan (pre s post : pystr) :
  length s = 64%nat -> Forall hex_digit s ->
  word_opt (last pre) = false -> word_opt (head post) = false ->
  findall SHA256_PATTERN (pre ++ s ++ post) =
    findall SHA256_PATTERN pre ++ s :: findall SHA256_PATTERN post /\
  Forall (fun m => length m = 64%nat /\ Forall hex_digit m)
    (findall SHA256_PATTERN (pre ++ s ++ post)).
Proof.
  intros Hlen Hhex Hpre Hpost. split; [|apply scan_shape].
  assert (Hs : forall prev, word_opt prev = false ->
             findall_from SHA256_PATTERN prev 0 (s ++ post) =
             s :: findall SHA256_PATTERN post).
  { intros prev Hprev. destruct s as [|c s0]; [discriminate|].
    rewrite <- app_comm_cons, findall_from_cons, app_comm_cons.
    rewrite (match_sha_hit prev (c :: s0) post Hprev Hlen Hhex Hpost).
    f_equal. rewrite Hlen. simpl in Hlen.
    replace (64 - 1)%nat with (length s0) by lia.
    rewrite scan_skip. by apply scan_restart. }
  unfold findall at 1 2. destruct (last pre) as [z|] eqn:El.
  - rewrite (scan_prefix z (s ++ post) pre None 0%nat El Hpre).
    + by rewrite (Hs (Some z) Hpre).
    + destruct pre; [discriminate|]. simpl. lia.
  - apply last_None in El as ->. cbn [app]. rewrite scan_nil. by apply Hs.
Qed.
End Scan.

Lemma hex_run_check (s : pystr) :
  forallb (in_set hex_ranges) s = true -> Forall hex_digit s.
Proof.
  rewrite forallb_forall, Forall_forall. intros H c Hc.
  apply in_set_hex, H. by apply list_elem_of_In.
Qed.

Lemma hash_shape_scan_witness :
  findall (rt := ascii_runtime) SHA256_PATTERN
    (Sample.before_hash ++ Sample.mixed_hash ++ Sample.after_hash)
  = [ Sample.mixed_hash ].
Proof.
  refine (proj1 (hash_shape_scan (rt := ascii_runtime) Sample.before_hash
                   Sample.mixed_hash Sample.after_hash _ _ _ _)).
  - reflexivity.
  - apply hex_run_check. reflexivity.
  - reflexivity.
  - reflexivity.
Defined.

(** The boundary is a word boundary: a run of 64 hexadecimal digits that
    touches a letter outside [a-f], a digit or [_] is not reported. *)
Example scan_word_neighbour :
  findall (rt := ascii_runtime) SHA256_PATTERN (py "x" ++ Sample.mixed_hash) = [] /\
  findall (rt := ascii_runtime) SHA256_PATTERN (Sample.mixed_hash ++ py "_") = [] /\
  findall (rt := ascii_runtime) SHA256_PATTERN (Sample.mixed_hash ++ py "0") = [].
Proof. repeat split; vm_compute; reflexivity. Qed.

(* ===================================================================== *)
(** ** The statistics aggregator                                          *)
(* ===================================================================== *)

Lemma add_keys (ks : list pystr) : forall (acc : gset pystr),
  fold_left (fun acc hash_key => {[hash_key]} ∪ acc) ks acc = list_to_set ks ∪ acc.
Proof.
  induction ks as [|k ks IH]; intros acc; simpl.
  - set_solver.
  - rewrite IH. set_solver.
Qed.

(** The [try] around one file, in closed form. *)
Lemma count_file_spec (f : file) (dir_stats : source_stats)
    (total_hashes : gset pystr) :
  count_file f (dir_stats, total_hashes) =
  ({| files := files dir_stats; hashes := hashes dir_stats + file_count f |},
   list_to_set (file_keys f) ∪ total_hashes).
Proof.
  assert (Hid : forall n, n = 0%nat ->
            (dir_stats, total_hashes) =
            ({| files := files dir_stats; hashes := hashes dir_stats + n |},
             list_to_set [] ∪ total_hashes)).
  { intros n ->. destruct dir_stats. simpl. rewrite Nat.add_0_r.
    f_equal. set_solver. }
  destruct f as [|data]; [by apply Hid|].
  destruct data as [| | | | |o]; try (by apply Hid).
  unfold count_file, file_keys, file_count, signatures_of. simpl.
  destruct (od_get o k_sha256_signatures) as [[| | | | |m]|]; simpl;
    try (by apply Hid); try (f_equal; set_solver).
  all: try (by rewrite add_keys).
Qed.

Lemma json_files_cons name f rest :
  json_files ((name, f) :: rest) =
  if endswith name ext_json then (name, f) :: json_files rest else json_files rest.
Proof.
  unfold json_files. destruct (endswith name ext_json) eqn:E.
  - by rewrite filter_cons_True.
  - rewrite filter_cons_False; [done|]. simpl. congruence.
Qed.

(** The loop over one directory, in closed form. *)
Lemma count_dir_spec listing : forall (dir_stats : source_stats) (total_hashes : gset pystr),
  count_dir listing (dir_stats, total_hashes) =
  ({| files := files dir_stats + files (dir_summary listing);
      hashes := hashes dir_stats + hashes (dir_summary listing) |},
   list_to_set (dir_keys listing) ∪ total_hashes).
Proof.
  induction listing as [|[name f] rest IH]; intros dir_stats total_hashes.
  - destruct dir_stats. simpl. rewrite !Nat.add_0_r. f_equal. set_solver.
  - unfold dir_summary, dir_keys in *. cbn [count_dir].
    rewrite json_files_cons. destruct (endswith name ext_json).
    + rewrite count_file_spec, IH. simpl. f_equal.
      * f_equal; lia.
      * rewrite list_to_set_app_L. set_solver.
    + apply IH.
Qed.

Lemma dir_summary_from_zero listing :
  {| files := 0 + files (dir_summary listing);
     hashes := 0 + hashes (dir_summary listing) |} = dir_summary listing.
Proof. reflexivity. Qed.

(** The loop over the partitions, in closed form: the global set, and the
    counters of each partition. *)
Lemma count_dirs_spec fs dirs : forall srcs (total_hashes : gset pystr),
  (count_dirs fs dirs (srcs, total_hashes)).2 =
    list_to_set (concat (map (fun dir => match od_get fs dir with
                                         | Some listing => dir_keys listing
                                         | None => []
                                         end) dirs)) ∪ total_hashes /\
  forall P,
    od_get (count_dirs fs dirs (srcs, total_hashes)).1 P =
    if decide (P ∈ dirs) then
      match od_get fs P with
      | Some listing => Some (dir_summary listing)
      | None => od_get srcs P
      end
    else od_get srcs P.
Proof.
  induction dirs as [|dir rest IH]; intros srcs total_hashes.
  - split; [simpl; set_solver|]. intros P. cbn [count_dirs fst].
    case_decide as Hin; [by apply elem_of_nil in Hin|done].
  - cbn [count_dirs map concat].
    destruct (od_get fs dir) as [listing|] eqn:Edir.
    + rewrite count_dir_spec. cbn [files hashes]. rewrite dir_summary_from_zero.
      destruct (IH (od_set srcs dir (dir_summary listing))
                  (list_to_set (dir_keys listing) ∪ total_hashes)) as [IHt IHs].
      split.
      * rewrite IHt, list_to_set_app_L. set_solver.
      * intros P. rewrite IHs. destruct (decide (P = dir)) as [->|Hne].
        -- rewrite Edir, od_get_set_eq.
           rewrite (decide_True (P := dir ∈ dir :: rest)) by apply list_elem_of_here.
           by destruct (decide (dir ∈ rest)).
        -- rewrite od_get_set_ne by congruence.
           destruct (decide (P ∈ rest)) as [Hin|Hnin].
           ++ by rewrite decide_True by (by apply list_elem_of_further).
           ++ rewrite decide_False; [done|].
              intros [?|?]%elem_of_cons; congruence.
    + destruct (IH srcs total_hashes) as [IHt IHs]. split.
      * rewrite IHt. simpl. done.
      * intros P. rewrite IHs. destruct (decide (P = dir)) as [->|Hne].
        -- rewrite Edir.
           rewrite (decide_True (P := dir ∈ dir :: rest)) by apply list_elem_of_here.
           by destruct (decide (dir ∈ rest)).
        -- destruct (decide (P ∈ rest)) as [Hin|Hnin].
           ++ by rewrite decide_True by (by apply list_elem_of_further).
           ++ rewrite decide_False; [done|].
              intros [?|?]%elem_of_cons; congruence.
Qed.

(** The snapshot computed by [generate_stats], stated on the tree. *)
Lemma stats_total now fs :
  total_unique_hashes (generate_stats now fs) = size (hash_universe fs).
Proof.
  unfold generate_stats, hash_universe.
  destruct (count_dirs fs hash_dirs ([], ∅)) as [srcs total_hashes] eqn:E.
  assert (Ht : (srcs, total_hashes).2 = _)
    by (rewrite <- E; exact (proj1 (count_dirs_spec fs hash_dirs [] ∅))).
  cbn [total_unique_hashes]. cbn [snd] in Ht. rewrite Ht. f_equal. set_solver.
Qed.

Lemma stats_source now fs P :
  od_get (sources (generate_stats now fs)) P =
  if decide (P ∈ hash_dirs) then dir_summary <$> od_get fs P else None.
Proof.
  unfold generate_stats.
  destruct (count_dirs fs hash_dirs ([], ∅)) as [srcs total_hashes] eqn:E.
  assert (Hs : od_get (srcs, total_hashes).1 P = _)
    by (rewrite <- E; exact (proj2 (count_dirs_spec fs hash_dirs [] ∅) P)).
  cbn [sources]. cbn [fst od_get] in Hs. rewrite Hs.
  destruct (decide (P ∈ hash_dirs)); [|done]. by destruct (od_get fs P).
Qed.

Lemma sum_list_elem {A} (g : A -> nat) (x : A) (l : list A) :
  x ∈ l -> exists others, sum_list (map g l) = (g x + others)%nat.
Proof.
  induction 1 as [x l|x y l _ [others IH]]; simpl.
  - eauto.
  - exists (g y + others)%nat. lia.
Qed.

Lemma file_count_dataset D m :
  signatures_of D = Some m -> file_count (Doc D) = length (od_keys m).
Proof.
  unfold od_keys. rewrite length_map.
  destruct D as [| | | | |o]; try discriminate. simpl.
  destruct (od_get o k_sha256_signatures) as [[]|]; intros [= <-]; reflexivity.
Qed.

(** A hash of a record mapping of a counted file is in the global set. *)
Lemma hash_in_universe fs P listing n D m H :
  P ∈ hash_dirs -> od_get fs P = Some listing -> (n, Doc D) ∈ listing ->
  endswith n ext_json = true -> signatures_of D = Some m -> H ∈ od_keys m ->
  H ∈ hash_universe fs.
Proof.
  intros HP Hl Hn He Hm HH. unfold hash_universe.
  apply elem_of_list_to_set, list_elem_of_In, in_concat.
  exists (dir_keys listing). split.
  - apply in_map_iff. exists P. rewrite Hl. split; [done|]. by apply list_elem_of_In.
  - unfold dir_keys. apply in_concat. exists (od_keys m). split.
    + apply in_map_iff. exists (n, Doc D). simpl. rewrite Hm. split; [done|].
      apply list_elem_of_In. unfold json_files. by apply list_elem_of_filter.
    + by apply list_elem_of_In.
Qed.

Lemma partition_counts_file now fs P listing n D m :
  P ∈ hash_dirs -> od_get fs P = Some listing -> (n, Doc D) ∈ listing ->
  endswith n ext_json = true -> signatures_of D = Some m ->
  exists s others,
    od_get (sources (generate_stats now fs)) P = Some s /\
    hashes s = (length (od_keys m) + others)%nat.
Proof.
  intros HP Hl Hn He Hm. rewrite stats_source, decide_True, Hl by done.
  assert (Hin : (n, Doc D) ∈ json_files listing)
    by (unfold json_files; by apply list_elem_of_filter).
  destruct (sum_list_elem (fun nf => file_count (snd nf)) _ _ Hin) as [others Ho].
  exists (dir_summary listing), others. split; [done|].
  cbn [hashes dir_summary]. rewrite Ho. cbn [snd].
  by rewrite (file_count_dataset D m).
Qed.

(** C5. Unique count: when a hash [H] is in the record mapping of a file
    of partition [P1] and of a file of another partition [P2],
    [generate_stats] credits [H] exactly once in [total_unique_hashes]
    (the total is one more than the number of the other hashes), while the
    hash counter of [P1] and the hash counter of [P2] each include the
    whole record mapping that holds [H]. *)
Theorem unique_count_once now fs P1 P2 l1 l2 n1 n2 D1 D2 m1 m2 H :
  P1 ∈ hash_dirs -> P2 ∈ hash_dirs -> P1 <> P2 ->
  od_get fs P1 = Some l1 -> (n1, Doc D1) ∈ l1 -> endswith n1 ext_json = true ->
  signatures_of D1 = Some m1 -> H ∈ od_keys m1 ->
  od_get fs P2 = Some l2 -> (n2, Doc D2) ∈ l2 -> endswith n2 ext_json = true ->
  signatures_of D2 = Some m2 -> H ∈ od_keys m2 ->
  total_unique_hashes (generate_stats now fs) = S (size (hash_universe fs ∖ {[H]})) /\
  (exists s1 others,
     od_get (sources (generate_stats now fs)) P1 = Some s1 /\
     hashes s1 = (length (od_keys m1) + others)%nat) /\
  (exists s2 others,
     od_get (sources (generate_stats now fs)) P2 = Some s2 /\
     hashes s2 = (length (od_keys m2) + others)%nat).
Proof.
  intros HP1 HP2 _ Hl1 Hn1 He1 Hm1 HH1 Hl2 Hn2 He2 Hm2 HH2.
  split; [|split].
  - rewrite stats_total.
    assert (HU : H ∈ hash_universe fs) by eauto using hash_in_universe.
    rewrite (union_difference_singleton_L H (hash_universe fs) HU) at 1.
    rewrite size_union by set_solver. by rewrite size_singleton.
  - by apply (partition_counts_file now fs P1 l1 n1 D1 m1).
  - by apply (partition_counts_file now fs P2 l2 n2 D2 m2).
Qed.

Ltac in_list := apply (bool_decide_unpack _); vm_compute; exact I.

Lemma unique_count_once_witness :
  total_unique_hashes (generate_stats Sample.t1 Sample.shared_tree) =
    S (size (hash_universe Sample.shared_tree ∖ {[Sample.hash_a]})) /\
  (exists s1 others,
     od_get (sources (generate_stats Sample.t1 Sample.shared_tree)) (py "urlhaus")
       = Some s1 /\
     hashes s1 = (1 + others)%nat) /\
  (exists s2 others,
     od_get (sources (generate_stats Sample.t1 Sample.shared_tree)) Sample.daily
       = Some s2 /\
     hashes s2 = (2 + others)%nat).
Proof.
  refine (unique_count_once Sample.t1 Sample.shared_tree (py "urlhaus") Sample.daily
            _ _ Sample.today_json Sample.today_json _ _
            [ (Sample.hash_a, Sample.record "Trojan.A") ]
            [ (Sample.hash_a, Sample.record "Trojan.A");
              (Sample.hash_b, Sample.record "Worm.B") ]
            Sample.hash_a _ _ _ _ _ _ _ _ _ _ _ _ _).
  - in_list.
  - in_list.
  - intros H. vm_compute in H. discriminate H.
  - reflexivity.
  - apply list_elem_of_here.
  - reflexivity.
  - reflexivity.
  - apply list_elem_of_here.
  - reflexivity.
  - apply list_elem_of_here.
  - reflexivity.
  - reflexivity.
  - apply list_elem_of_here.
Defined.

(** The snapshot of the two-partition tree: two distinct hashes in all,
    one counted in [urlhaus] and two in [daily]. *)
Example shared_tree_stats :
  total_unique_hashes (generate_stats Sample.t1 Sample.shared_tree) = 2%nat /\
  od_get (sources (generate_stats Sample.t1 Sample.shared_tree)) (py "urlhaus")
    = Some {| files := 1; hashes := 1 |} /\
  od_get (sources (generate_stats Sample.t1 Sample.shared_tree)) Sample.daily
    = Some {| files := 1; hashes := 2 |}.
Proof. repeat split; vm_compute; reflexivity. Qed.

(** Removing a file that does not load: one file less, the same hashes. *)
Lemma remove_corrupt listing : forall n,
  od_get listing n = Some Corrupt -> endswith n ext_json = true ->
  files (dir_summary listing) = S (files (dir_summary (od_remove listing n))) /\
  hashes (dir_summary listing) = hashes (dir_summary (od_remove listing n)) /\
  dir_keys listing = dir_keys (od_remove listing n).
Proof.
  unfold dir_summary, dir_keys. cbn [files hashes].
  induction listing as [|[k0 f0] rest IH]; intros n Hget Hext; [discriminate|].
  cbn [od_get od_remove] in *. destruct (str_eqb k0 n) eqn:E.
  - apply bool_decide_eq_true in E. subst k0. injection Hget as ->.
    rewrite json_files_cons, Hext. simpl. auto.
  - destruct (IH n Hget Hext) as (Hf & Hh & Hk).
    rewrite !json_files_cons. destruct (endswith k0 ext_json); [|auto].
    simpl. rewrite Hf, Hh, Hk. auto.
Qed.

(** C8, as the code has it. Per-file fault isolation: when one [.json]
    file of a partition fails to load, [generate_stats] still produces its
    snapshot, and compared with the snapshot of the tree without that file
    the unique total is the same, the counters of every other partition
    are the same, and in the partition of the failed file the hash counter
    is the same while the file counter is one higher: the file is counted
    as a file, and contributes no hash. *)
Theorem failed_file_isolated now fs P listing n :
  P ∈ hash_dirs -> od_get fs P = Some listing ->
  od_get listing n = Some Corrupt -> endswith n ext_json = true ->
  total_unique_hashes (generate_stats now fs) =
    total_unique_hashes (generate_stats now (remove_file fs P n)) /\
  (forall Q, Q <> P ->
     od_get (sources (generate_stats now fs)) Q =
     od_get (sources (generate_stats now (remove_file fs P n))) Q) /\
  exists s s',
    od_get (sources (generate_stats now fs)) P = Some s /\
    od_get (sources (generate_stats now (remove_file fs P n))) P = Some s' /\
    hashes s = hashes s' /\
    files s = S (files s').
Proof.
  intros HP Hl Hn Hext. unfold remove_file. rewrite Hl.
  destruct (remove_corrupt listing n Hn Hext) as (Hf & Hh & Hk).
  split; [|split].
  - rewrite !stats_total. unfold hash_universe. do 3 f_equal.
    apply map_ext. intros dir. destruct (decide (P = dir)) as [<-|Hne].
    + by rewrite od_get_set_eq, Hl, Hk.
    + by rewrite od_get_set_ne.
  - intros Q HQ. rewrite !stats_source.
    destruct (decide (Q ∈ hash_dirs)); [|done]. by rewrite od_get_set_ne.
  - exists (dir_summary listing), (dir_summary (od_remove listing n)).
    rewrite !stats_source, !decide_True by done.
    by rewrite od_get_set_eq, Hl.
Qed.

Lemma failed_file_isolated_witness :
  total_unique_hashes (generate_stats Sample.t1 Sample.tree_corrupt) =
    total_unique_hashes
      (generate_stats Sample.t1
         (remove_file Sample.tree_corrupt Sample.daily Sample.today_json)) /\
  (forall Q, Q <> Sample.daily ->
     od_get (sources (generate_stats Sample.t1 Sample.tree_corrupt)) Q =
     od_get (sources (generate_stats Sample.t1
                        (remove_file Sample.tree_corrupt Sample.daily
                           Sample.today_json))) Q) /\
  exists s s',
    od_get (sources (generate_stats Sample.t1 Sample.tree_corrupt)) Sample.daily
      = Some s /\
    od_get (sources (generate_stats Sample.t1
                       (remove_file Sample.tree_corrupt Sample.daily
                          Sample.today_json))) Sample.daily = Some s' /\
    hashes s = hashes s' /\
    files s = S (files s').
Proof.
  refine (failed_file_isolated Sample.t1 Sample.tree_corrupt Sample.daily
            [ (Sample.today_json, Corrupt) ] Sample.today_json _ _ _ _).
  - in_list.
  - reflexivity.
  - reflexivity.
  - reflexivity.
Defined.

(** C8, as stated, fails: a file that does not load still adds one to the
    file counter of its partition; the counters are not those of the tree
    without the file. *)
Lemma failed_file_is_counted :
  od_get (sources (generate_stats Sample.t1 Sample.tree_corrupt)) Sample.daily
    = Some {| files := 1; hashes := 0 |} /\
  remove_file Sample.tree_corrupt Sample.daily Sample.today_json = Sample.tree_empty /\
  od_get (sources (generate_stats Sample.t1 Sample.tree_empty)) Sample.daily
    = Some {| files := 0; hashes := 0 |}.
Proof. repeat split; vm_compute; reflexivity. Qed.

(* ===================================================================== *)
(** ** Adapters: what is kept when part of a payload is malformed         *)
(* ===================================================================== *)

Lemma od_mem_set_mono {V} (d : odict V) k k' v :
  od_mem d k = true -> od_mem (od_set d k' v) k = true.
Proof.
  intros H. destruct (decide (k' = k)) as [->|Hne].
  - apply od_mem_set.
  - by rewrite od_mem_set_ne.
Qed.

Lemma od_mem_keys {V} (d : odict V) k : k ∈ od_keys d -> od_mem d k = true.
Proof. intros H. by apply od_get_mem, od_get_in_keys. Qed.

Lemma od_keys_mem {V} (d : odict V) k : od_mem d k = true -> k ∈ od_keys d.
Proof.
  unfold od_mem. induction d as [|[k0 v0] d IH]; simpl; [discriminate|].
  destruct (str_eqb k0 k) eqn:E.
  - apply bool_decide_eq_true in E. subst. intros _. apply list_elem_of_here.
  - intros H. apply list_elem_of_further. by apply IH.
Qed.

(** The merge loop never loses a key, and ends with every key of the new
    items present. *)
Lemma merge_signatures_mono items : forall es ms k,
  merge_signatures items es = Ret ms ->
  py_contains es k = Ret true -> py_contains ms k = Ret true.
Proof.
  induction items as [|[k0 v0] items IH]; intros es ms k; simpl.
  - by intros [= <-].
  - destruct (py_contains es k0) as [[|]|] eqn:E0; simpl; try discriminate.
    + apply IH.
    + destruct es as [| | | | |o]; simpl; try discriminate.
      intros Hm Hk. apply (IH _ _ _ Hm). simpl in *.
      injection Hk as Hk. f_equal. by apply od_mem_set_mono.
Qed.

Lemma merge_signatures_contains items : forall es ms k,
  merge_signatures items es = Ret ms ->
  k ∈ od_keys items -> py_contains ms k = Ret true.
Proof.
  induction items as [|[k0 v0] items IH]; intros es ms k; simpl.
  - by intros _ ?%elem_of_nil.
  - destruct (py_contains es k0) as [[|]|] eqn:E0; simpl; try discriminate.
    + intros Hm [->|Hin]%elem_of_cons; [|by apply (IH es)].
      by apply (merge_signatures_mono items es).
    + destruct es as [| | | | |o]; simpl; try discriminate.
      intros Hm [->|Hin]%elem_of_cons; [|by apply (IH _ _ _ Hm)].
      apply (merge_signatures_mono items _ _ _ Hm). simpl.
      by rewrite od_mem_set.
Qed.

(** Whatever is on disk, [save_hash_data] leaves a file whose record
    mapping has every hash of the dataset it was given. *)
Lemma save_keeps now dir name fs o sigs h :
  od_get o k_sha256_signatures = Some (JObj sigs) -> h ∈ od_keys sigs ->
  exists doc m,
    save_hash_data now dir name (JObj o) fs =
      Ret (write_file (makedirs fs dir) dir name doc) /\
    py_get doc k_sha256_signatures (JObj []) = Ret m /\
    py_contains m h = Ret true.
Proof.
  intros Ho Hh.
  assert (Hself : py_get (JObj o) k_sha256_signatures (JObj []) = Ret (JObj sigs) /\
                  py_contains (JObj sigs) h = Ret true).
  { simpl. rewrite Ho. split; [done|]. f_equal. by apply od_mem_keys. }
  destruct Hself as [Hg Hc].
  unfold save_hash_data.
  destruct (path_exists (makedirs fs dir) dir name); simpl; [|eauto].
  destruct (json_load (makedirs fs dir) dir name) as [existing|]; simpl; [|eauto].
  destruct (merge_existing now existing (JObj o)) as [merged|] eqn:Em; simpl; [|eauto].
  exists merged. unfold merge_existing in Em. simpl in Em. rewrite Ho in Em.
  destruct existing as [| | | | |eo]; simpl in Em; try discriminate.
  destruct (merge_signatures sigs _) as [ms|] eqn:Ems; simpl in Em; [|discriminate].
  injection Em as <-. exists ms. split; [done|]. split.
  - simpl. by rewrite od_get_set_eq.
  - by apply (merge_signatures_contains sigs _ _ _ Ems).
Qed.

Lemma save_both_keeps clk dir name TODAY fs o sigs h :
  dir <> py "daily" ->
  od_get o k_sha256_signatures = Some (JObj sigs) -> h ∈ od_keys sigs ->
  exists fs' doc m,
    save_both clk dir name TODAY (JObj o) fs = Ret fs' /\
    read_file fs' dir name = Some (Doc doc) /\
    py_get doc k_sha256_signatures (JObj []) = Ret m /\
    py_contains m h = Ret true.
Proof.
  intros Hdir Ho Hh. unfold save_both.
  destruct (save_keeps (save1_iso clk) dir name fs o sigs h Ho Hh)
    as (doc & m & -> & Hg & Hc).
  cbn [exc_bind].
  destruct (save_returns (save2_iso clk) (py "daily") (dated_file [] TODAY) (JObj o)
              (write_file (makedirs fs dir) dir name doc)) as [written ->].
  eexists _, doc, m. split; [reflexivity|]. split; [|done].
  rewrite read_write_other_dir by congruence.
  rewrite read_makedirs. apply read_write_eq.
Qed.

Section Partial.
Context {rt : Runtime}.

(** The loop of the bulk adapter stops at the first element that raises. *)
Lemma mb_samples_stop today bad after : forall before sigs sigs',
  mb_samples today sigs before = Ret sigs' ->
  raises (mb_sample today sigs' bad) ->
  raises (mb_samples today sigs (before ++ bad :: after)).
Proof.
  induction before as [|x before IH]; intros sigs sigs'; simpl.
  - intros [= <-] [e ->]. by exists e.
  - destruct (mb_sample today sigs x) as [s1|e]; simpl; [|discriminate].
    apply IH.
Qed.

(** The loops of the syndication adapter only add keys. *)
Lemma blog_hashes_mono today b e h : forall found sigs,
  od_mem sigs h = true -> od_mem (blog_hashes today b e sigs found).1 h = true.
Proof.
  induction found as [|x found IH]; intros sigs Hs; simpl; [done|].
  destruct (title e); [|done]. simpl. apply IH. by apply od_mem_set_mono.
Qed.

Lemma blog_entry_mono today b e sigs h :
  od_mem sigs h = true -> od_mem (blog_entry today b sigs e).1 h = true.
Proof.
  intros Hs. unfold blog_entry.
  destruct (content e) as [[|v ?]|]; [done|by apply blog_hashes_mono|].
  destruct (summary e); [by apply blog_hashes_mono|done].
Qed.

Lemma blog_entries_mono today b h : forall entries sigs,
  od_mem sigs h = true -> od_mem (blog_entries today b sigs entries).1 h = true.
Proof.
  induction entries as [|e entries IH]; intros sigs Hs; simpl; [done|].
  pose proof (blog_entry_mono today b e sigs h Hs) as He.
  destruct (blog_entry today b sigs e) as [sigs' [x|]]; [done|]. by apply IH.
Qed.

(** What the entries processed so far recorded is still there after the
    remaining entries, whether these raise or not. *)
Lemma blog_entries_prefix today b h rest : forall before sigs,
  od_mem (blog_entries today b sigs before).1 h = true ->
  od_mem (blog_entries today b sigs (before ++ rest)).1 h = true.
Proof.
  induction before as [|e before IH]; intros sigs; simpl.
  - apply blog_entries_mono.
  - destruct (blog_entry today b sigs e) as [sigs' [x|]]; [done|]. apply IH.
Qed.

Lemma blog_feeds_step today parse bs b :
  blog_feeds today parse (bs ++ [b]) =
  match parse (feed b) with
  | Raise _ => blog_feeds today parse bs
  | Ret entries =>
      (blog_entries today b (blog_feeds today parse bs) (firstn 10 entries)).1
  end.
Proof. unfold blog_feeds. by rewrite fold_left_app. Qed.

Lemma blog_feeds_mono today parse h bs : forall later,
  od_mem (blog_feeds today parse bs) h = true ->
  od_mem (blog_feeds today parse (bs ++ later)) h = true.
Proof.
  induction later as [|b later IH] using rev_ind; intros Hs.
  - by rewrite app_nil_r.
  - rewrite app_assoc, blog_feeds_step.
    destruct (parse (feed b)); [|by apply IH].
    apply blog_entries_mono. by apply IH.
Qed.
(** C6, as the code has it. Partial extraction: in the syndication adapter
    a hash recorded from the entries of a feed that were processed before
    an entry raised is retained: it is in the record mapping of the file
    [fetch_popular_malware_blogs] writes, whatever the remaining entries
    and the other feeds do. In the bulk-API adapter an element that raises
    ends the run before anything is saved:
    [fetch_malwarebazaar_samples] returns with the files as they were, the
    elements parsed before the malformed one included in nothing. *)
Theorem partial_extraction clk TODAY :
  (forall post fs resp before bad after sigs,
     post = Ret resp -> status_code resp = 200%Z ->
     body resp = Ret (DocObject (Some (JStr (py "ok")))
                        (Some (DataList (before ++ bad :: after)))) ->
     mb_samples (now_date clk) [] before = Ret sigs ->
     raises (mb_sample (now_date clk) sigs bad) ->
     fetch_malwarebazaar_samples clk TODAY post fs = Ret fs)
  /\
  (forall parse fs earlier b later entries before rest h,
     blogs = earlier ++ b :: later ->
     parse (feed b) = Ret entries -> firstn 10 entries = before ++ rest ->
     h ∈ od_keys (blog_entries (now_date clk) b
                    (blog_feeds (now_date clk) parse earlier) before).1 ->
     exists fs' doc m,
       fetch_popular_malware_blogs clk TODAY parse fs = Ret fs' /\
       read_file fs' (py "virustotal") (dated_file (py "blogs_") TODAY)
         = Some (Doc doc) /\
       py_get doc k_sha256_signatures (JObj []) = Ret m /\
       py_contains m h = Ret true).
Proof.
  split.
  - intros post fs resp before bad after sigs -> Hstatus Hbody Hbefore Hbad.
    unfold fetch_malwarebazaar_samples. cbn [exc_bind]. rewrite Hstatus, Hbody.
    cbn [Z.eqb Pos.eqb exc_bind mb_extract]. rewrite str_eqb_refl.
    destruct (mb_samples_stop (now_date clk) bad after before [] sigs Hbefore Hbad)
      as [e ->].
    reflexivity.
  - intros parse fs earlier b later entries before rest h Hblogs Hparse Hten Hh.
    unfold fetch_popular_malware_blogs.
    set (signatures := blog_feeds (now_date clk) parse blogs).
    assert (Hmem : od_mem signatures h = true).
    { unfold signatures. rewrite Hblogs.
      change (earlier ++ b :: later) with (earlier ++ [b] ++ later).
      rewrite app_assoc. apply blog_feeds_mono.
      rewrite blog_feeds_step, Hparse, Hten.
      apply blog_entries_prefix. by apply od_mem_keys. }
    apply od_keys_mem in Hmem.
    assert (Htruthy : truthy (JObj signatures) = true).
    { simpl. destruct signatures; [by apply elem_of_nil in Hmem|done]. }
    rewrite Htruthy.
    apply (save_both_keeps clk (py "virustotal") _ TODAY fs _ signatures h);
      [key_ne | reflexivity | done].
Qed.
End Partial.

Lemma partial_extraction_witness :
  fetch_malwarebazaar_samples (rt := ascii_runtime) Sample.clk Sample.TODAY
    (Ret Sample.api_answer) Sample.tree_empty = Ret Sample.tree_empty /\
  exists fs' doc m,
    fetch_popular_malware_blogs (rt := ascii_runtime) Sample.clk Sample.TODAY
      Sample.parse_feed Sample.tree_empty = Ret fs' /\
    read_file fs' (py "virustotal") (dated_file (py "blogs_") Sample.TODAY)
      = Some (Doc doc) /\
    py_get doc k_sha256_signatures (JObj []) = Ret m /\
    py_contains m Sample.mixed_hash = Ret true.
Proof.
  destruct (partial_extraction (rt := ascii_runtime) Sample.clk Sample.TODAY)
    as [Hbulk Hblogs].
  split.
  - refine (Hbulk (Ret Sample.api_answer) Sample.tree_empty Sample.api_answer
              [Sample.good_sample] Sample.null_signature_sample [] _ _ _ _ _ _).
    + reflexivity.
    + reflexivity.
    + reflexivity.
    + vm_compute. reflexivity.
    + exists AttributeError. vm_compute. reflexivity.
  - refine (Hblogs Sample.parse_feed Sample.tree_empty [] Sample.first_blog
              (tl blogs) [Sample.titled_entry; Sample.untitled_entry]
              [Sample.titled_entry] [Sample.untitled_entry] Sample.mixed_hash
              _ _ _ _).
    + reflexivity.
    + reflexivity.
    + reflexivity.
    + in_list.
Defined.

(** C6, as stated, fails for the bulk-API adapter: the first element of
    the answer parses into a record, the second has a null [signature] and
    raises, and the run ends with no file written: the record parsed
    before the malformed element is not persisted. *)
Lemma bulk_adapter_drops_parsed :
  (exists record,
     mb_samples (rt := ascii_runtime) (py "2024-01-01") [] [Sample.good_sample]
       = Ret [ (Sample.hash_a, record) ]) /\
  raises (mb_sample (rt := ascii_runtime) (py "2024-01-01") []
            Sample.null_signature_sample) /\
  fetch_malwarebazaar_samples (rt := ascii_runtime) Sample.clk Sample.TODAY
    (Ret Sample.api_answer) Sample.tree_empty = Ret Sample.tree_empty /\
  read_file Sample.tree_empty (py "malwarebazaar") (dated_file [] Sample.TODAY) = None.
Proof.
  split; [|split; [|split]].
  - eexists. vm_compute. reflexivity.
  - exists AttributeError. vm_compute. reflexivity.
  - vm_compute. reflexivity.
  - reflexivity.
Qed.

(** The normalized record of the scenario of the specification: signature
    ["Trojan.Test"], tags [t1] and [t2]. *)
Example bulk_sample_record :
  mb_sample (rt := ascii_runtime) (py "2024-01-01") [] Sample.good_sample =
  Ret [ (Sample.hash_a,
         JObj [ (k_classification, JStr (py "Trojan.Test"));
                (k_detection_rate, JStr (py "?/100"));
                (k_first_seen, JStr (py "2024-01-01"));
                (k_neartha_name, JStr (py "Trojan.Test"));
                (k_additional_info, JStr (py "Tags: t1, t2"));
                (k_file_type, JStr (py "Unknown")) ]) ].
Proof. vm_compute. reflexivity. Qed.

(* ===================================================================== *)
(** ** The merge store: further properties                                *)
(* ===================================================================== *)

Lemma read_write_other_name fs dir name name' data :
  name <> name' ->
  read_file (write_file fs dir name data) dir name' = read_file fs dir name'.
Proof.
  intros Hne. unfold read_file, write_file.
  destruct (od_get fs dir) as [d|] eqn:E; rewrite od_get_set_eq.
  - by rewrite od_get_set_ne.
  - simpl. by rewrite str_eqb_ne.
Qed.

(** X1. [save_hash_data] touches one file: whatever it is given and
    whatever is on disk, every file other than [(dir, name)] reads after
    the call as it read before. *)
Theorem save_touches_one_file now dir name data fs fs' dir' name' :
  save_hash_data now dir name data fs = Ret fs' ->
  (dir', name') <> (dir, name) ->
  read_file fs' dir' name' = read_file fs dir' name'.
Proof.
  intros Hsave Hne.
  destruct (save_returns now dir name data fs) as [written Hw].
  rewrite Hw in Hsave. injection Hsave as <-.
  destruct (decide (dir = dir')) as [<-|Hd].
  - rewrite read_write_other_name by congruence. apply read_makedirs.
  - rewrite read_write_other_dir by done. apply read_makedirs.
Qed.

Lemma save_touches_one_file_witness :
  exists fs',
    save_hash_data Sample.t1 Sample.daily Sample.today_json Sample.extraction
      Sample.shared_tree = Ret fs' /\
    read_file fs' (py "urlhaus") Sample.today_json
    = read_file Sample.shared_tree (py "urlhaus") Sample.today_json.
Proof.
  eexists. split; [reflexivity|].
  refine (save_touches_one_file Sample.t1 Sample.daily Sample.today_json
            Sample.extraction Sample.shared_tree _ (py "urlhaus")
            Sample.today_json eq_refl _).
  intros H. vm_compute in H. discriminate H.
Defined.

(** X2. A prior file that loads but is not a JSON object is superseded:
    the merge raises, the exception is caught and the new dataset is
    written as it is; nothing of the prior document is kept. *)
Theorem non_object_prior_superseded now dir name fs D N :
  read_file fs dir name = Some (Doc D) ->
  (forall o, D <> JObj o) ->
  exists fs',
    save_hash_data now dir name N fs = Ret fs' /\
    read_file fs' dir name = Some (Doc N).
Proof.
  intros Hf HD. unfold save_hash_data.
  rewrite (makedirs_present _ _ _ _ Hf). unfold path_exists, json_load. rewrite Hf.
  cbn [exc_bind].
  assert (Hraise : raises (merge_existing now D N)).
  { unfold merge_existing.
    destruct (py_get N k_version default_version) as [v|e]; [|by exists e].
    cbn [exc_bind].
    destruct D; try (by exists TypeError). by destruct (HD o). }
  destruct Hraise as [e ->]. cbn [try_except exc_bind].
  eexists. split; [reflexivity|]. apply read_write_eq.
Qed.

Lemma non_object_prior_superseded_witness :
  exists fs',
    save_hash_data Sample.t1 Sample.daily Sample.today_json Sample.extraction
      [ (Sample.daily, [ (Sample.today_json, Doc (JArr [JStr Sample.hash_a])) ]) ]
      = Ret fs' /\
    read_file fs' Sample.daily Sample.today_json = Some (Doc Sample.extraction).
Proof.
  refine (non_object_prior_superseded Sample.t1 Sample.daily Sample.today_json
            _ (JArr [JStr Sample.hash_a]) Sample.extraction _ _).
  - reflexivity.
  - intros o H. discriminate H.
Defined.

Lemma od_set_absent {V} (d : odict V) k v :
  od_get d k = None -> od_set d k v = d ++ [(k, v)].
Proof.
  induction d as [|[k0 v0] d IH]; simpl; [done|].
  destruct (str_eqb k0 k); [discriminate|]. intros H. by rewrite IH.
Qed.

Lemma od_get_app {V} (a b : odict V) k :
  od_get (a ++ b) k =
  match od_get a k with
  | Some v => Some v
  | None => od_get b k
  end.
Proof.
  induction a as [|[k0 v0] a IH]; simpl; [done|]. by destruct (str_eqb k0 k).
Qed.

(** The union is the left operand followed by the items it lacked. *)
Lemma od_union_app items : forall m,
  exists extra,
    od_union m items = m ++ extra /\
    forall k, k ∈ od_keys extra -> od_get m k = None.
Proof.
  induction items as [|[k v] items IH]; intros m.
  - exists []. split; [by rewrite app_nil_r|]. by intros k ?%elem_of_nil.
  - unfold od_union in *. cbn [fold_left fst snd].
    destruct (od_mem m k) eqn:Hm; [apply IH|].
    assert (Hk : od_get m k = None).
    { unfold od_mem in Hm. by destruct (od_get m k). }
    rewrite (od_set_absent m k v Hk).
    destruct (IH (m ++ [(k, v)])) as (extra & -> & Hextra).
    exists ((k, v) :: extra). split; [by rewrite <- app_assoc|].
    intros k' [->|Hin]%elem_of_cons; [done|].
    specialize (Hextra k' Hin). rewrite od_get_app in Hextra.
    by destruct (od_get m k').
Qed.

(** X3. The merge keeps the order of the stored record mapping: after
    [save_hash_data] merges a dataset [N] into a stored dataset [D], the
    record mapping on disk is [D]'s mapping, entry for entry and in the
    same order, followed by new entries; the new entries are hashes [D]
    did not have, with the records [N] gives them. *)
Theorem merge_appends now dir name fs D N dm nm :
  read_file fs dir name = Some (Doc D) ->
  signatures_of D = Some dm ->
  signatures_of N = Some nm ->
  exists fs' M extra,
    save_hash_data now dir name N fs = Ret fs' /\
    read_file fs' dir name = Some (Doc M) /\
    signatures_of M = Some (dm ++ extra) /\
    forall k, k ∈ od_keys extra -> od_get dm k = None /\ od_get extra k = od_get nm k.
Proof.
  intros Hf HD HN. destruct D as [| | | | |d]; try discriminate.
  destruct (od_union_app nm dm) as (extra & Hu & Hextra).
  eexists _, _, extra. split; [by apply (save_merges now dir name d N dm nm)|].
  split; [apply read_write_eq|]. split.
  - simpl. by rewrite od_get_set_eq, Hu.
  - intros k Hk. split; [by apply Hextra|].
    pose proof (od_get_union nm dm k) as Hg.
    rewrite Hu, od_get_app, (Hextra k Hk) in Hg. exact Hg.
Qed.

Lemma merge_appends_witness :
  exists fs' M extra,
    save_hash_data Sample.t2 Sample.daily Sample.today_json Sample.extraction Sample.tree
      = Ret fs' /\
    read_file fs' Sample.daily Sample.today_json = Some (Doc M) /\
    signatures_of M = Some ([ (Sample.hash_a, Sample.record "Trojan.Old") ] ++ extra) /\
    forall k, k ∈ od_keys extra ->
      od_get [ (Sample.hash_a, Sample.record "Trojan.Old") ] k = None /\
      od_get extra k = od_get [ (Sample.hash_a, Sample.record "Trojan.New");
                                (Sample.hash_b, Sample.record "Worm.New") ] k.
Proof.
  apply (merge_appends Sample.t2 Sample.daily Sample.today_json Sample.tree
           Sample.prior Sample.extraction); reflexivity.
Defined.

Lemma sum_list_map_app {A} (g : A -> nat) (a b : list A) :
  sum_list (map g (a ++ b)) = (sum_list (map g a) + sum_list (map g b))%nat.
Proof. induction a as [|x a IH]; simpl; [done|]. rewrite IH. lia. Qed.

(** The counters of a directory that gained one [.json] file. *)
Lemma dir_summary_snoc listing name f :
  endswith name ext_json = true ->
  dir_summary (listing ++ [(name, f)]) =
  {| files := S (files (dir_summary listing));
     hashes := hashes (dir_summary listing) + file_count f |}.
Proof.
  intros Hext. unfold dir_summary, json_files. rewrite filter_app.
  rewrite (filter_cons_True _ (name, f)) by done. rewrite filter_nil.
  cbn [files hashes]. rewrite length_app, sum_list_map_app. simpl. f_equal; lia.
Qed.

(** X4. Two runs on one date leave one file: when the file of a partition
    does not exist yet and two datasets are saved one after the other, the
    file holds the union of both record mappings (the first run's record
    for a hash both carry), and [generate_stats] counts one more file for
    the partition and adds the size of that union to its hash counter. *)
Theorem two_runs_one_file now1 now2 stats_now dir name fs listing N1 N2 n1 n2 :
  dir ∈ hash_dirs -> endswith name ext_json = true ->
  od_get fs dir = Some listing -> od_get listing name = None ->
  signatures_of N1 = Some n1 -> signatures_of N2 = Some n2 ->
  exists fs1 fs2 M,
    save_hash_data now1 dir name N1 fs = Ret fs1 /\
    save_hash_data now2 dir name N2 fs1 = Ret fs2 /\
    read_file fs2 dir name = Some (Doc M) /\
    signatures_of M = Some (od_union n1 n2) /\
    od_get (sources (generate_stats stats_now fs2)) dir =
      Some {| files := S (files (dir_summary listing));
              hashes := hashes (dir_summary listing) + length (od_union n1 n2) |}.
Proof.
  intros Hdir Hext Hfs Hname H1 H2.
  assert (Hload : raises (json_load fs dir name)).
  { exists OSError. unfold json_load, read_file. by rewrite Hfs, Hname. }
  assert (Hmk : makedirs fs dir = fs) by (unfold makedirs; by rewrite Hfs).
  pose proof (save_fresh now1 dir name N1 fs Hload) as Hs1. rewrite Hmk in Hs1.
  destruct N1 as [| | | | |o1]; try discriminate.
  pose proof (save_merges now2 dir name o1 N2 n1 n2 _ (read_write_eq fs dir name _)
                H1 H2) as Hs2.
  rewrite write_write in Hs2.
  eexists _, _, _. split; [exact Hs1|]. split; [exact Hs2|].
  split; [apply read_write_eq|]. split.
  - simpl. by rewrite od_get_set_eq.
  - rewrite stats_source, decide_True by done.
    unfold write_file. rewrite Hfs, od_get_set_eq. cbn [fmap option_fmap option_map].
    rewrite (od_set_absent listing name _ Hname), dir_summary_snoc by done.
    do 3 f_equal. simpl. by rewrite od_get_set_eq.
Qed.

Lemma two_runs_one_file_witness :
  exists fs1 fs2 M,
    save_hash_data Sample.t1 Sample.daily Sample.today_json Sample.prior
      Sample.tree_empty = Ret fs1 /\
    save_hash_data Sample.t2 Sample.daily Sample.today_json Sample.extraction fs1
      = Ret fs2 /\
    read_file fs2 Sample.daily Sample.today_json = Some (Doc M) /\
    signatures_of M =
      Some [ (Sample.hash_a, Sample.record "Trojan.Old");
             (Sample.hash_b, Sample.record "Worm.New") ] /\
    od_get (sources (generate_stats Sample.t2 fs2)) Sample.daily =
      Some {| files := 1; hashes := 2 |}.
Proof.
  refine (two_runs_one_file Sample.t1 Sample.t2 Sample.t2 Sample.daily
            Sample.today_json Sample.tree_empty [] Sample.prior Sample.extraction
            [ (Sample.hash_a, Sample.record "Trojan.Old") ]
            [ (Sample.hash_a, Sample.record "Trojan.New");
              (Sample.hash_b, Sample.record "Worm.New") ] _ _ _ _ _ _).
  - in_list.
  - reflexivity.
  - reflexivity.
  - reflexivity.
  - reflexivity.
  - reflexivity.
Defined.

Lemma od_get_elem {V} (d : odict V) k v : od_get d k = Some v -> (k, v) ∈ d.
Proof.
  induction d as [|[k0 v0] d IH]; simpl; [discriminate|].
  destruct (str_eqb k0 k) eqn:E.
  - apply bool_decide_eq_true in E. intros [= ->]. subst. apply list_elem_of_here.
  - intros H. apply list_elem_of_further. by apply IH.
Qed.

Lemma elem_of_dir_keys listing h :
  h ∈ dir_keys listing <->
  exists n f, (n, f) ∈ listing /\ endswith n ext_json = true /\ h ∈ file_keys f.
Proof.
  unfold dir_keys, json_files. rewrite list_elem_of_In, in_concat. split.
  - intros (ks & Hks & Hh). apply in_map_iff in Hks as ([n f] & <- & Hin).
    apply list_elem_of_In, list_elem_of_filter in Hin as [Hext Hin].
    exists n, f. by rewrite list_elem_of_In.
  - intros (n & f & Hin & Hext & Hh). exists (file_keys f). split.
    + apply in_map_iff. exists (n, f). split; [done|].
      apply list_elem_of_In, list_elem_of_filter. done.
    + by apply list_elem_of_In.
Qed.

Lemma elem_of_hash_universe fs h :
  h ∈ hash_universe fs <->
  exists d listing,
    d ∈ hash_dirs /\ od_get fs d = Some listing /\ h ∈ dir_keys listing.
Proof.
  unfold hash_universe. rewrite elem_of_list_to_set, list_elem_of_In, in_concat.
  split.
  - intros (ks & Hks & Hh). apply in_map_iff in Hks as (d & <- & Hd).
    destruct (od_get fs d) as [listing|] eqn:E; [|by destruct Hh].
    exists d, listing. by rewrite !list_elem_of_In.
  - intros (d & listing & Hd & Hl & Hh). exists (dir_keys listing). split.
    + apply in_map_iff. exists d. rewrite Hl. split; [done|]. by apply list_elem_of_In.
    + by apply list_elem_of_In.
Qed.

(** Replacing a file by one that has all its keys keeps the keys of the
    directory. *)
Lemma dir_keys_set_mono name f' h : forall listing,
  (forall f, od_get listing name = Some f -> h ∈ file_keys f -> h ∈ file_keys f') ->
  h ∈ dir_keys listing -> h ∈ dir_keys (od_set listing name f').
Proof.
  intros listing Hold. rewrite !elem_of_dir_keys.
  intros (n & f & Hin & Hext & Hh). revert Hold Hin.
  induction listing as [|[k0 v0] rest IH]; intros Hold Hin.
  - by apply elem_of_nil in Hin.
  - cbn [od_set od_get] in *. destruct (str_eqb k0 name) eqn:E.
    + apply bool_decide_eq_true in E. subst k0.
      apply elem_of_cons in Hin as [[= -> ->]|Hin].
      * exists name, f'. split; [apply list_elem_of_here|]. split; [done|].
        by apply (Hold v0).
      * exists n, f. split; [by apply list_elem_of_further|done].
    + apply elem_of_cons in Hin as [[= -> ->]|Hin].
      * exists k0, v0. split; [apply list_elem_of_here|done].
      * destruct (IH Hold Hin) as (n' & f'' & Hin' & ?).
        exists n', f''. split; [by apply list_elem_of_further|done].
Qed.

Lemma od_keys_union m items h :
  h ∈ od_keys (od_union m items) <-> h ∈ od_keys m \/ h ∈ od_keys items.
Proof.
  split.
  - intros H%od_mem_keys%od_get_mem. rewrite od_get_union in H.
    destruct (od_get m h) eqn:Em.
    + left. apply od_keys_mem, od_get_mem. congruence.
    + right. by apply od_keys_mem, od_get_mem.
  - intros H. apply od_keys_mem, od_get_mem. rewrite od_get_union.
    destruct H as [H|H]; apply od_get_in_keys in H; by destruct (od_get m h).
Qed.

(** What [save_hash_data] writes when it is given a dataset: a document
    with every key the file had; and, when the file was missing, unreadable
    or a dataset, a dataset with every key of the new one. *)
Lemma save_dataset now dir name fs N nm :
  signatures_of N = Some nm ->
  exists W,
    save_hash_data now dir name N fs = Ret (write_file (makedirs fs dir) dir name W) /\
    (forall h, h ∈ keys_at fs dir name -> h ∈ file_keys (Doc W)) /\
    (mergeable fs dir name ->
     signatures_of W <> None /\ forall h, h ∈ od_keys nm -> h ∈ file_keys (Doc W)).
Proof.
  intros HN. unfold keys_at, mergeable.
  assert (HkN : file_keys (Doc N) = od_keys nm) by (simpl; by rewrite HN).
  assert (HsN : signatures_of N <> None) by congruence.
  destruct (read_file fs dir name) as [[|D]|] eqn:Hf.
  - exists N. split.
    + apply save_fresh. exists ValueError. unfold json_load. by rewrite Hf.
    + split; [by intros h ?%elem_of_nil|]. intros _. by rewrite HkN.
  - destruct (signatures_of D) as [dm|] eqn:HD.
    + destruct D as [| | | | |d]; try discriminate.
      rewrite (makedirs_present _ _ _ _ Hf).
      eexists. split; [by apply (save_merges now dir name d N dm nm)|].
      assert (Hs : signatures_of
                (JObj (od_set (od_set (od_set d k_version (version_of N))
                                 k_last_updated (JStr now))
                         k_sha256_signatures (JObj (od_union dm nm))))
              = Some (od_union dm nm)).
      { simpl. by rewrite od_get_set_eq. }
      cbn [file_keys]. rewrite Hs, HD. split.
      * intros h Hh. apply od_keys_union. auto.
      * intros _. split; [done|]. intros h Hh. apply od_keys_union. auto.
    + destruct (save_returns now dir name N fs) as [W HW].
      exists W. split; [done|]. cbn [file_keys]. rewrite HD.
      split; [by intros h ?%elem_of_nil|]. intros Hm. by destruct Hm.
  - exists N. split.
    + apply save_fresh. exists OSError. unfold json_load. by rewrite Hf.
    + split; [by intros h ?%elem_of_nil|]. intros _. by rewrite HkN.
Qed.

Lemma od_get_makedirs fs dir d :
  od_get (makedirs fs dir) d =
  match od_get fs d with
  | Some listing => Some listing
  | None => if decide (dir = d) then Some [] else None
  end.
Proof.
  unfold makedirs. destruct (od_get fs dir) eqn:E.
  - destruct (od_get fs d) eqn:E'; [done|]. case_decide; [congruence|done].
  - destruct (decide (dir = d)) as [<-|Hne].
    + by rewrite od_get_set_eq, E.
    + rewrite od_get_set_ne by done. by destruct (od_get fs d).
Qed.

(** The directory of a written file: the old listing with the file set. *)
Lemma od_get_write fs dir name data d :
  od_get (write_file (makedirs fs dir) dir name data) d =
  if decide (dir = d) then
    Some (od_set (match od_get fs dir with Some l => l | None => [] end)
            name (Doc data))
  else od_get fs d.
Proof.
  unfold write_file. rewrite od_get_makedirs.
  destruct (decide (dir = d)) as [<-|Hne].
  - destruct (od_get fs dir) eqn:E.
    + by rewrite od_get_set_eq.
    + rewrite decide_True by done. by rewrite od_get_set_eq.
  - destruct (od_get fs dir) eqn:E.
    + rewrite od_get_set_ne by done. rewrite od_get_makedirs.
      destruct (od_get fs d); [done|]. by rewrite decide_False.
    + rewrite decide_True by done. rewrite od_get_set_ne by done.
      rewrite od_get_makedirs. destruct (od_get fs d); [done|].
      by rewrite decide_False.
Qed.

(** X5. Saving never loses a hash: when [save_hash_data] is given a
    dataset, every hash that [generate_stats] would count before the call
    (a key of the record mapping of some [.json] file of some partition)
    is still counted after it, whatever the file that is written held. *)
Theorem save_never_loses now dir name fs fs' N nm :
  signatures_of N = Some nm ->
  save_hash_data now dir name N fs = Ret fs' ->
  hash_universe fs ⊆ hash_universe fs'.
Proof.
  intros HN Hsave. destruct (save_dataset now dir name fs N nm HN) as (W & HW & Hold & _).
  rewrite HW in Hsave. injection Hsave as <-.
  intros h. rewrite !elem_of_hash_universe.
  intros (d & listing & Hd & Hl & Hh). exists d. rewrite od_get_write.
  destruct (decide (dir = d)) as [<-|Hne]; [|eauto].
  rewrite Hl. eexists. split; [done|]. split; [reflexivity|].
  apply dir_keys_set_mono; [|done].
  intros f Hf Hk. apply Hold. unfold keys_at, read_file. by rewrite Hl, Hf.
Qed.

Lemma save_never_loses_witness :
  hash_universe Sample.shared_tree ⊆
  hash_universe
    (write_file Sample.shared_tree (py "urlhaus") Sample.today_json
       (JObj (od_set (od_set (od_set
                [ (k_sha256_signatures,
                   JObj [ (Sample.hash_a, Sample.record "Trojan.A") ]) ]
                k_version (JStr (py "1.0.0")))
                k_last_updated (JStr Sample.t2))
                k_sha256_signatures
                (JObj [ (Sample.hash_a, Sample.record "Trojan.A");
                        (Sample.hash_b, Sample.record "Worm.New") ])))).
Proof.
  refine (save_never_loses Sample.t2 (py "urlhaus") Sample.today_json
            Sample.shared_tree _ Sample.extraction
            [ (Sample.hash_a, Sample.record "Trojan.New");
              (Sample.hash_b, Sample.record "Worm.New") ] _ _).
  - reflexivity.
  - reflexivity.
Defined.

(** X6. What is saved is counted: when a dataset is saved into a file of
    a partition that [generate_stats] scans, and the file was missing,
    unreadable or a dataset, every hash of the dataset is in the global
    set afterwards, so the unique total is at least the number of distinct
    hashes of the dataset. *)
Theorem saved_is_counted now stats_now dir name fs fs' N nm :
  dir ∈ hash_dirs -> endswith name ext_json = true ->
  mergeable fs dir name ->
  signatures_of N = Some nm ->
  save_hash_data now dir name N fs = Ret fs' ->
  (forall h, h ∈ od_keys nm -> h ∈ hash_universe fs') /\
  (size (list_to_set (od_keys nm) : gset pystr)
   <= total_unique_hashes (generate_stats stats_now fs'))%nat.
Proof.
  intros Hdir Hext Hm HN Hsave.
  destruct (save_dataset now dir name fs N nm HN) as (W & HW & _ & Hnew).
  rewrite HW in Hsave. injection Hsave as <-.
  destruct (Hnew Hm) as [_ Hkeys].
  assert (Hall : forall h, h ∈ od_keys nm ->
            h ∈ hash_universe (write_file (makedirs fs dir) dir name W)).
  { intros h Hh. apply elem_of_hash_universe. exists dir. rewrite od_get_write.
    rewrite decide_True by done. eexists. split; [done|]. split; [reflexivity|].
    apply elem_of_dir_keys. exists name, (Doc W).
    split; [apply od_get_elem, od_get_set_eq|]. split; [done|]. by apply Hkeys. }
  split; [exact Hall|]. rewrite stats_total. apply subseteq_size.
  intros h Hh. apply Hall. by apply elem_of_list_to_set in Hh.
Qed.

Lemma saved_is_counted_witness :
  exists fs',
    save_hash_data Sample.t1 Sample.daily Sample.today_json Sample.extraction
      Sample.tree_corrupt = Ret fs' /\
    (forall h, h ∈ [Sample.hash_a; Sample.hash_b] -> h ∈ hash_universe fs') /\
    (size (list_to_set [Sample.hash_a; Sample.hash_b] : gset pystr)
     <= total_unique_hashes (generate_stats Sample.t2 fs'))%nat.
Proof.
  eexists. split; [reflexivity|].
  refine (saved_is_counted Sample.t1 Sample.t2 Sample.daily Sample.today_json
            Sample.tree_corrupt _ Sample.extraction
            [ (Sample.hash_a, Sample.record "Trojan.New");
              (Sample.hash_b, Sample.record "Worm.New") ] _ _ _ _ eq_refl).
  - in_list.
  - reflexivity.
  - exact I.
  - reflexivity.
Defined.

(* ===================================================================== *)
(** ** The record normalizer: further properties                          *)
(* ===================================================================== *)

Lemma replace_char_spec a b (s : pystr) :
  a <> b ->
  length (replace_char a b s) = length s /\
  (a ∉ replace_char a b s) /\
  (a ∉ s -> replace_char a b s = s).
Proof.
  intros Hab. unfold replace_char. split; [apply length_map|]. split.
  - induction s as [|c s IH]; simpl; [apply not_elem_of_nil|].
    apply not_elem_of_cons. split; [|done].
    destruct (N.eqb_spec c a); congruence.
  - induction s as [|c s IH]; simpl; [done|].
    intros [Hc Hs]%not_elem_of_cons.
    destruct (N.eqb_spec c a); [congruence|]. by rewrite IH.
Qed.

(** X7. The derived name: in the record [generate_hash_structure] returns
    for a string classification, [neartha_name] has the length of the
    classification, contains no space, and is the classification itself
    when that has no space. *)
Theorem neartha_name_no_space today hash_value s detection_rate additional_info
    file_type record :
  generate_hash_structure today hash_value (JStr s) detection_rate additional_info
    file_type = Ret record ->
  exists n,
    od_get (members_of record) k_neartha_name = Some (JStr n) /\
    length n = length s /\
    (32 ∉ n) /\
    (32 ∉ s -> n = s).
Proof.
  unfold generate_hash_structure. cbn [py_replace_space exc_bind].
  intros [= <-]. exists (replace_char 32 46 s). split; [reflexivity|].
  apply replace_char_spec. lia.
Qed.

Lemma neartha_name_no_space_witness :
  exists n,
    od_get
      (members_of
         (JObj [ (k_classification, JStr (py "Trojan Horse Generic"));
                 (k_detection_rate, JStr (py "Unknown"));
                 (k_first_seen, JStr (py "2024-01-01"));
                 (k_neartha_name, JStr (py "Trojan.Horse.Generic"));
                 (k_additional_info, JStr []);
                 (k_file_type, JStr (py "Unknown")) ]))
      k_neartha_name = Some (JStr n) /\
    length n = length (py "Trojan Horse Generic") /\
    (32 ∉ n) /\
    (32 ∉ py "Trojan Horse Generic" -> n = py "Trojan Horse Generic").
Proof.
  refine (neartha_name_no_space (py "2024-01-01") (JStr Sample.hash_a)
            (py "Trojan Horse Generic") (JStr (py "Unknown")) JNull JNull _ _).
  reflexivity.
Defined.

(* ===================================================================== *)
(** ** The hash-shape scan: further properties                            *)
(* ===================================================================== *)

Section ScanMore.
Context {rt : Runtime}.

(** A match starts after a non-word position and ends before one. *)
Lemma match_sha_bounds prev txt m :
  match_here SHA256_PATTERN prev txt = Some m ->
  word_opt prev = false /\
  exists rest, txt = m ++ rest /\ word_opt (head rest) = false.
Proof.
  intros Hm. pose proof (match_sha_Some prev txt m Hm) as (rest0 & -> & Hlen & Hhex).
  rewrite match_sha in Hm.
  destruct m as [|c m]; [discriminate|].
  assert (Hc : is_word c = true) by (apply hex_is_word; by inversion Hhex).
  unfold at_boundary in Hm at 1. cbn [app head word_opt] in Hm. rewrite Hc in Hm.
  destruct (word_opt prev); [discriminate|]. split; [done|].
  cbn [xorb negb] in Hm.
  destruct (take_set 64 hex_ranges _) as [[m' rest]|] eqn:Et; [|discriminate].
  destruct (at_boundary _ (head rest)) eqn:Eb; [|discriminate].
  injection Hm as ->. apply take_set_Some in Et as (Heq & _ & _).
  change (c :: m ++ rest0) with ((c :: m) ++ rest0) in Heq.
  apply app_inv_head in Heq as <-.
  exists rest0. split; [done|].
  destruct (last (c :: m)) as [z|] eqn:El; [|by apply last_None in El].
  assert (Hz : is_word z = true).
  { apply hex_is_word. rewrite Forall_forall in Hhex. apply Hhex.
    by apply last_Some_elem_of. }
  unfold at_boundary in Eb. cbn [word_opt] in Eb. rewrite Hz in Eb.
  by destruct (word_opt (head rest0)).
Qed.

Lemma scan_sound_from m : forall rest consumed skip,
  m ∈ findall_from SHA256_PATTERN (last consumed) skip rest ->
  exists pre post,
    consumed ++ rest = pre ++ m ++ post /\
    word_opt (last pre) = false /\ word_opt (head post) = false.
Proof.
  induction rest as [|c rest IH]; intros consumed skip Hm.
  - rewrite scan_nil in Hm. by apply elem_of_nil in Hm.
  - rewrite findall_from_cons in Hm.
    assert (Hnext : forall k,
              m ∈ findall_from SHA256_PATTERN (Some c) k rest ->
              exists pre post,
                consumed ++ c :: rest = pre ++ m ++ post /\
                word_opt (last pre) = false /\ word_opt (head post) = false).
    { intros k Hk. rewrite <- (last_snoc c consumed) in Hk.
      destruct (IH _ _ Hk) as (pre & post & Heq & ?).
      exists pre, post. split; [|done]. by rewrite <- Heq, <- app_assoc. }
    destruct skip as [|k]; [|by apply (Hnext k)].
    destruct (match_here SHA256_PATTERN (last consumed) (c :: rest)) as [m0|] eqn:E0;
      [|by apply (Hnext 0%nat)].
    apply elem_of_cons in Hm as [->|Hm]; [|by apply (Hnext (length m0 - 1)%nat)].
    apply match_sha_bounds in E0 as (Hprev & post & -> & Hpost).
    by exists consumed, post.
Qed.

(** X8. The scan reports only what is there: every element of
    [SHA256_PATTERN.findall(text)] is a run of 64 hexadecimal digits that
    occurs in the text, with no word character right before it and none
    right after it. *)
Theorem scan_sound (txt m : pystr) :
  m ∈ findall SHA256_PATTERN txt ->
  exists pre post,
    txt = pre ++ m ++ post /\
    length m = 64%nat /\ Forall hex_digit m /\
    word_opt (last pre) = false /\ word_opt (head post) = false.
Proof.
  intros Hm.
  destruct (scan_sound_from m txt [] 0%nat Hm) as (pre & post & Heq & Hpre & Hpost).
  pose proof (scan_shape txt None 0%nat) as Hshape.
  rewrite Forall_forall in Hshape. destruct (Hshape m Hm) as [Hlen Hhex].
  exists pre, post. by rewrite <- Heq.
Qed.

(** Inside a run of word characters no match starts. *)
Lemma scan_inside_run : forall (s : pystr) prev,
  Forall hex_digit s -> word_opt prev = true ->
  findall_from SHA256_PATTERN prev 0 s = [].
Proof.
  induction s as [|c s IH]; intros prev Hhex Hprev; [apply scan_nil|].
  inversion Hhex as [|? ? Hc Hs]; subst.
  rewrite findall_from_cons, match_sha.
  unfold at_boundary. cbn [head word_opt]. rewrite Hprev, (hex_is_word c Hc).
  cbn [xorb]. apply IH; [done|]. cbn [word_opt]. by apply hex_is_word.
Qed.

Lemma take_set_length n r : forall txt m rest,
  take_set n r txt = Some (m, rest) -> length txt = (n + length rest)%nat.
Proof.
  intros txt m rest H. apply take_set_Some in H as (-> & <- & _).
  by rewrite length_app.
Qed.

(** X9. A text made of hexadecimal digits only yields itself when it has
    exactly 64 characters and nothing otherwise: a longer digest is not
    cut down to its first 64 digits. *)
Theorem hex_run_alone (s : pystr) :
  Forall hex_digit s ->
  findall SHA256_PATTERN s = if (length s =? 64)%nat then [s] else [].
Proof.
  intros Hhex. unfold findall. destruct s as [|c s0] eqn:Es; [by rewrite scan_nil|].
  rewrite <- Es in *. assert (Hc : hex_digit c) by (subst s; by inversion Hhex).
  assert (Hs0 : Forall hex_digit s0) by (subst s; by inversion Hhex).
  assert (Hin : forall k, k = 0%nat -> findall_from SHA256_PATTERN (Some c) k s0 = []).
  { intros k ->. apply scan_inside_run; [done|]. cbn [word_opt]. by apply hex_is_word. }
  destruct (Nat.eqb_spec (length s) 64) as [Hlen|Hlen].
  - rewrite Es, findall_from_cons, <- Es.
    pose proof (match_sha_hit None s [] eq_refl Hlen Hhex eq_refl) as Hhit.
    rewrite app_nil_r in Hhit. rewrite Hhit. f_equal.
    replace (length s - 1)%nat with (length s0) by (subst s; simpl; lia).
    rewrite <- (app_nil_r s0) at 2. rewrite scan_skip. apply scan_nil.
  - rewrite Es, findall_from_cons, <- Es.
    destruct (match_here SHA256_PATTERN None s) as [m|] eqn:Em; [|by apply Hin].
    exfalso. pose proof (match_sha_Some None s m Em) as (rest & Heq & Hm64 & _).
    apply match_sha_bounds in Em as (_ & rest' & Heq' & Hrest).
    rewrite Heq' in Heq. apply app_inv_head in Heq as ->.
    destruct rest as [|z rest].
    + rewrite app_nil_r in Heq'. congruence.
    + assert (Hz : hex_digit z).
      { rewrite Forall_forall in Hhex. apply Hhex. rewrite Heq'.
        apply elem_of_app. right. apply list_elem_of_here. }
      cbn [head word_opt] in Hrest. rewrite (hex_is_word z Hz) in Hrest. discriminate.
Qed.
End ScanMore.

Lemma scan_sound_witness :
  exists pre post,
    Sample.before_hash ++ Sample.mixed_hash ++ Sample.after_hash
      = pre ++ Sample.mixed_hash ++ post /\
    length Sample.mixed_hash = 64%nat /\ Forall hex_digit Sample.mixed_hash /\
    word_opt (rt := ascii_runtime) (last pre) = false /\
    word_opt (rt := ascii_runtime) (head post) = false.
Proof.
  refine (scan_sound (rt := ascii_runtime)
            (Sample.before_hash ++ Sample.mixed_hash ++ Sample.after_hash)
            Sample.mixed_hash _).
  in_list.
Defined.

Lemma hex_run_alone_witness :
  findall (rt := ascii_runtime) SHA256_PATTERN (Sample.mixed_hash ++ Sample.mixed_hash)
  = [].
Proof.
  refine (hex_run_alone (rt := ascii_runtime) (Sample.mixed_hash ++ Sample.mixed_hash) _).
  apply hex_run_check. reflexivity.
Defined.

(* ===================================================================== *)
(** ** The feed adapter: further properties                               *)
(* ===================================================================== *)

Lemma od_keys_set {V} (d : odict V) k v k' :
  k' ∈ od_keys (od_set d k v) -> k' = k \/ k' ∈ od_keys d.
Proof.
  intros H%od_mem_keys. destruct (decide (k = k')) as [->|Hne]; [by left|].
  right. apply od_keys_mem. by rewrite od_mem_set_ne in H.
Qed.

Lemma split_on_nonempty d (s : pystr) : split_on d s <> [].
Proof.
  destruct s as [|c s]; simpl; [done|].
  destruct (c =? d); [done|]. by destruct (split_on d s).
Qed.

(** Splitting at a delimiter splits the list of fields. *)
Lemma split_on_cat d (a b : pystr) :
  split_on d (a ++ d :: b) = split_on d a ++ split_on d b.
Proof.
  induction a as [|c a IH]; simpl.
  - by rewrite N.eqb_refl.
  - destruct (c =? d); [by rewrite IH|]. rewrite IH.
    pose proof (split_on_nonempty d a). by destruct (split_on d a).
Qed.

Section FeedMore.
Context {rt : Runtime}.

Lemma urlhaus_line_row today signatures row :
  urlhaus_row_ok row ->
  urlhaus_line today signatures row =
  od_set signatures (urlhaus_row_key row) (urlhaus_row_record row).
Proof.
  intros (Hr & Hrs & H8 & H64).
  unfold urlhaus_line, urlhaus_row_key, urlhaus_row_record, urlhaus_field in *.
  rewrite Hr. destruct (strip row) eqn:Es; [done|].
  destruct (Nat.leb_spec 8 (length (split_on 44 row))); [|lia].
  destruct (Nat.ltb_spec 6 (length (split_on 44 row))); [|lia].
  destruct (Nat.ltb_spec 0 (length (split_on 44 row))); [|lia].
  rewrite H64.
  destruct (lower (strip (nth 4 (split_on 44 row) []))) eqn:El; [discriminate H64|].
  cbn [truthy negb orb Nat.eqb].
  by destruct (strip (nth 6 (split_on 44 row) [])).
Qed.

(** Every line adds at most one key, of 64 characters. *)
Lemma urlhaus_line_keys today signatures line k :
  k ∈ od_keys (urlhaus_line today signatures line) ->
  k ∈ od_keys signatures \/ length k = 64%nat.
Proof.
  unfold urlhaus_line.
  destruct (startswith line (py "#") || negb (truthy (JStr (strip line))));
    [by left|].
  destruct (8 <=? length (split_on 44 line))%nat; [|by left].
  destruct (negb (truthy (JStr (lower (strip (nth 4 (split_on 44 line) []))))))
    eqn:Et; [by left|]. cbn [orb].
  destruct (Nat.eqb_spec (length (lower (strip (nth 4 (split_on 44 line) [])))) 64)
    as [Hlen|Hlen]; [|by left]. cbn [negb].
  intros [->|H]%od_keys_set; auto.
Qed.

(** X10. Every key [fetch_urlhaus_samples] extracts from a feed, whatever
    the feed, has exactly 64 characters. *)
Theorem urlhaus_keys_64 today (feed_text : pystr) k :
  k ∈ od_keys (urlhaus_extract today feed_text) -> length k = 64%nat.
Proof.
  unfold urlhaus_extract.
  assert (Hinv : forall lines signatures,
            (forall k, k ∈ od_keys signatures -> length k = 64%nat) ->
            forall k, k ∈ od_keys (fold_left (urlhaus_line today) lines signatures) ->
                      length k = 64%nat).
  { induction lines as [|line lines IH]; intros signatures Hs k0; [apply Hs|].
    cbn [fold_left]. apply IH. intros k1 Hk1.
    destruct (urlhaus_line_keys today signatures line k1 Hk1); auto. }
  apply Hinv. by intros k0 ?%elem_of_nil.
Qed.

(** X11. Comment lines and blank lines are passed over wherever they
    stand: a line that starts with [#] or is blank can be removed from the
    middle, the start or the end of a feed without changing what is
    extracted. *)
Theorem urlhaus_skips_anywhere today (a c b : pystr) :
  urlhaus_skipped c -> 10 ∉ c ->
  urlhaus_extract today (a ++ 10 :: c ++ 10 :: b) = urlhaus_extract today (a ++ 10 :: b) /\
  urlhaus_extract today (c ++ 10 :: b) = urlhaus_extract today b /\
  urlhaus_extract today (a ++ 10 :: c) = urlhaus_extract today a.
Proof.
  intros Hskip Hc. unfold urlhaus_extract.
  rewrite !split_on_cat, (split_on_single 10 c Hc), !fold_left_app.
  cbn [fold_left]. by rewrite !(urlhaus_line_skip today _ c Hskip).
Qed.

(** X12. Within one feed the last row wins: after any earlier lines, a
    row that yields a record leaves under its hash exactly its own record,
    also when an earlier row had the same hash. *)
Theorem urlhaus_last_row_wins today (earlier row : pystr) :
  urlhaus_row_ok row -> 10 ∉ row ->
  od_get (urlhaus_extract today (earlier ++ 10 :: row)) (urlhaus_row_key row)
  = Some (urlhaus_row_record row).
Proof.
  intros Hok Hrow. unfold urlhaus_extract.
  rewrite split_on_cat, (split_on_single 10 row Hrow), fold_left_app.
  cbn [fold_left]. rewrite urlhaus_line_row by done. apply od_get_set_eq.
Qed.
End FeedMore.

Lemma urlhaus_keys_64_witness : length Sample.hash_a = 64%nat.
Proof.
  refine (urlhaus_keys_64 (rt := ascii_runtime) (py "2024-01-01") Sample.csv_feed
            Sample.hash_a _).
  in_list.
Defined.

Lemma urlhaus_skips_anywhere_witness :
  urlhaus_extract (rt := ascii_runtime) (py "2024-01-01")
    (Cases.csv_row_old ++ 10 :: Sample.csv_comment ++ 10 :: Sample.csv_row)
  = urlhaus_extract (rt := ascii_runtime) (py "2024-01-01")
      (Cases.csv_row_old ++ 10 :: Sample.csv_row) /\
  urlhaus_extract (rt := ascii_runtime) (py "2024-01-01")
    (Sample.csv_comment ++ 10 :: Sample.csv_row)
  = urlhaus_extract (rt := ascii_runtime) (py "2024-01-01") Sample.csv_row /\
  urlhaus_extract (rt := ascii_runtime) (py "2024-01-01")
    (Cases.csv_row_old ++ 10 :: Sample.csv_comment)
  = urlhaus_extract (rt := ascii_runtime) (py "2024-01-01") Cases.csv_row_old.
Proof.
  refine (urlhaus_skips_anywhere (rt := ascii_runtime) (py "2024-01-01")
            Cases.csv_row_old Sample.csv_comment Sample.csv_row _ _).
  - left. reflexivity.
  - not_in_list.
Defined.

Lemma urlhaus_last_row_wins_witness :
  od_get
    (urlhaus_extract (rt := ascii_runtime) (py "2024-01-01")
       (Cases.csv_row_old ++ 10 :: Sample.csv_row))
    Sample.hash_a
  = Some (JObj [ (k_classification, JStr (py "Trojan.Test"));
                 (k_detection_rate, JStr (py "Unknown"));
                 (k_first_seen, JStr (py "2024-01-01 10:00:00"));
                 (k_neartha_name, JStr (py "Malware.Trojan.Test"));
                 (k_additional_info,
                  JStr (py "Downloaded from malicious URL. File type: exe"));
                 (k_file_type, JStr (py "exe")) ]).
Proof.
  refine (urlhaus_last_row_wins (rt := ascii_runtime) (py "2024-01-01")
            Cases.csv_row_old Sample.csv_row _ _).
  - repeat split.
    + intros H. vm_compute in H. discriminate H.
    + vm_compute. lia.
  - not_in_list.
Defined.

(* ===================================================================== *)
(** ** The adapters: what a run writes                                    *)
(* ===================================================================== *)

Lemma save_both_returns clk dir name TODAY data fs :
  exists w1 w2,
    save_both clk dir name TODAY data fs =
    Ret (write_file
           (makedirs (write_file (makedirs fs dir) dir name w1) (py "daily"))
           (py "daily") (dated_file [] TODAY) w2).
Proof.
  unfold save_both.
  destruct (save_returns (save1_iso clk) dir name data fs) as [w1 ->].
  cbn [exc_bind].
  destruct (save_returns (save2_iso clk) (py "daily") (dated_file [] TODAY) data
              (write_file (makedirs fs dir) dir name w1)) as [w2 ->].
  by exists w1, w2.
Qed.

Lemma try_save_both clk dir name TODAY data fs :
  try_except (save_both clk dir name TODAY data fs) (fun _ => Ret fs)
  = save_both clk dir name TODAY data fs.
Proof. by destruct (save_both_returns clk dir name TODAY data fs) as (? & ? & ->). Qed.

(** The single-request adapters have one shape: request, status test,
    extraction, two saves, all inside one [try]. *)
Lemma single_request_shape {J} clk TODAY dir prefix description source
    (get : exc (response J)) (extract : response J -> exc (odict json)) fs :
  try_except
    (let! response := get in
     if Z.eqb (status_code response) 200 then
       let! signatures := extract response in
       save_both clk dir (dated_file prefix TODAY) TODAY
         (new_dataset clk description source signatures) fs
     else Ret fs)
    (fun _ => Ret fs)
  = adapter_save clk TODAY dir prefix description source (answered get extract) fs.
Proof.
  unfold adapter_save, answered. destruct get as [r|e]; [|done]. cbn [exc_bind].
  destruct (Z.eqb (status_code r) 200); [|done].
  destruct (extract r) as [signatures|e]; [|done]. cbn [exc_bind].
  apply try_save_both.
Qed.

Section Runs.
Context {rt : Runtime}.

Lemma urlhaus_run clk TODAY get fs :
  fetch_urlhaus_samples clk TODAY get fs =
  adapter_save clk TODAY (py "urlhaus") [] (py "URLhaus malware hashes collected on ")
    (py "URLhaus") (urlhaus_collected clk get) fs.
Proof.
  unfold urlhaus_collected.
  rewrite <- (single_request_shape clk TODAY (py "urlhaus") []).
  unfold fetch_urlhaus_samples. by destruct get.
Qed.

Lemma malwarebazaar_run clk TODAY post fs :
  fetch_malwarebazaar_samples clk TODAY post fs =
  adapter_save clk TODAY (py "malwarebazaar") []
    (py "MalwareBazaar malware hashes collected on ") (py "MalwareBazaar")
    (malwarebazaar_collected clk post) fs.
Proof.
  unfold malwarebazaar_collected.
  rewrite <- (single_request_shape clk TODAY (py "malwarebazaar") []).
  unfold fetch_malwarebazaar_samples. destruct post as [r|]; [|done].
  cbn [exc_bind]. destruct (Z.eqb (status_code r) 200); [|done].
  by destruct (body r).
Qed.

Lemma blogs_run clk TODAY parse fs :
  fetch_popular_malware_blogs clk TODAY parse fs =
  adapter_save clk TODAY (py "virustotal") (py "blogs_")
    (py "Security blog malware hashes collected on ") (py "Security Blogs")
    (blogs_collected clk parse) fs.
Proof.
  unfold fetch_popular_malware_blogs, blogs_collected, adapter_save.
  by destruct (blog_feeds (now_date clk) parse blogs).
Qed.

Lemma vx_run clk TODAY find_tweets get fs :
  scrape_vx_underground clk TODAY find_tweets get fs =
  adapter_save clk TODAY (py "virustotal") (py "vxunderground_")
    (py "VX-Underground malware hashes collected on ") (py "VX-Underground")
    (vx_collected clk find_tweets get) fs.
Proof.
  unfold vx_collected.
  by rewrite <- (single_request_shape clk TODAY (py "virustotal") (py "vxunderground_")).
Qed.

Lemma malpedia_run clk TODAY get fs :
  scrape_malpedia clk TODAY get fs =
  adapter_save clk TODAY (py "virustotal") (py "malpedia_")
    (py "Malpedia malware hashes collected on ") (py "Malpedia")
    (malpedia_collected clk get) fs.
Proof.
  unfold malpedia_collected.
  rewrite <- (single_request_shape clk TODAY (py "virustotal") (py "malpedia_")).
  unfold scrape_malpedia. destruct get as [r|]; [|done].
  cbn [exc_bind]. destruct (Z.eqb (status_code r) 200); [|done].
  by destruct (body r).
Qed.

Lemma anyrun_run clk TODAY find_submissions get fs :
  scrape_any_run clk TODAY find_submissions get fs =
  adapter_save clk TODAY (py "virustotal") (py "anyrun_")
    (py "ANY.RUN malware hashes collected on ") (py "ANY.RUN")
    (anyrun_collected clk find_submissions get) fs.
Proof.
  unfold anyrun_collected.
  by rewrite <- (single_request_shape clk TODAY (py "virustotal") (py "anyrun_")).
Qed.

Lemma no_answer_collects_nothing {J A} (get : exc (response J))
    (extract : response J -> exc A) :
  no_answer get -> answered get extract = None.
Proof.
  unfold no_answer, answered. destruct get as [r|]; [|done].
  intros H. by destruct (Z.eqb_spec (status_code r) 200).
Qed.

(** X13. No answer, no write: when the request of a single-request
    adapter raises (timeout, connection error) or the status is not 200,
    the adapter returns normally and every file is as it was. This holds
    for the MalwareBazaar, URLhaus, VX-Underground, Malpedia and ANY.RUN
    adapters. *)
Theorem no_answer_no_write clk TODAY fs :
  (forall post, no_answer post ->
     fetch_malwarebazaar_samples clk TODAY post fs = Ret fs) /\
  (forall get, no_answer get ->
     fetch_urlhaus_samples clk TODAY get fs = Ret fs) /\
  (forall find_tweets get, no_answer get ->
     scrape_vx_underground clk TODAY find_tweets get fs = Ret fs) /\
  (forall get, no_answer get ->
     scrape_malpedia clk TODAY get fs = Ret fs) /\
  (forall find_submissions get, no_answer get ->
     scrape_any_run clk TODAY find_submissions get fs = Ret fs).
Proof.
  repeat split.
  - intros post H. rewrite malwarebazaar_run. unfold malwarebazaar_collected.
    by rewrite no_answer_collects_nothing.
  - intros get H. rewrite urlhaus_run. unfold urlhaus_collected.
    by rewrite no_answer_collects_nothing.
  - intros find_tweets get H. rewrite vx_run. unfold vx_collected.
    by rewrite no_answer_collects_nothing.
  - intros get H. rewrite malpedia_run. unfold malpedia_collected.
    by rewrite no_answer_collects_nothing.
  - intros find_submissions get H. rewrite anyrun_run. unfold anyrun_collected.
    by rewrite no_answer_collects_nothing.
Qed.
End Runs.

Lemma adapter_save_writes clk TODAY dir prefix description source signatures fs :
  dir <> py "daily" ->
  exists fs' d1 d2,
    adapter_save clk TODAY dir prefix description source (Some signatures) fs = Ret fs' /\
    read_file fs' dir (dated_file prefix TODAY) = Some (Doc d1) /\
    read_file fs' (py "daily") (dated_file [] TODAY) = Some (Doc d2).
Proof.
  intros Hdir. cbn [adapter_save].
  destruct (save_both_returns clk dir (dated_file prefix TODAY) TODAY
              (new_dataset clk description source signatures) fs) as (w1 & w2 & ->).
  eexists _, w1, w2. split; [reflexivity|]. split.
  - rewrite read_write_other_dir by congruence. rewrite read_makedirs.
    apply read_write_eq.
  - apply read_write_eq.
Qed.

Section RunsMore.
Context {rt : Runtime}.

(** X14. An answered request always leaves both files: when the URLhaus
    request returns status 200, whatever the feed holds (nothing, only
    comments, rows that are all rejected), [fetch_urlhaus_samples] returns
    normally and afterwards both [urlhaus/<TODAY>.json] and
    [daily/<TODAY>.json] exist and load. *)
Theorem urlhaus_answer_writes clk TODAY r fs :
  status_code r = 200%Z ->
  exists fs' d1 d2,
    fetch_urlhaus_samples clk TODAY (Ret r) fs = Ret fs' /\
    read_file fs' (py "urlhaus") (dated_file [] TODAY) = Some (Doc d1) /\
    read_file fs' (py "daily") (dated_file [] TODAY) = Some (Doc d2).
Proof.
  intros Hs. rewrite urlhaus_run. unfold urlhaus_collected, answered. rewrite Hs.
  cbn [Z.eqb Pos.eqb]. apply adapter_save_writes. key_ne.
Qed.

(** X15. Elements of the bulk answer that lack a hash count for nothing:
    the extraction, result or exception, is the one of the answer without
    them, whatever their other members are. *)
Theorem bulk_skips_hashless today : forall items signatures,
  mb_samples today signatures items =
  mb_samples today signatures (List.filter (fun e => negb (lacks_hash e)) items).
Proof.
  induction items as [|e items IH]; intros signatures; [done|].
  cbn [List.filter]. destruct (lacks_hash e) eqn:El; cbn [negb mb_samples].
  - assert (Hskip : mb_sample today signatures e = Ret signatures)
      by (by destruct e as [[[|? ?]|] ?|]).
    rewrite Hskip. apply IH.
  - destruct (mb_sample today signatures e) as [s|x]; [|done]. apply IH.
Qed.
End RunsMore.

(* ===================================================================== *)
(** ** The scraping adapters                                              *)
(* ===================================================================== *)

Lemma od_keys_set_iff {V} (d : odict V) k v k' :
  k' ∈ od_keys (od_set d k v) <-> k' = k \/ k' ∈ od_keys d.
Proof.
  split; [apply od_keys_set|].
  intros [->|H]; apply od_keys_mem.
  - apply od_mem_set.
  - by apply od_mem_set_mono, od_mem_keys.
Qed.


Section ScrapersFacts.
Context {rt : Runtime}.

(** A string classification never makes the normalizer raise. *)
Lemma normalize_string today hash_value s detection_rate additional_info file_type :
  exists record,
    generate_hash_structure today hash_value (JStr s) detection_rate additional_info
      file_type = Ret record /\
    od_get (members_of record) k_first_seen = Some (JStr today).
Proof. eexists. split; reflexivity. Qed.





Lemma anyrun_submission_spec today signatures s :
  match anyrun_hash s with
  | Some k => exists r, anyrun_submission today signatures s = Ret (od_set signatures k r)
  | None => anyrun_submission today signatures s = Ret signatures
  end.
Proof.
  unfold anyrun_submission. destruct (anyrun_hash s) as [k|]; [|done].
  eexists. reflexivity.
Qed.

Lemma anyrun_submissions_spec today : forall submissions signatures,
  exists signatures',
    anyrun_submissions today signatures submissions = Ret signatures' /\
    forall k, k ∈ od_keys signatures' <->
              k ∈ od_keys signatures \/
              exists s, s ∈ submissions /\ anyrun_hash s = Some k.
Proof.
  induction submissions as [|s submissions IH]; intros signatures.
  - exists signatures. split; [done|]. intros k. split; [auto|].
    intros [?|(? & ?%elem_of_nil & _)]; done.
  - cbn [anyrun_submissions].
    pose proof (anyrun_submission_spec today signatures s) as Hs.
    destruct (anyrun_hash s) as [k0|] eqn:Eh.
    + destruct Hs as [r ->]. cbn [exc_bind].
      destruct (IH (od_set signatures k0 r)) as (s' & Hs' & Hk).
      exists s'. split; [done|]. intros k. rewrite Hk, od_keys_set_iff. split.
      * intros [[->|?]|(s0 & Hin & Hh)]; [right|by left|right].
        -- exists s. split; [apply list_elem_of_here|done].
        -- exists s0. split; [by apply list_elem_of_further|done].
      * intros [?|(s0 & Hin & Hh)]; [by left; right|].
        apply elem_of_cons in Hin as [->|Hin].
        -- left. left. congruence.
        -- right. by exists s0.
    + rewrite Hs. cbn [exc_bind].
      destruct (IH signatures) as (s' & Hs' & Hk).
      exists s'. split; [done|]. intros k. rewrite Hk. split.
      * intros [?|(s0 & Hin & Hh)]; [by left|right].
        exists s0. split; [by apply list_elem_of_further|done].
      * intros [?|(s0 & Hin & Hh)]; [by left|right].
        apply elem_of_cons in Hin as [->|Hin]; [congruence|]. by exists s0.
Qed.

(** X17. The ANY.RUN extraction never raises, and its keys are the hashes
    of the submissions: for a submission with a hash element the text of
    that element, stripped and otherwise unchecked; for one without, the
    first run of 64 hexadecimal digits the scan finds in its text; a
    submission with neither is passed over. *)
Theorem anyrun_extraction today submissions :
  exists signatures,
    anyrun_submissions today [] submissions = Ret signatures /\
    (forall k, k ∈ od_keys signatures <->
               exists s, s ∈ submissions /\ anyrun_hash s = Some k) /\
    (forall s k, s ∈ submissions -> anyrun_hash s = Some k ->
       match sha256_elem s with
       | Some elem_text => k = strip elem_text
       | None => length k = 64%nat /\ Forall hex_digit k
       end).
Proof.
  destruct (anyrun_submissions_spec today submissions []) as (s' & Hs' & Hk).
  exists s'. split; [done|]. split.
  - intros k. rewrite Hk. split; [|auto]. by intros [?%elem_of_nil|?].
  - intros s k _. unfold anyrun_hash. destruct (sha256_elem s); [congruence|].
    destruct (findall SHA256_PATTERN (submission_text s)) as [|m ms] eqn:Ef;
      [discriminate|].
    intros [= <-]. pose proof (scan_shape (submission_text s) None 0%nat) as Hshape.
    unfold findall in Ef. rewrite Ef in Hshape. by inversion Hshape.
Qed.
End ScrapersFacts.

Section FreeText.
Context {rt : Runtime}.

(** Keys that are runs of 64 hexadecimal digits. *)
Local Abbreviation well_shaped signatures :=
  (forall k, k ∈ od_keys signatures -> length k = 64%nat /\ Forall hex_digit k).

Lemma vx_hashes_shape today : forall found signatures,
  Forall (fun m => length m = 64%nat /\ Forall hex_digit m) found ->
  well_shaped signatures ->
  exists signatures',
    vx_hashes today signatures found = Ret signatures' /\ well_shaped signatures'.
Proof.
  induction found as [|m found IH]; intros signatures Hfound Hs; [by exists signatures|].
  inversion Hfound as [|? ? Hm Hrest]; subst. cbn [vx_hashes].
  destruct (normalize_string today (JStr m) (py "Malware.VXUnderground")
              (JStr s_Unknown) (JStr (py "Found in VX-Underground Twitter feed"))
              (JStr s_Unknown)) as (record & -> & _).
  cbn [exc_bind]. apply IH; [done|].
  intros k [->|?]%od_keys_set; auto.
Qed.

Lemma vx_tweets_shape today : forall tweets signatures,
  well_shaped signatures ->
  exists signatures',
    vx_tweets today signatures tweets = Ret signatures' /\ well_shaped signatures'.
Proof.
  induction tweets as [|t tweets IH]; intros signatures Hs; [by exists signatures|].
  cbn [vx_tweets].
  destruct (vx_hashes_shape today (findall SHA256_PATTERN t) signatures
              (scan_shape t None 0%nat) Hs) as (s1 & -> & Hs1).
  cbn [exc_bind]. by apply IH.
Qed.

Lemma blog_hashes_shape today b e : forall found signatures,
  Forall (fun m => length m = 64%nat /\ Forall hex_digit m) found ->
  well_shaped signatures ->
  well_shaped (blog_hashes today b e signatures found).1.
Proof.
  induction found as [|m found IH]; intros signatures Hfound Hs; [done|].
  inversion Hfound as [|? ? Hm Hrest]; subst. cbn [blog_hashes].
  destruct (title e) as [t|]; [|done].
  destruct (normalize_string today (JStr m) (py "Malware.SecurityBlog")
              (JStr s_Unknown) (JStr (py "Source: " ++ name b ++ py " - " ++ t))
              (JStr s_Unknown)) as (record & -> & _).
  apply IH; [done|]. intros k [->|?]%od_keys_set; auto.
Qed.

Lemma blog_entries_shape today b : forall entries signatures,
  well_shaped signatures -> well_shaped (blog_entries today b signatures entries).1.
Proof.
  induction entries as [|e entries IH]; intros signatures Hs; [done|].
  cbn [blog_entries].
  assert (He : well_shaped (blog_entry today b signatures e).1).
  { unfold blog_entry. destruct (content e) as [[|v ?]|].
    - done.
    - apply blog_hashes_shape; [apply scan_shape|done].
    - destruct (summary e); [|done].
      apply blog_hashes_shape; [apply scan_shape|done]. }
  destruct (blog_entry today b signatures e) as [s1 [x|]]; [done|]. by apply IH.
Qed.

(** X18. The free-text adapters record only well-shaped hashes: the
    tweet loop of the VX-Underground adapter never raises, and every key
    it records, like every key the blog adapter records, is a run of 64
    hexadecimal digits, whatever the pages and the feeds hold. *)
Theorem free_text_keys today :
  (forall tweets,
     exists signatures,
       vx_tweets today [] tweets = Ret signatures /\
       forall k, k ∈ od_keys signatures -> length k = 64%nat /\ Forall hex_digit k) /\
  (forall parse bs k,
     k ∈ od_keys (blog_feeds today parse bs) ->
     length k = 64%nat /\ Forall hex_digit k).
Proof.
  split.
  - intros tweets. apply vx_tweets_shape. by intros k ?%elem_of_nil.
  - intros parse bs. unfold blog_feeds.
    assert (Hinv : forall bs signatures,
              well_shaped signatures ->
              well_shaped
                (fold_left
                   (fun signatures b =>
                      match parse (feed b) with
                      | Raise _ => signatures
                      | Ret entries =>
                          (blog_entries today b signatures (firstn 10 entries)).1
                      end) bs signatures)).
    { clear bs. induction bs as [|b bs IH]; intros signatures Hs; [done|].
      cbn [fold_left]. apply IH. destruct (parse (feed b)); [|done].
      by apply blog_entries_shape. }
    apply Hinv. by intros k ?%elem_of_nil.
Qed.

(** X19. The blog adapter writes nothing when it found nothing: when
    every feed fails to parse or has no entries, no dataset is saved and
    every file is as it was (the other adapters save an empty dataset). *)
Theorem blogs_nothing_found clk TODAY parse fs :
  (forall b, b ∈ blogs ->
     match parse (feed b) with Ret entries => entries = [] | Raise _ => True end) ->
  fetch_popular_malware_blogs clk TODAY parse fs = Ret fs.
Proof.
  intros Hall. unfold fetch_popular_malware_blogs.
  assert (Hnone : forall bs, (forall b, b ∈ bs -> b ∈ blogs) ->
            blog_feeds (now_date clk) parse bs = []).
  { induction bs as [|b bs IH] using rev_ind; intros Hbs; [done|].
    rewrite blog_feeds_step, IH by (intros; apply Hbs, elem_of_app; auto).
    specialize (Hall b (Hbs b ltac:(apply elem_of_app; right; apply list_elem_of_here))).
    destruct (parse (feed b)) as [entries|]; [|done]. by subst entries. }
  by rewrite Hnone.
Qed.

(** X20. Only the first ten entries of a feed are read: two parsers that
    agree, feed by feed, on failure and on the first ten entries make the
    blog adapter do the same. *)
Theorem blogs_first_ten clk TODAY parse parse' fs :
  (forall b, b ∈ blogs -> same_first_ten (parse (feed b)) (parse' (feed b))) ->
  fetch_popular_malware_blogs clk TODAY parse fs =
  fetch_popular_malware_blogs clk TODAY parse' fs.
Proof.
  intros Hsame. unfold fetch_popular_malware_blogs.
  assert (Heq : forall bs, (forall b, b ∈ bs -> b ∈ blogs) ->
            blog_feeds (now_date clk) parse bs = blog_feeds (now_date clk) parse' bs).
  { induction bs as [|b bs IH] using rev_ind; intros Hbs; [done|].
    rewrite !blog_feeds_step, IH by (intros; apply Hbs, elem_of_app; auto).
    specialize (Hsame b (Hbs b ltac:(apply elem_of_app; right; apply list_elem_of_here))).
    unfold same_first_ten in Hsame.
    destruct (parse (feed b)), (parse' (feed b)); try done. by rewrite Hsame. }
  by rewrite Heq.
Qed.
End FreeText.

Lemma no_answer_no_write_witness :
  fetch_malwarebazaar_samples (rt := ascii_runtime) Sample.clk Sample.TODAY
    (Raise OSError) Sample.tree = Ret Sample.tree /\
  fetch_urlhaus_samples (rt := ascii_runtime) Sample.clk Sample.TODAY
    (Ret Cases.not_found) Sample.tree = Ret Sample.tree /\
  scrape_malpedia (rt := ascii_runtime) Sample.clk Sample.TODAY
    (Ret Cases.not_found_json) Sample.tree = Ret Sample.tree.
Proof.
  destruct (no_answer_no_write (rt := ascii_runtime) Sample.clk Sample.TODAY
              Sample.tree) as (Hmb & Hurl & _ & Hmp & _).
  split; [|split].
  - apply Hmb. exact I.
  - apply Hurl. intros H. vm_compute in H. discriminate H.
  - apply Hmp. intros H. vm_compute in H. discriminate H.
Defined.


Lemma urlhaus_answer_writes_witness :
  exists fs' d1 d2,
    fetch_urlhaus_samples (rt := ascii_runtime) Sample.clk Sample.TODAY
      (Ret Cases.comment_only) Sample.tree_empty = Ret fs' /\
    read_file fs' (py "urlhaus") (dated_file [] Sample.TODAY) = Some (Doc d1) /\
    read_file fs' (py "daily") (dated_file [] Sample.TODAY) = Some (Doc d2).
Proof.
  refine (urlhaus_answer_writes (rt := ascii_runtime) Sample.clk Sample.TODAY
            Cases.comment_only Sample.tree_empty _).
  reflexivity.
Defined.

Lemma free_text_keys_witness :
  length Sample.mixed_hash = 64%nat /\ Forall hex_digit Sample.mixed_hash.
Proof.
  refine (proj2 (free_text_keys (rt := ascii_runtime) (py "2024-01-01"))
            Sample.parse_feed blogs Sample.mixed_hash _).
  in_list.
Defined.

Lemma blogs_nothing_found_witness :
  fetch_popular_malware_blogs (rt := ascii_runtime) Sample.clk Sample.TODAY
    Cases.feeds_down Sample.tree = Ret Sample.tree.
Proof.
  refine (blogs_nothing_found (rt := ascii_runtime) Sample.clk Sample.TODAY
            Cases.feeds_down Sample.tree _).
  intros b _. exact I.
Defined.

Lemma blogs_first_ten_witness :
  fetch_popular_malware_blogs (rt := ascii_runtime) Sample.clk Sample.TODAY
    Cases.long_feed Sample.tree_empty
  = fetch_popular_malware_blogs (rt := ascii_runtime) Sample.clk Sample.TODAY
      Cases.cut_feed Sample.tree_empty.
Proof.
  refine (blogs_first_ten (rt := ascii_runtime) Sample.clk Sample.TODAY
            Cases.long_feed Cases.cut_feed Sample.tree_empty _).
  intros b _. unfold same_first_ten, Cases.long_feed, Cases.cut_feed.
  destruct (str_eqb (feed b) (feed Sample.first_blog)); [reflexivity|exact I].
Defined.

(* ===================================================================== *)
(** ** The statistics aggregator: further properties                      *)
(* ===================================================================== *)

(** X21. What [generate_stats] computes, stated on the tree: the unique
    total is the number of distinct hash keys over the [.json] files of
    the four partitions; a partition is listed exactly when it is one of
    the four and its directory exists, with the number of its [.json]
    files and the sum of the sizes of their record mappings; directories
    other than the four are not listed. *)
Theorem stats_refine now fs :
  last_update (generate_stats now fs) = now /\
  total_unique_hashes (generate_stats now fs) = size (hash_universe fs) /\
  forall P,
    od_get (sources (generate_stats now fs)) P =
    if decide (P ∈ hash_dirs) then dir_summary <$> od_get fs P else None.
Proof.
  split; [|split; [apply stats_total|intros P; apply stats_source]].
  unfold generate_stats. by destruct (count_dirs fs hash_dirs ([], ∅)).
Qed.

Lemma size_list_to_set_le (l : list pystr) :
  (size (list_to_set l : gset pystr) <= length l)%nat.
Proof.
  unfold size, set_size. cbn [fst]. apply submseteq_length, NoDup_submseteq.
  - apply NoDup_elements.
  - intros x Hx. by apply elem_of_elements, elem_of_list_to_set in Hx.
Qed.

Lemma length_concat_le {A B} (f : A -> list B) (g : A -> nat) (l : list A) :
  (forall x, length (f x) <= g x)%nat ->
  (length (concat (map f l)) <= sum_list (map g l))%nat.
Proof.
  intros Hfg. induction l as [|x l IH]; simpl; [done|].
  rewrite length_app. specialize (Hfg x). lia.
Qed.

Lemma file_keys_count (f : file) : (length (file_keys f) <= file_count f)%nat.
Proof.
  destruct f as [|D]; [done|]. destruct D as [| | | | |o]; try done.
  simpl. destruct (od_get o k_sha256_signatures) as [[]|]; simpl; try lia.
  unfold od_keys. by rewrite length_map.
Qed.

(** X22. The unique total never exceeds the sum of the hash counters of
    the partitions, whatever the files hold. *)
Theorem total_at_most_sum now fs :
  (total_unique_hashes (generate_stats now fs)
   <= sum_list (map (hashes_of (generate_stats now fs)) hash_dirs))%nat.
Proof.
  rewrite stats_total. unfold hash_universe.
  etransitivity; [apply size_list_to_set_le|].
  etransitivity.
  - apply (length_concat_le _ (fun d => match od_get fs d with
                                        | Some listing => hashes (dir_summary listing)
                                        | None => 0%nat
                                        end)).
    intros d. destruct (od_get fs d) as [listing|]; [|done].
    unfold dir_keys, dir_summary. cbn [hashes].
    apply length_concat_le. intros [n f]. apply file_keys_count.
  - apply Nat.eq_le_incl. f_equal. apply map_ext_in. intros d Hd.
    unfold hashes_of. rewrite stats_source.
    rewrite decide_True by (by apply list_elem_of_In).
    by destruct (od_get fs d).
Qed.

Lemma count_dir_json_files listing listing' st :
  json_files listing = json_files listing' ->
  count_dir listing st = count_dir listing' st.
Proof.
  intros H. destruct st as [dir_stats total_hashes].
  rewrite !count_dir_spec. unfold dir_summary, dir_keys. by rewrite H.
Qed.

Lemma count_dirs_json_files (fs fs' : filesystem) dirs : forall st,
  (forall d, d ∈ dirs ->
     option_map json_files (od_get (V := odict file) fs d) =
     option_map json_files (od_get (V := odict file) fs' d)) ->
  count_dirs fs dirs st = count_dirs fs' dirs st.
Proof.
  induction dirs as [|d dirs IH]; intros [srcs total_hashes] Hsame; [done|].
  cbn [count_dirs]. pose proof (Hsame d (list_elem_of_here _ _)) as Hd.
  assert (Hrest : forall st, count_dirs fs dirs st = count_dirs fs' dirs st).
  { intros st0. apply IH. intros d0 Hd0. by apply Hsame, list_elem_of_further. }
  destruct (od_get fs d) as [l|], (od_get fs' d) as [l'|]; try discriminate.
  - injection Hd as Hd.
    rewrite (count_dir_json_files l l' _ Hd).
    destruct (count_dir l' _). apply Hrest.
  - apply Hrest.
Qed.

(** X23. The snapshot depends only on the [.json] files of the four
    partitions: two trees that have the same four directories with the
    same [.json] entries give the same snapshot, whatever other files and
    other directories they hold. *)
Theorem stats_reads_json_only now (fs fs' : filesystem) :
  (forall d, d ∈ hash_dirs ->
     option_map json_files (od_get (V := odict file) fs d) =
     option_map json_files (od_get (V := odict file) fs' d)) ->
  generate_stats now fs = generate_stats now fs'.
Proof.
  intros Hsame. unfold generate_stats.
  by rewrite (count_dirs_json_files fs fs' hash_dirs _ Hsame).
Qed.

Lemma stats_reads_json_only_witness :
  generate_stats Sample.t1 Sample.shared_tree
  = generate_stats Sample.t1 Cases.cluttered_tree.
Proof.
  refine (stats_reads_json_only Sample.t1 Sample.shared_tree Cases.cluttered_tree _).
  intros d Hd.
  repeat (apply elem_of_cons in Hd as [->|Hd]; [reflexivity|]).
  by apply elem_of_nil in Hd.
Defined.

(* ===================================================================== *)
(** ** A whole run                                                        *)
(* ===================================================================== *)

Lemma startswith_app (p s : pystr) : startswith (p ++ s) p = true.
Proof.
  induction p as [|c p IH]; simpl; [by destruct s|]. rewrite N.eqb_refl. exact IH.
Qed.

Lemma endswith_app (s p : pystr) : endswith (s ++ p) p = true.
Proof. unfold endswith. rewrite rev_app_distr. apply startswith_app. Qed.

Lemma dated_file_json prefix TODAY : endswith (dated_file prefix TODAY) ext_json = true.
Proof. unfold dated_file. rewrite app_assoc. apply endswith_app. Qed.

(** A hash held by a [.json] file of a partition is in the global set. *)
Lemma keys_at_universe fs dir name h :
  dir ∈ hash_dirs -> endswith name ext_json = true ->
  h ∈ keys_at fs dir name -> h ∈ hash_universe fs.
Proof.
  intros Hdir Hext. unfold keys_at, read_file.
  destruct (od_get fs dir) as [listing|] eqn:El; [|by intros ?%elem_of_nil].
  destruct (od_get listing name) as [f|] eqn:Ef; [|by intros ?%elem_of_nil].
  intros Hh. apply elem_of_hash_universe. exists dir, listing.
  split; [done|]. split; [done|]. apply elem_of_dir_keys.
  exists name, f. split; [by apply od_get_elem|done].
Qed.

(** One adapter seen from the daily file: the file stays mergeable, keeps
    its keys and gains the keys the adapter collected. *)
Lemma adapter_save_daily clk TODAY dir prefix description source collected fs :
  dir <> py "daily" ->
  exists fs',
    adapter_save clk TODAY dir prefix description source collected fs = Ret fs' /\
    (mergeable fs (py "daily") (dated_file [] TODAY) ->
     mergeable fs' (py "daily") (dated_file [] TODAY) /\
     (forall h, h ∈ keys_at fs (py "daily") (dated_file [] TODAY) ->
                h ∈ keys_at fs' (py "daily") (dated_file [] TODAY)) /\
     (forall signatures h, collected = Some signatures -> h ∈ od_keys signatures ->
                h ∈ keys_at fs' (py "daily") (dated_file [] TODAY))).
Proof.
  intros Hdir. destruct collected as [signatures|]; cbn [adapter_save].
  2: { exists fs. split; [done|]. intros Hm. split; [done|]. split; [auto|].
       intros ? ? H. discriminate H. }
  unfold save_both.
  destruct (save_returns (save1_iso clk) dir (dated_file prefix TODAY)
              (new_dataset clk description source signatures) fs) as [w1 ->].
  cbn [exc_bind].
  set (fs1 := write_file (makedirs fs dir) dir (dated_file prefix TODAY) w1).
  assert (Hread : read_file fs1 (py "daily") (dated_file [] TODAY)
                  = read_file fs (py "daily") (dated_file [] TODAY)).
  { unfold fs1. rewrite read_write_other_dir by done. apply read_makedirs. }
  destruct (save_dataset (save2_iso clk) (py "daily") (dated_file [] TODAY) fs1
              (new_dataset clk description source signatures) signatures eq_refl)
    as (W & -> & Hold & Hnew).
  eexists. split; [reflexivity|]. intros Hm.
  assert (Hm1 : mergeable fs1 (py "daily") (dated_file [] TODAY))
    by (unfold mergeable in *; by rewrite Hread).
  destruct (Hnew Hm1) as [HW Hkeys].
  unfold mergeable, keys_at in *. rewrite !read_write_eq. rewrite Hread in Hold.
  split; [done|]. split; [done|]. intros s h [= <-]. apply Hkeys.
Qed.

Section WholeRun.
Context {rt : Runtime}.

(** X24. A whole run: [main] always returns, with the snapshot of the
    tree the six adapters leave, whatever the network delivers. When the
    daily file of the date was missing, unreadable or a dataset at the
    start, it ends up holding every hash it held and every hash any of the
    six adapters collected, and all these hashes are in the global set of
    the snapshot. *)
Theorem run_accumulates_daily TODAY clks net fs :
  exists fs',
    main TODAY clks net fs = Ret (fs', generate_stats (clk_stats clks) fs') /\
    (mergeable fs (py "daily") (dated_file [] TODAY) ->
     forall h,
       h ∈ keys_at fs (py "daily") (dated_file [] TODAY) \/
       (exists signatures,
          Some signatures ∈ run_collected clks net /\ h ∈ od_keys signatures) ->
       h ∈ keys_at fs' (py "daily") (dated_file [] TODAY) /\
       h ∈ hash_universe fs').
Proof.
  unfold main.
  rewrite malwarebazaar_run.
  destruct (adapter_save_daily (clk_malwarebazaar clks) TODAY (py "malwarebazaar") []
              (py "MalwareBazaar malware hashes collected on ") (py "MalwareBazaar")
              (malwarebazaar_collected (clk_malwarebazaar clks) (net_malwarebazaar net))
              fs ltac:(key_ne)) as (fs1 & -> & H1).
  cbn [exc_bind]. rewrite urlhaus_run.
  destruct (adapter_save_daily (clk_urlhaus clks) TODAY (py "urlhaus") []
              (py "URLhaus malware hashes collected on ") (py "URLhaus")
              (urlhaus_collected (clk_urlhaus clks) (net_urlhaus net))
              fs1 ltac:(key_ne)) as (fs2 & -> & H2).
  cbn [exc_bind]. rewrite blogs_run.
  destruct (adapter_save_daily (clk_blogs clks) TODAY (py "virustotal") (py "blogs_")
              (py "Security blog malware hashes collected on ") (py "Security Blogs")
              (blogs_collected (clk_blogs clks) (net_feeds net))
              fs2 ltac:(key_ne)) as (fs3 & -> & H3).
  cbn [exc_bind]. rewrite vx_run.
  destruct (adapter_save_daily (clk_vx clks) TODAY (py "virustotal")
              (py "vxunderground_")
              (py "VX-Underground malware hashes collected on ") (py "VX-Underground")
              (vx_collected (clk_vx clks) (net_vx_tweets net) (net_vx net))
              fs3 ltac:(key_ne)) as (fs4 & -> & H4).
  cbn [exc_bind]. rewrite malpedia_run.
  destruct (adapter_save_daily (clk_malpedia clks) TODAY (py "virustotal")
              (py "malpedia_")
              (py "Malpedia malware hashes collected on ") (py "Malpedia")
              (malpedia_collected (clk_malpedia clks) (net_malpedia net))
              fs4 ltac:(key_ne)) as (fs5 & -> & H5).
  cbn [exc_bind]. rewrite anyrun_run.
  destruct (adapter_save_daily (clk_anyrun clks) TODAY (py "virustotal")
              (py "anyrun_")
              (py "ANY.RUN malware hashes collected on ") (py "ANY.RUN")
              (anyrun_collected (clk_anyrun clks) (net_anyrun_submissions net)
                 (net_anyrun net))
              fs5 ltac:(key_ne)) as (fs6 & -> & H6).
  cbn [exc_bind]. exists fs6. split; [reflexivity|].
  intros Hm0 h Hh.
  destruct (H1 Hm0) as (Hm1 & K1 & C1).
  destruct (H2 Hm1) as (Hm2 & K2 & C2).
  destruct (H3 Hm2) as (Hm3 & K3 & C3).
  destruct (H4 Hm3) as (Hm4 & K4 & C4).
  destruct (H5 Hm4) as (Hm5 & K5 & C5).
  destruct (H6 Hm5) as (Hm6 & K6 & C6).
  assert (Hin : h ∈ keys_at fs6 (py "daily") (dated_file [] TODAY)).
  { destruct Hh as [Hh|(signatures & Hc & Hh)]; [by auto 10|].
    unfold run_collected in Hc.
    repeat (apply elem_of_cons in Hc as [Hc|Hc]; [symmetry in Hc; eauto 10|]).
    by apply elem_of_nil in Hc. }
  split; [done|].
  apply (keys_at_universe fs6 (py "daily") (dated_file [] TODAY));
    [in_list | apply dated_file_json | done].
Qed.
End WholeRun.

Lemma run_accumulates_daily_witness :
  exists fs',
    main (rt := ascii_runtime) Sample.TODAY Cases.run_clocks Cases.quiet_network
      Sample.tree_empty
      = Ret (fs', generate_stats Sample.t2 fs') /\
    (Sample.hash_a ∈ keys_at fs' (py "daily") (dated_file [] Sample.TODAY) /\
     Sample.hash_a ∈ hash_universe fs') /\
    (Sample.mixed_hash ∈ keys_at fs' (py "daily") (dated_file [] Sample.TODAY) /\
     Sample.mixed_hash ∈ hash_universe fs').
Proof.
  destruct (run_accumulates_daily (rt := ascii_runtime) Sample.TODAY Cases.run_clocks
              Cases.quiet_network Sample.tree_empty) as (fs' & Hrun & Hkeys).
  exists fs'. split; [exact Hrun|]. split.
  - apply (Hkeys I). right. eexists. split.
    + apply list_elem_of_further, list_elem_of_here.
    + in_list.
  - apply (Hkeys I). right. eexists. split.
    + apply list_elem_of_further, list_elem_of_further, list_elem_of_here.
    + in_list.
Defined.
